(** * Reddit-VAR-Sentiment: the scrape / flatten / join / graph pipeline

    A shallow embedding of [src/reddit.py] (class [RedditScraper]) and
    [src/utils.py] ([_type_defence]).

    - Python values that reach the public methods are [pyval]s, so the
      [_type_defence] calls are part of the model.
    - Python dicts are insertion-ordered association lists ([pydict]).
    - Mutable objects that the class shares between its attributes, its
      return values and its deep copies (result bundles and DataFrames) live
      in an explicit heap; attributes and return values hold locations.
    - The PRAW client is an oracle stored in the object ([reddit]); every
      request made to it is appended to [io_log].
    - Exceptions are values of [exn]; a method is a function from the object
      state to an outcome and a new state, and a raised exception keeps the
      mutations made before it. *)

From Stdlib Require Import ZArith Lia Bool.
From stdpp Require Import base list strings.

Open Scope string_scope.
Open Scope list_scope.
Set Warnings "-register-all".

(** ** Exceptions and the method monad *)

Inductive exn : Type :=
| TypeError (msg : string)
| ValueError (msg : string)
| UserWarning (msg : string)
| KeyError (key : string)
| AttributeError (name : string)
| UpstreamFailure (msg : string)   (* whatever the PRAW client raises *)
| DanglingReference.               (* guard of the heap model; no Python counterpart *)

Inductive result (A : Type) : Type :=
| Ok (a : A)
| Raise (e : exn).
Arguments Ok {A} a.
Arguments Raise {A} e.

Module Py.

(** ** Values passed by callers *)

Inductive pyval : Type :=
| PNone
| PBool (b : bool)
| PInt (z : Z)
| PFloat (bits : Z)
| PStr (s : string)
| PList (l : list pyval).

Inductive pytype : Type := Tstr | Tint | Tbool | Tlist.

(** [isinstance(obj, exp_type)]; [bool] is a subclass of [int]. *)
Definition isinstance (obj : pyval) (t : pytype) : bool :=
  match obj, t with
  | PStr _, Tstr => true
  | PInt _, Tint => true
  | PBool _, Tint => true
  | PBool _, Tbool => true
  | PList _, Tlist => true
  | _, _ => false
  end.

(** [type(obj)] as it prints inside an f-string. *)
Definition type_repr (obj : pyval) : string :=
  match obj with
  | PNone => "<class 'NoneType'>"
  | PBool _ => "<class 'bool'>"
  | PInt _ => "<class 'int'>"
  | PFloat _ => "<class 'float'>"
  | PStr _ => "<class 'str'>"
  | PList _ => "<class 'list'>"
  end.

(** utils.py, [_type_defence]. [type(exp_type)] is the metaclass, hence the
    constant text in the message. *)
Definition _type_defence (obj : pyval) (exp_type : pytype) (param_nm : string)
  : result unit :=
  if isinstance obj exp_type then Ok tt
  else Raise (TypeError ("Expected an object of type <class 'type'> for '"
                           +:+ param_nm +:+ "'. Got " +:+ type_repr obj)).

(** ** Insertion-ordered dicts with string keys *)

Definition pydict (V : Type) : Type := list (string * V).

Fixpoint dict_get {V} (k : string) (d : pydict V) : option V :=
  match d with
  | [] => None
  | (k', v) :: d' => if String.eqb k k' then Some v else dict_get k d'
  end.

(** [d[k] = v]: an existing key keeps its position, a new key goes last. *)
Fixpoint dict_set {V} (k : string) (v : V) (d : pydict V) : pydict V :=
  match d with
  | [] => [(k, v)]
  | (k', v') :: d' =>
      if String.eqb k k' then (k', v) :: d' else (k', v') :: dict_set k v d'
  end.

Fixpoint dict_del {V} (k : string) (d : pydict V) : pydict V :=
  match d with
  | [] => []
  | (k', v') :: d' =>
      if String.eqb k k' then d' else (k', v') :: dict_del k d'
  end.

Definition dict_keys {V} (d : pydict V) : list string := map fst d.
Definition dict_values {V} (d : pydict V) : list V := map snd d.

End Py.
Export Py.

(** ** Table cells and DataFrames *)

Inductive cell : Type :=
| CNull                      (* None / NaN *)
| CStr (s : string)
| CInt (z : Z)
| CFloat (bits : Z)          (* a binary64, carried and never computed with *)
| CDate (stamp : Z).         (* datetime.fromtimestamp of the float [stamp] *)

Definition cell_eqb (a b : cell) : bool :=
  match a, b with
  | CNull, CNull => true
  | CStr x, CStr y => String.eqb x y
  | CInt x, CInt y => Z.eqb x y
  | CFloat x, CFloat y => Z.eqb x y
  | CDate x, CDate y => Z.eqb x y
  | _, _ => false
  end.

Module Pandas.

(** A DataFrame is a list of column labels and a list of rows, each row
    aligned with the labels. Index labels are not modelled: no method of the
    class reads them, and [merge] renumbers them. Column dtypes are not
    modelled either, so [astype] is the identity on cells. pandas may widen
    the dtype of a numeric column when it concatenates or joins frames (an
    int64 column comes out as float64 next to an empty or a null-holding
    one); a number cell of a frame stands for its value, whichever dtype the
    column has, and no statement below depends on the dtype. *)
Record DataFrame : Type := mkFrame {
  columns : list string;
  rows : list (list cell)
}.

(** [pd.DataFrame()] and [pd.DataFrame(None)]. *)
Definition empty_frame : DataFrame := mkFrame [] [].

Definition has_label (c : string) (cols : list string) : bool :=
  existsb (String.eqb c) cols.

Fixpoint index_of (c : string) (cols : list string) : option nat :=
  match cols with
  | [] => None
  | c' :: cols' =>
      if String.eqb c c' then Some 0 else option_map S (index_of c cols')
  end.

(** [pd.DataFrame(d)] for a dict of lists: the keys become the columns, and
    arrays of unequal length are refused. *)
Definition frame_of_dict (d : pydict (list cell)) : result DataFrame :=
  match d with
  | [] => Ok empty_frame
  | (_, first) :: _ =>
      let n := length first in
      if forallb (fun c => Nat.eqb (length c) n) (dict_values d)
      then Ok (mkFrame (dict_keys d)
                 (map (fun i => map (fun c => nth i c CNull) (dict_values d))
                    (seq 0 n)))
      else Raise (ValueError "All arrays must be of the same length")
  end.

(** [pd.DataFrame(comments)] where [comments] may be [None]. *)
Definition frame_of_optional (d : option (pydict (list cell))) : result DataFrame :=
  match d with
  | None => Ok empty_frame
  | Some d => frame_of_dict d
  end.

Definition row_get (cols : list string) (c : string) (r : list cell) : cell :=
  match index_of c cols with
  | Some i => nth i r CNull
  | None => CNull
  end.

Definition reindex (cols : list string) (df : DataFrame) : list (list cell) :=
  map (fun r => map (fun c => row_get (columns df) c r) cols) (rows df).

(** [pd.concat([a, b], axis=0)]: the columns are the union in order of first
    appearance, the rows of [a] come before the rows of [b], and a column a
    frame lacks is filled with nulls. *)
Definition concat (a b : DataFrame) : DataFrame :=
  let cols := columns a
              ++ filter (fun c => negb (has_label c (columns a))) (columns b) in
  mkFrame cols (reindex cols a ++ reindex cols b).

(** [df.name] read as an attribute. *)
Definition get_column (df : DataFrame) (name : string) : result (list cell) :=
  match index_of name (columns df) with
  | Some i => Ok (map (fun r => nth i r CNull) (rows df))
  | None => Raise (AttributeError name)
  end.

(** [df.name = values] for a column that exists. *)
Definition set_column (df : DataFrame) (name : string) (values : list cell)
  : DataFrame :=
  match index_of name (columns df) with
  | Some i =>
      mkFrame (columns df)
        (map (fun '(r, v) => <[i:=v]> r) (combine (rows df) values))
  | None => df
  end.

(** [series.astype("object")]: the cells are unchanged. *)
Definition astype_object (values : list cell) : list cell := values.

(** The left part of a joined row whose key matched no row of [left]: null
    everywhere but in the key column. *)
Definition null_post_side (left : DataFrame) (il : nat) (k : cell) : list cell :=
  <[il:=k]> (map (fun _ => CNull) (columns left)).

(** The joined rows one row of the right frame gives: one per left row with
    the same key, or a single row whose left part is null except for the
    key, which a right join takes from the right frame. *)
Definition join_right_row (left : DataFrame) (il ir : nat) (r : list cell)
  : list (list cell) :=
  let k := nth ir r CNull in
  match filter (fun l => cell_eqb (nth il l CNull) k) (rows left) with
  | [] => [null_post_side left il k ++ delete ir r]
  | ls => map (fun l => l ++ delete ir r) ls
  end.

(** [left.merge(right, how="right", on=on)]. The key column appears once, in
    the position it has in [left]; a label other than the key that both
    frames carry gets the suffixes [_x] and [_y]. Rows follow the order of
    [right]. *)
Definition merge_right (left right : DataFrame) (on : string) : result DataFrame :=
  match index_of on (columns left), index_of on (columns right) with
  | Some il, Some ir =>
      let lcols := map (fun c => if String.eqb c on then c
                                 else if has_label c (columns right)
                                      then c +:+ "_x" else c) (columns left) in
      let rcols := map (fun c => if has_label c (columns left)
                                 then c +:+ "_y" else c)
                     (delete ir (columns right)) in
      Ok (mkFrame (lcols ++ rcols)
            (flat_map (join_right_row left il ir) (rows right)))
  | _, _ => Raise (KeyError on)
  end.

(** [df.rename(columns=mapping)]: a label that is a key of the mapping is
    replaced, the others stay, the rows are untouched. *)
Definition rename_columns (mapping : pydict string) (df : DataFrame) : DataFrame :=
  mkFrame (map (fun c => match dict_get c mapping with
                         | Some c' => c'
                         | None => c
                         end) (columns df))
    (rows df).

End Pandas.
Export Pandas.

(** ** The PRAW client, seen from the scraper *)

Module Praw.

(** A comment as [post.comments.list()] yields it. [author] is [None] for a
    deleted account, otherwise the Redditor, of which only [name] is read. *)
Record Comment : Type := mkComment {
  c_id : string;
  c_body : string;
  c_author : option string;
  c_score : Z;
  c_created : Z
}.

(** A post handle. [s_comments] is what [post.comments.replace_more(limit=0)]
    followed by [post.comments.list()] gives: the flattened comments, or the
    exception the request raises. *)
Record Submission : Type := mkSubmission {
  s_id : string;
  s_title : string;
  s_author : option string;
  s_author_flair_text : option string;
  s_score : Z;
  s_upvote_ratio : Z;
  s_created : Z;
  s_comments : result (list Comment)
}.

(** The lazy sequence [sub.search(...)] returns: the handles it yields, then
    possibly an exception raised while fetching the next page. *)
Record Listing : Type := mkListing {
  items : list Submission;
  failure : option exn
}.

Inductive io_event : Type :=
| IOSearch (subreddit query : string) (limit : pyval) (sort time_filter : string)
| IOComments (post_id : string).

(** The client answers a search from the requests made so far and the
    arguments of [subreddit(...).search(...)]. *)
Definition Reddit : Type :=
  list io_event -> string -> string -> pyval -> string -> string -> Listing.

End Praw.
Export Praw.

(** ** Objects, heap and the scraper's state *)

(** A result bundle: the dict [all_posts]. Only the key ["comments"] holds a
    nested dict, every other key holds a list; [b_fields] keeps the list
    entries in insertion order and [b_comments] is the entry under
    ["comments"], [None] once it has been popped. *)
Record bundle : Type := mkBundle {
  b_fields : pydict (list cell);
  b_comments : option (pydict (list cell))
}.

Inductive obj : Type :=
| OBundle (b : bundle)
| OFrame (df : DataFrame).

(** Locations are positions in the heap. *)
Abbreviation loc := nat (only parsing).

(** The attributes of a [RedditScraper] (credentials left out), the heap
    they point into and the log of requests sent to Reddit. The two outer
    levels of [scraped_data] are held by value: no method hands out a
    reference to them. *)
Record state : Type := mkState {
  reddit : Reddit;
  scraped_data : pydict (pydict loc);
  posts_df : option loc;
  comments_df : option loc;
  joined_data_df : option loc;
  edges : option loc;
  nodes : option loc;
  heap : list obj;
  io_log : list io_event
}.

Definition set_scraped_data (v : pydict (pydict loc)) (s : state) : state :=
  mkState (reddit s) v (posts_df s) (comments_df s) (joined_data_df s)
    (edges s) (nodes s) (heap s) (io_log s).
Definition set_frames (p c : option loc) (s : state) : state :=
  mkState (reddit s) (scraped_data s) p c (joined_data_df s)
    (edges s) (nodes s) (heap s) (io_log s).
Definition set_joined_data_df (v : option loc) (s : state) : state :=
  mkState (reddit s) (scraped_data s) (posts_df s) (comments_df s) v
    (edges s) (nodes s) (heap s) (io_log s).
Definition set_heap (h : list obj) (s : state) : state :=
  mkState (reddit s) (scraped_data s) (posts_df s) (comments_df s)
    (joined_data_df s) (edges s) (nodes s) h (io_log s).
Definition set_io_log (l : list io_event) (s : state) : state :=
  mkState (reddit s) (scraped_data s) (posts_df s) (comments_df s)
    (joined_data_df s) (edges s) (nodes s) (heap s) l.

(** [RedditScraper.__init__]: nothing scraped, no table yet. *)
Definition init (client : Reddit) : state :=
  mkState client [] None None None None None [] [].

Definition M (A : Type) : Type := state -> result A * state.

Definition ret {A} (a : A) : M A := fun s => (Ok a, s).
Definition raise {A} (e : exn) : M A := fun s => (Raise e, s).
Definition bind {A B} (m : M A) (f : A -> M B) : M B :=
  fun s => match m s with
           | (Ok a, s') => f a s'
           | (Raise e, s') => (Raise e, s')
           end.
Definition lift {A} (r : result A) : M A := fun s => (r, s).
Definition get_state : M state := fun s => (Ok s, s).
Definition modify (f : state -> state) : M unit := fun s => (Ok tt, f s).

Declare Scope py_scope.
Delimit Scope py_scope with py.
Notation "x <- m ;; k" := (bind m (fun x => k))
  (at level 100, m at next level, right associativity) : py_scope.
Notation "m ;; k" := (bind m (fun _ => k))
  (at level 100, k at level 200, right associativity) : py_scope.
Open Scope py_scope.

(** [for x in l: acc = body(acc, x)]. *)
Fixpoint fold_for {A B} (l : list A) (acc : B) (body : B -> A -> M B) : M B :=
  match l with
  | [] => ret acc
  | x :: l' => acc' <- body acc x ;; fold_for l' acc' body
  end.

Definition alloc (o : obj) : M loc :=
  fun s => (Ok (length (heap s)), set_heap (heap s ++ [o]) s).

Definition read_bundle (l : loc) : M bundle :=
  fun s => match heap s !! l with
           | Some (OBundle b) => (Ok b, s)
           | _ => (Raise DanglingReference, s)
           end.

Definition read_frame (l : loc) : M DataFrame :=
  fun s => match heap s !! l with
           | Some (OFrame df) => (Ok df, s)
           | _ => (Raise DanglingReference, s)
           end.

Definition write (l : loc) (o : obj) : M unit :=
  modify (fun s => set_heap (<[l:=o]> (heap s)) s).

Definition log (e : io_event) : M unit :=
  modify (fun s => set_io_log (io_log s ++ [e]) s).

(** ** [RedditScraper._obtain_comments] and [scrape_subreddit] *)

(** The payload of a value that has passed its [_type_defence]. *)
Definition as_str (v : pyval) : string :=
  match v with PStr s => s | _ => "" end.
Definition as_index (v : pyval) : Z :=
  match v with PInt z => z | PBool true => 1%Z | _ => 0%Z end.
Definition truthy (v : pyval) : bool :=
  match v with
  | PBool b => b
  | PInt z => negb (Z.eqb z 0)
  | PStr s => negb (String.eqb s "")
  | PList l => match l with [] => false | _ => true end
  | PFloat _ => true
  | PNone => false
  end.

(** [l[:n]]: a negative bound counts from the end. *)
Definition slice_to {A} (n : Z) (l : list A) : list A :=
  if (0 <=? n)%Z then take (Z.to_nat n) l
  else take (Z.to_nat (Z.of_nat (length l) + n)) l.

(** [d[k].append(x)]. *)
Definition list_append (k : string) (x : cell) (d : pydict (list cell))
  : result (pydict (list cell)) :=
  match dict_get k d with
  | Some l => Ok (dict_set k (l ++ [x]) d)
  | None => Raise (KeyError k)
  end.

Definition opt_cell (o : option string) : cell :=
  match o with Some s => CStr s | None => CNull end.

(** One turn of [for comment in post.comments.list()[:comment_limit]].
    [datetime.fromtimestamp] is taken to succeed on the timestamps Reddit
    sends; a timestamp it refused would make the call raise at this point,
    before anything is stored. *)
Definition record_comment (post : Submission) (cur : pydict (list cell))
    (comment : Comment) : M (pydict (list cell)) :=
  cur <- lift (list_append "post_id" (CStr (s_id post)) cur) ;;
  cur <- lift (list_append "comment_id" (CStr (c_id comment)) cur) ;;
  cur <- lift (list_append "comment_content" (CStr (c_body comment)) cur) ;;
  cur <- lift (list_append "comment_author"
                 (CStr (match c_author comment with
                        | Some name => name
                        | None => "unknown_author"
                        end)) cur) ;;
  cur <- lift (list_append "comment_score" (CInt (c_score comment)) cur) ;;
  cur <- lift (list_append "comment_date" (CDate (c_created comment)) cur) ;;
  ret cur.

Definition _obtain_comments (post : Submission)
    (current_comments : pydict (list cell)) (comment_limit : pyval)
  : M (pydict (list cell)) :=
  log (IOComments (s_id post)) ;;
  listed <- lift (s_comments post) ;;
  fold_for (slice_to (as_index comment_limit) listed) current_comments
    (record_comment post).

Definition valid_sorts : list string :=
  ["relevance"; "hot"; "top"; "new"; "comments"].
Definition valid_time_filters : list string :=
  ["all"; "day"; "hour"; "month"; "week"; "year"].

Definition str_in (s : string) (l : list string) : bool :=
  existsb (String.eqb s) l.

(** The literal [all_posts] starts from. *)
Definition new_bundle : bundle :=
  mkBundle
    [("post_id", []); ("title", []); ("author", []); ("author_flair", []);
     ("score", []); ("upvote_ratio", []); ("post_date", [])]
    (Some [("post_id", []); ("comment_id", []); ("comment_content", []);
           ("comment_author", []); ("comment_score", []); ("comment_date", [])]).

Definition append_field (k : string) (x : cell) (b : bundle) : M bundle :=
  d <- lift (list_append k x (b_fields b)) ;;
  ret (mkBundle d (b_comments b)).

(** One turn of [for post in results]. [datetime.fromtimestamp] is taken to
    succeed, as in [record_comment]. *)
Definition scrape_post (get_comments comment_limit : pyval)
    (all_posts : bundle) (post : Submission) : M bundle :=
  all_posts <- append_field "post_id" (CStr (s_id post)) all_posts ;;
  all_posts <- append_field "title" (CStr (s_title post)) all_posts ;;
  all_posts <- append_field "author"
                 (CStr (match s_author post with
                        | Some name => name
                        | None => "unknown_author"
                        end)) all_posts ;;
  all_posts <- append_field "author_flair"
                 (opt_cell (s_author_flair_text post)) all_posts ;;
  all_posts <- append_field "score" (CInt (s_score post)) all_posts ;;
  all_posts <- append_field "upvote_ratio" (CFloat (s_upvote_ratio post)) all_posts ;;
  all_posts <- append_field "post_date" (CDate (s_created post)) all_posts ;;
  if truthy get_comments then
    current <- match b_comments all_posts with
               | Some c => ret c
               | None => raise (KeyError "comments")
               end ;;
    comments <- _obtain_comments post current comment_limit ;;
    ret (mkBundle (b_fields all_posts) (Some comments))
  else ret all_posts.

(** [self.scraped_data[subreddit][search] = all_posts], with the [KeyError]
    handler that creates the inner dict. *)
Definition store_bundle {V} (subreddit search : string) (l : V)
    (data : pydict (pydict V)) : pydict (pydict V) :=
  match dict_get subreddit data with
  | Some inner => dict_set subreddit (dict_set search l inner) data
  | None => dict_set subreddit (dict_set search l []) data
  end.

(** [scrape_subreddit] from the comment [# scrape data] on, with the
    payloads of the checked arguments. The bundle is a local object until it
    is stored, so the model allocates it at that point; the returned dict
    [{subreddit: all_posts}] holds the same reference as the store. *)
Definition scrape_body (c q : string) (post_limit : pyval) (so tf : string)
    (get_comments comment_limit : pyval) : M (pydict loc) :=
  s <- get_state ;;
  let results := reddit s (io_log s) c q post_limit so tf in
  log (IOSearch c q post_limit so tf) ;;
  all_posts <- fold_for (items results) new_bundle
                 (scrape_post get_comments comment_limit) ;;
  match failure results with Some e => raise e | None => ret tt end ;;
  l <- alloc (OBundle all_posts) ;;
  modify (fun s => set_scraped_data (store_bundle c q l (scraped_data s)) s) ;;
  ret [(c, l)].

(** The defences of [scrape_subreddit], then its body. *)
Definition scrape_subreddit
    (subreddit search post_limit sort time_filter get_comments comment_limit : pyval)
  : M (pydict loc) :=
  lift (_type_defence subreddit Tstr "subreddit") ;;
  lift (_type_defence search Tstr "search") ;;
  lift (_type_defence post_limit Tint "post_limit") ;;
  lift (_type_defence sort Tstr "sort") ;;
  (if str_in (as_str sort) valid_sorts then ret tt
   else raise (ValueError
     "Sort must be one of ['relevance', 'hot', 'top', 'new', 'comments']")) ;;
  lift (_type_defence time_filter Tstr "time_filter") ;;
  (if str_in (as_str time_filter) valid_time_filters then ret tt
   else raise (ValueError
     "Time filter must be one of ['all', 'day', 'hour', 'month', 'week', 'year']")) ;;
  lift (_type_defence get_comments Tbool "get_comments") ;;
  lift (_type_defence comment_limit Tint "comment_limit") ;;
  scrape_body (as_str subreddit) (as_str search) post_limit (as_str sort)
    (as_str time_filter) get_comments comment_limit.

Definition list_items (v : pyval) : list pyval :=
  match v with PList l => l | _ => [] end.

Definition multi_scrape
    (subreddits search post_limit sort time_filter get_comments comment_limit : pyval)
  : M (pydict loc) :=
  lift (_type_defence subreddits Tlist "subreddit") ;;
  (if (length (list_items subreddits) <=? 0)%nat
   then raise (UserWarning "Can not scrape data as no subreddit was specified.")
   else ret tt) ;;
  fold_for (list_items subreddits) []
    (fun combined_data sub =>
       data <- scrape_subreddit sub search post_limit sort time_filter
                 get_comments comment_limit ;;
       match dict_get (as_str sub) data with
       | Some b => ret (dict_set (as_str sub) b combined_data)
       | None => raise (KeyError (as_str sub))
       end).

(** ** [semi_format_to_pandas], [full_format_to_pandas], [create_nodes_and_edges] *)

Fixpoint memo_get (l : loc) (memo : list (loc * loc)) : option loc :=
  match memo with
  | [] => None
  | (old, new) :: memo' => if Nat.eqb l old then Some new else memo_get l memo'
  end.

(** [deepcopy] of one bundle reference: an object already copied during this
    deep copy is reused (the memo), otherwise a copy is allocated. *)
Definition deepcopy_ref (l : loc) (memo : list (loc * loc))
  : M (loc * list (loc * loc)) :=
  match memo_get l memo with
  | Some l' => ret (l', memo)
  | None =>
      b <- read_bundle l ;;
      l' <- alloc (OBundle b) ;;
      ret (l', (l, l') :: memo)
  end.

Fixpoint deepcopy_inner (inner : pydict loc) (memo : list (loc * loc))
  : M (pydict loc * list (loc * loc)) :=
  match inner with
  | [] => ret ([], memo)
  | (query, l) :: rest =>
      r <- deepcopy_ref l memo ;;
      rs <- deepcopy_inner rest (snd r) ;;
      ret ((query, fst r) :: fst rs, snd rs)
  end.

Fixpoint deepcopy_outer (data : pydict (pydict loc)) (memo : list (loc * loc))
  : M (pydict (pydict loc)) :=
  match data with
  | [] => ret []
  | (subr, inner) :: rest =>
      r <- deepcopy_inner inner memo ;;
      rs <- deepcopy_outer rest (snd r) ;;
      ret ((subr, fst r) :: rs)
  end.

(** [deepcopy(self.scraped_data)]. *)
Definition deepcopy_scraped_data : M (pydict (pydict loc)) :=
  s <- get_state ;;
  deepcopy_outer (scraped_data s) [].

(** [data_copy[subr][query][k] = v] on the object at [l]. *)
Definition set_field (l : loc) (k : string) (v : list cell) : M unit :=
  b <- read_bundle l ;;
  write l (OBundle (mkBundle (dict_set k v (b_fields b)) (b_comments b))).

(** [data_copy[subr][query].pop("comments", None)]. *)
Definition pop_comments (l : loc) : M (option (pydict (list cell))) :=
  b <- read_bundle l ;;
  write l (OBundle (mkBundle (b_fields b) None)) ;;
  ret (b_comments b).

(** The body of the two nested loops, for the copy at [l] of the bundle
    stored under [subr] and [query]. The accumulator is the pair
    [(posts_df, comments_df)]. *)
Definition flatten_bundle (subr : string) (acc : DataFrame * DataFrame)
    (entry : string * loc) : M (DataFrame * DataFrame) :=
  let query := fst entry in
  let l := snd entry in
  b <- read_bundle l ;;
  items <- match dict_get "post_id" (b_fields b) with
           | Some ids => ret (length ids)
           | None => raise (KeyError "post_id")
           end ;;
  set_field l "subreddit" (replicate items (CStr subr)) ;;
  set_field l "search_query" (replicate items (CStr query)) ;;
  comments <- pop_comments l ;;
  cframe <- lift (frame_of_optional comments) ;;
  b <- read_bundle l ;;
  pframe <- lift (frame_of_dict (b_fields b)) ;;
  ret (concat (fst acc) pframe, concat (snd acc) cframe).

Definition semi_format_to_pandas : M (loc * loc) :=
  data_copy <- deepcopy_scraped_data ;;
  match data_copy with
  | [] => raise (UserWarning "No data has been scraped.")
  | _ => ret tt
  end ;;
  tables <- fold_for data_copy (empty_frame, empty_frame)
              (fun acc sub => fold_for (snd sub) acc (flatten_bundle (fst sub))) ;;
  posts <- alloc (OFrame (fst tables)) ;;
  comments <- alloc (OFrame (snd tables)) ;;
  modify (set_frames (Some posts) (Some comments)) ;;
  ret (posts, comments).

(** [df.post_id = df.post_id.astype("object")] on the object at [l]. *)
Definition retype_post_id (l : loc) : M unit :=
  df <- read_frame l ;;
  ids <- lift (get_column df "post_id") ;;
  write l (OFrame (set_column df "post_id" (astype_object ids))).

Definition full_format_to_pandas : M loc :=
  tables <- semi_format_to_pandas ;;
  retype_post_id (fst tables) ;;
  retype_post_id (snd tables) ;;
  all_posts <- read_frame (fst tables) ;;
  all_comments <- read_frame (snd tables) ;;
  joined <- lift (merge_right all_posts all_comments "post_id") ;;
  l <- alloc (OFrame joined) ;;
  modify (set_joined_data_df (Some l)) ;;
  ret l.

(** [list(set(xs))]: one occurrence of each value. Python leaves the order
    unspecified; the model keeps the order of first occurrence. *)
Definition unique (xs : list cell) : list cell :=
  fold_left (fun acc x => if existsb (cell_eqb x) acc then acc else acc ++ [x])
    xs [].

Definition edge_renaming : pydict string :=
  [("comment_author", "source"); ("author", "target")].

(** The method from [copied_data = deepcopy(self.joined_data_df)] on, for a
    joined table that exists. *)
Definition nodes_and_edges_from (joined : loc) : M (loc * loc) :=
  df <- read_frame joined ;;
  copied_data <- alloc (OFrame df) ;;
  copy <- read_frame copied_data ;;
  authors <- lift (get_column copy "author") ;;
  copy <- read_frame copied_data ;;
  commenters <- lift (get_column copy "comment_author") ;;
  let possible_users := authors ++ commenters in
  nodes_frame <- lift (frame_of_dict [("id", unique possible_users)]) ;;
  nodes <- alloc (OFrame nodes_frame) ;;
  copy <- read_frame copied_data ;;
  write copied_data (OFrame (rename_columns edge_renaming copy)) ;;
  ret (nodes, copied_data).

Definition create_nodes_and_edges : M (loc * loc) :=
  s <- get_state ;;
  match joined_data_df s with
  | None => full_format_to_pandas ;; ret tt
  | Some _ => ret tt
  end ;;
  s <- get_state ;;
  match joined_data_df s with
  | Some joined => nodes_and_edges_from joined
  | None => raise (AttributeError "author")
  end.


(** ** Predicates used in the statements *)

(** A value is an accepted option when it is a [str] of the enumeration. *)
Definition accepted (v : pyval) (options : list string) : Prop :=
  exists x, v = PStr x /\ In x options.


(** The comments [scrape_subreddit] takes from one post: the first
    [comment_limit] of the flattened list, none when comments are not
    requested. *)
Definition taken (get_comments comment_limit : pyval) (post : Submission)
  : list (string * Comment) :=
  if truthy get_comments then
    match s_comments post with
    | Ok listed =>
        map (fun c => (s_id post, c)) (slice_to (as_index comment_limit) listed)
    | Raise _ => []
    end
  else [].

(** The bundle holding the given posts and (post id, comment) pairs, field
    by field. *)
Definition comments_of (coms : list (string * Comment)) : pydict (list cell) :=
  [("post_id", map (fun pc => CStr (fst pc)) coms);
   ("comment_id", map (fun pc => CStr (c_id (snd pc))) coms);
   ("comment_content", map (fun pc => CStr (c_body (snd pc))) coms);
   ("comment_author",
     map (fun pc => CStr (match c_author (snd pc) with
                          | Some name => name
                          | None => "unknown_author"
                          end)) coms);
   ("comment_score", map (fun pc => CInt (c_score (snd pc))) coms);
   ("comment_date", map (fun pc => CDate (c_created (snd pc))) coms)].

Definition bundle_of (posts : list Submission) (coms : list (string * Comment))
  : bundle :=
  mkBundle
    [("post_id", map (fun p => CStr (s_id p)) posts);
     ("title", map (fun p => CStr (s_title p)) posts);
     ("author", map (fun p => CStr (match s_author p with
                                    | Some name => name
                                    | None => "unknown_author"
                                    end)) posts);
     ("author_flair", map (fun p => opt_cell (s_author_flair_text p)) posts);
     ("score", map (fun p => CInt (s_score p)) posts);
     ("upvote_ratio", map (fun p => CFloat (s_upvote_ratio p)) posts);
     ("post_date", map (fun p => CDate (s_created p)) posts)]
    (Some (comments_of coms)).

(** The exception that stops the loop over the posts, if any: the first
    failing comment request. *)
Fixpoint loop_error (get_comments : pyval) (posts : list Submission) : option exn :=
  match posts with
  | [] => None
  | p :: rest =>
      if truthy get_comments then
        match s_comments p with
        | Ok _ => loop_error get_comments rest
        | Raise e => Some e
        end
      else loop_error get_comments rest
  end.

(** The comment requests the loop sends, in order, up to and including a
    failing one. *)
Fixpoint loop_events (get_comments : pyval) (posts : list Submission)
  : list io_event :=
  match posts with
  | [] => []
  | p :: rest =>
      if truthy get_comments then
        IOComments (s_id p) ::
          match s_comments p with
          | Ok _ => loop_events get_comments rest
          | Raise _ => []
          end
      else loop_events get_comments rest
  end.

(** The arguments pass every defence and both enumeration checks. *)
Definition valid_call
    (subreddit search post_limit sort time_filter get_comments comment_limit : pyval)
  : Prop :=
  (exists c, subreddit = PStr c) /\ (exists q, search = PStr q)
  /\ isinstance post_limit Tint = true
  /\ accepted sort valid_sorts /\ accepted time_filter valid_time_filters
  /\ isinstance get_comments Tbool = true
  /\ isinstance comment_limit Tint = true.

(** The location stored under a (community, query) pair. *)
Definition store_lookup (data : pydict (pydict loc)) (c q : string) : option loc :=
  match dict_get c data with
  | Some inner => dict_get q inner
  | None => None
  end.

(** The invariant of a result bundle: the per-field arrays have one length,
    the arrays of the nested comment container have one length, and every
    [post_id] of the comment container is a [post_id] of the bundle. *)
Definition equal_lengths (d : pydict (list cell)) : Prop :=
  exists n, Forall (fun a => length a = n) (dict_values d).

Definition bundle_invariant (b : bundle) : Prop :=
  equal_lengths (b_fields b)
  /\ exists cd ids cids,
       b_comments b = Some cd /\ equal_lengths cd
       /\ dict_get "post_id" (b_fields b) = Some ids
       /\ dict_get "post_id" cd = Some cids
       /\ (forall x, In x cids -> In x ids).

(** What a post or a comment with this author must be recorded as. *)
Definition recorded_author (author : option string) (recorded : cell) : Prop :=
  match author with
  | None => recorded = CStr "unknown_author"
  | Some name => recorded = CStr name
  end.

(** ** The store seen through the heap *)

(** [points_to h e v]: the entry [e] of an inner dict of the store has the
    key of [v] and its location holds the bundle of [v]. *)
Definition points_to (h : list obj) (e : string * loc) (v : string * bundle) : Prop :=
  fst e = fst v /\ h !! snd e = Some (OBundle (snd v)).

(** [store_at h data view]: [view] is [data] with every location replaced
    by the bundle it points to in [h]. *)
Definition store_at (h : list obj) (data : pydict (pydict loc))
    (view : pydict (pydict bundle)) : Prop :=
  Forall2 (fun e v => fst e = fst v /\ Forall2 (points_to h) (snd e) (snd v))
    data view.

(** The values of a two-level dict, in iteration order. *)
Definition store_values {V} (data : pydict (pydict V)) : list V :=
  flat_map (fun e => map snd (snd e)) data.

Definition store_locs (data : pydict (pydict loc)) : list loc := store_values data.

Definition store_bundles (view : pydict (pydict bundle)) : list bundle :=
  store_values view.

(** A well-formed ScrapeStore: every entry points to a bundle of its own,
    and every bundle satisfies the bundle invariant. *)
Definition store_ok (s : state) (view : pydict (pydict bundle)) : Prop :=
  store_at (heap s) (scraped_data s) view
  /\ NoDup (store_locs (scraped_data s))
  /\ Forall bundle_invariant (store_bundles view).

(** The number of post records and of comment records of a bundle. *)
Definition n_posts (b : bundle) : nat :=
  match dict_get "post_id" (b_fields b) with
  | Some ids => length ids
  | None => 0
  end.

Definition n_comments (b : bundle) : nat :=
  match b_comments b with
  | Some cd => match dict_get "post_id" cd with
               | Some ids => length ids
               | None => 0
               end
  | None => 0
  end.

Definition total_posts (view : pydict (pydict bundle)) : nat :=
  list_sum (map n_posts (store_bundles view)).

Definition total_comments (view : pydict (pydict bundle)) : nat :=
  list_sum (map n_comments (store_bundles view)).

(** The loop of [semi_format_to_pandas] run on the bundles themselves: what
    one bundle adds to the pair (posts table, comments table). *)
Definition flatten_step (subr : string) (acc : DataFrame * DataFrame)
    (entry : string * bundle) : result (DataFrame * DataFrame) :=
  let query := fst entry in
  let b := snd entry in
  match dict_get "post_id" (b_fields b) with
  | None => Raise (KeyError "post_id")
  | Some ids =>
      let items := length ids in
      let fields := dict_set "search_query" (replicate items (CStr query))
                      (dict_set "subreddit" (replicate items (CStr subr))
                         (b_fields b)) in
      match frame_of_optional (b_comments b) with
      | Raise e => Raise e
      | Ok cframe =>
          match frame_of_dict fields with
          | Raise e => Raise e
          | Ok pframe => Ok (concat (fst acc) pframe, concat (snd acc) cframe)
          end
      end
  end.

Fixpoint tables_inner (subr : string) (acc : DataFrame * DataFrame)
    (inner : pydict bundle) : result (DataFrame * DataFrame) :=
  match inner with
  | [] => Ok acc
  | entry :: rest =>
      match flatten_step subr acc entry with
      | Ok acc' => tables_inner subr acc' rest
      | Raise e => Raise e
      end
  end.

Fixpoint tables_outer (acc : DataFrame * DataFrame)
    (view : pydict (pydict bundle)) : result (DataFrame * DataFrame) :=
  match view with
  | [] => Ok acc
  | sub :: rest =>
      match tables_inner (fst sub) acc (snd sub) with
      | Ok acc' => tables_outer acc' rest
      | Raise e => Raise e
      end
  end.

(** The posts table and the comments table of a store. *)
Definition tables (view : pydict (pydict bundle)) : result (DataFrame * DataFrame) :=
  tables_outer (empty_frame, empty_frame) view.

(** The shape of a deep copy allocated from location [n] on. *)
Fixpoint label_inner (n : nat) (inner : pydict bundle) : pydict loc :=
  match inner with
  | [] => []
  | entry :: rest => (fst entry, n) :: label_inner (S n) rest
  end.

Fixpoint label_outer (n : nat) (view : pydict (pydict bundle)) : pydict (pydict loc) :=
  match view with
  | [] => []
  | sub :: rest =>
      (fst sub, label_inner n (snd sub)) :: label_outer (n + length (snd sub)) rest
  end.

(** Every row of a frame has one cell per column. *)
Definition frame_wf (df : DataFrame) : Prop :=
  Forall (fun r => length r = length (columns df)) (rows df).


(** [grows acc acc' bs]: the pair of tables [acc'] is [acc] after the
    bundles [bs] were added to it. *)
Definition grows (acc acc' : DataFrame * DataFrame) (bs : list bundle) : Prop :=
  length (rows (fst acc')) = length (rows (fst acc)) + list_sum (map n_posts bs)
  /\ length (rows (snd acc')) = length (rows (snd acc)) + list_sum (map n_comments bs)
  /\ (frame_wf (fst acc) -> frame_wf (fst acc'))
  /\ (frame_wf (snd acc) -> frame_wf (snd acc'))
  /\ (has_label "post_id" (columns (fst acc)) = true \/ bs <> [] ->
      has_label "post_id" (columns (fst acc')) = true)
  /\ (has_label "post_id" (columns (snd acc)) = true \/ bs <> [] ->
      has_label "post_id" (columns (snd acc')) = true).

(** ** Reading a joined table *)

(** The number of rows of [left] whose key, in column [il], is [k]. *)
Definition matches (left : DataFrame) (il : nat) (k : cell) : nat :=
  length (filter (fun l => cell_eqb (nth il l CNull) k) (rows left)).



(** ** Reading the graph tables *)

(** The nodes table built from the list [possible_users]. *)
Definition nodes_frame (possible_users : list cell) : DataFrame :=
  mkFrame ["id"]
    (map (fun i => [nth i (unique possible_users) CNull])
       (seq 0 (length (unique possible_users)))).

(** The label an edge column has for a column of the joined table. *)
Definition edge_label (c : string) : string :=
  if String.eqb c "comment_author" then "source"
  else if String.eqb c "author" then "target"
  else c.

(** [joined_before s lj s0]: [s0] is the state in which
    [create_nodes_and_edges], called in [s], makes its deep copy, and [lj]
    is the joined table stored there, either the one [s] already had or the
    one [full_format_to_pandas] has just built. *)
Definition joined_before (s : state) (lj : loc) (s0 : state) : Prop :=
  (joined_data_df s = Some lj /\ s0 = s)
  \/ (joined_data_df s = None /\ full_format_to_pandas s = (Ok lj, s0)).

(** ** Further notions used in the statements *)

(** [keeps f m]: running [m] never changes the component [f] of the state,
    whatever the outcome. *)
Definition keeps {A B} (f : state -> B) (m : M A) : Prop :=
  forall s, f (snd (m s)) = f s.

(** The attributes the formatting methods leave alone, and the attributes
    the scraping methods leave alone. *)
Definition outside_formatting (s : state)
  : pydict (pydict loc) * list io_event * option loc * option loc :=
  (scraped_data s, io_log s, edges s, nodes s).

Definition outside_scraping (s : state)
  : option loc * option loc * option loc * option loc * option loc :=
  (posts_df s, comments_df s, joined_data_df s, edges s, nodes s).

(** The number of comments one post contributes under [comment_limit = n]:
    the first [n] when [n] is not negative, all but the last [-n] when it
    is. *)
Definition kept_comments (n : Z) (post : Submission) : nat :=
  match s_comments post with
  | Ok listed =>
      if (0 <=? n)%Z then Nat.min (Z.to_nat n) (length listed)
      else length listed - Z.to_nat (- n)
  | Raise _ => 0
  end.

(** The columns of the two tables of a scraped store, and the row a post
    and a comment give. *)
Definition post_columns : list string :=
  ["post_id"; "title"; "author"; "author_flair"; "score"; "upvote_ratio";
   "post_date"; "subreddit"; "search_query"].

Definition comment_columns : list string :=
  ["post_id"; "comment_id"; "comment_content"; "comment_author";
   "comment_score"; "comment_date"].

Definition post_fields (subr query : string) : list (Submission -> cell) :=
  [fun p => CStr (s_id p);
   fun p => CStr (s_title p);
   fun p => CStr (match s_author p with
                  | Some name => name
                  | None => "unknown_author"
                  end);
   fun p => opt_cell (s_author_flair_text p);
   fun p => CInt (s_score p);
   fun p => CFloat (s_upvote_ratio p);
   fun p => CDate (s_created p);
   fun _ => CStr subr;
   fun _ => CStr query].

Definition comment_fields : list (string * Comment -> cell) :=
  [fun pc => CStr (fst pc);
   fun pc => CStr (c_id (snd pc));
   fun pc => CStr (c_body (snd pc));
   fun pc => CStr (match c_author (snd pc) with
                   | Some name => name
                   | None => "unknown_author"
                   end);
   fun pc => CInt (c_score (snd pc));
   fun pc => CDate (c_created (snd pc))].

Definition post_row (subr query : string) (p : Submission) : list cell :=
  map (fun f => f p) (post_fields subr query).

Definition comment_row (pc : string * Comment) : list cell :=
  map (fun f => f pc) comment_fields.

(** A store as scraping fills it: under each community and query, the posts
    fetched and the (post id, comment) pairs taken. *)
Definition scraped : Type :=
  pydict (pydict (list Submission * list (string * Comment))).

Definition view_of (sv : scraped) : pydict (pydict bundle) :=
  map (fun e => (fst e,
                 map (fun e' => (fst e', bundle_of (fst (snd e')) (snd (snd e'))))
                   (snd e)))
    sv.

Definition inner_post_rows (subr : string)
    (inner : pydict (list Submission * list (string * Comment)))
  : list (list cell) :=
  flat_map (fun e' => map (post_row subr (fst e')) (fst (snd e'))) inner.

Definition inner_comment_rows
    (inner : pydict (list Submission * list (string * Comment)))
  : list (list cell) :=
  flat_map (fun e' => map comment_row (snd (snd e'))) inner.

(** All post rows and all comment rows, in the iteration order of the store
    and, inside a bundle, in fetch order. *)
Definition all_post_rows (sv : scraped) : list (list cell) :=
  flat_map (fun e => inner_post_rows (fst e) (snd e)) sv.

Definition all_comment_rows (sv : scraped) : list (list cell) :=
  flat_map (fun e => inner_comment_rows (snd e)) sv.

(** The columns of the edges table of a scraped store. *)
Definition edge_columns : list string :=
  ["post_id"; "title"; "target"; "author_flair"; "score"; "upvote_ratio";
   "post_date"; "subreddit"; "search_query"; "comment_id"; "comment_content";
   "source"; "comment_score"; "comment_date"].

(** The keys of a dict after [d[k] = v]. *)
Definition keys_after_set (k : string) (keys : list string) : list string :=
  if has_label k keys then keys else keys ++ [k].

(** What the entries of a dict returned by [multi_scrape] point to: the
    bundle the store has under that community and the query [q], a bundle
    that satisfies the bundle invariant. *)
Definition returned_ok (q : string) (combined : pydict loc) (s : state) : Prop :=
  forall c l,
    dict_get c combined = Some l ->
    store_lookup (scraped_data s) c q = Some l
    /\ exists b, heap s !! l = Some (OBundle b) /\ bundle_invariant b.

(** The table accumulated by the loop of [semi_format_to_pandas]: the empty
    frame before the first bundle, a frame with the given columns after. *)
Definition table_so_far (cols : list string) (started : bool)
    (rws : list (list cell)) : DataFrame :=
  if started then mkFrame cols rws else empty_frame.

Definition has_entries {V} (d : pydict V) : bool :=
  match d with [] => false | _ => true end.

(** The columns of the joined table of a scraped store. *)
Definition joined_columns : list string :=
  post_columns ++ ["comment_id"; "comment_content"; "comment_author";
                   "comment_score"; "comment_date"].

(** The rows of the joined table of a scraped store: for each comment row in
    order, that row behind every posts row with its [post_id], or behind
    nulls when there is none. *)
Definition joined_rows (sv : scraped) : list (list cell) :=
  flat_map (join_right_row (mkFrame post_columns (all_post_rows sv)) 0 0)
    (all_comment_rows sv).

(** The values of the [author] and [comment_author] columns of that table. *)
Definition graph_users (sv : scraped) : list cell :=
  map (fun r => nth 2 r CNull) (joined_rows sv)
  ++ map (fun r => nth 11 r CNull) (joined_rows sv).




(** [keeps_objects s s']: every object of the heap of [s] is still at its
    location in [s'], unchanged. *)
Definition keeps_objects (s s' : state) : Prop :=
  forall l o, heap s !! l = Some o -> heap s' !! l = Some o.

(** The comments of one post under [comment_limit = n], in words: the first
    [n] of the flattened list when [n] is not negative, all but the last
    [-n] when it is, each paired with the id of the post. *)
Definition first_comments (n : Z) (post : Submission) : list (string * Comment) :=
  match s_comments post with
  | Ok listed =>
      map (fun c => (s_id post, c))
        (if (0 <=? n)%Z then take (Z.to_nat n) listed
         else take (length listed - Z.to_nat (- n)) listed)
  | Raise _ => []
  end.


(** ** Concrete clients and states used to instantiate the theorems *)

(** A client whose every search comes back empty. *)
Definition quiet_client : Reddit := fun _ _ _ _ _ _ => mkListing [] None.


(** One post by alice with a comment by bob and a comment whose author is
    deleted, and one post whose author is deleted and which has no comment. *)
Definition demo_c1 : Comment := mkComment "c1" "first" (Some "bob") 3 1700000100.
Definition demo_c2 : Comment := mkComment "c2" "second" None 4 1700000200.
Definition demo_p1 : Submission :=
  mkSubmission "p1" "A title" (Some "alice") None 10 4606281698874543309
    1700000000 (Ok [demo_c1; demo_c2]).
Definition demo_p2 : Submission :=
  mkSubmission "p2" "Another" None (Some "flair") 11 4602678819172646912
    1700000050 (Ok []).

(** A client that answers every search with those two posts. *)
Definition demo_client : Reddit :=
  fun _ _ _ _ _ _ => mkListing [demo_p1; demo_p2] None.

Definition demo_scrape (subreddit query : string) : M (pydict loc) :=
  scrape_subreddit (PStr subreddit) (PStr query) (PInt 50) (PStr "top")
    (PStr "all") (PBool true) (PInt 10).

(** The state after scraping "test" for "foo", and then also for "bar". *)
Definition demo_state1 : state := snd (demo_scrape "test" "foo" (init demo_client)).
Definition demo_state2 : state := snd (demo_scrape "test" "bar" demo_state1).

(** The bundle those two posts make, and the stores that hold it under one
    and under two queries. *)
Definition demo_bundle : bundle :=
  bundle_of [demo_p1; demo_p2]
    (flat_map (taken (PBool true) (PInt 10)) [demo_p1; demo_p2]).
Definition demo_view1 : pydict (pydict bundle) :=
  store_bundle "test" "foo" demo_bundle [].
Definition demo_view2 : pydict (pydict bundle) :=
  store_bundle "test" "bar" demo_bundle demo_view1.

(** The state after [full_format_to_pandas] on the one-query store. *)
Definition demo_joined1 : state := snd (full_format_to_pandas demo_state1).

(** A store edited by hand: one bundle with the post "p1", a comment under
    it and a comment under "zz", a post the store does not hold. *)
Definition orphan_bundle : bundle :=
  bundle_of [demo_p1] [("p1", demo_c1); ("zz", demo_c2)].
Definition orphan_state : state :=
  set_scraped_data [("test", [("foo", 0)])]
    (set_heap [OBundle orphan_bundle] (init quiet_client)).

(** A client whose search fails after yielding one post. *)
Definition failing_client : Reddit :=
  fun _ _ _ _ _ _ => mkListing [demo_p1] (Some (UpstreamFailure "rate limit")).


(** The state after scraping "test" for "foo" without comments, and its
    store. *)
Definition demo_state_posts_only : state :=
  snd (scrape_subreddit (PStr "test") (PStr "foo") (PInt 50) (PStr "top")
         (PStr "all") (PBool false) (PInt 10) (init demo_client)).

Definition demo_sv_posts_only : scraped :=
  [("test", [("foo", ([demo_p1; demo_p2], []))])].

(** The state after scraping "test" for "foo" with comments and then again
    without. *)
Definition demo_state_rescraped : state :=
  snd (scrape_subreddit (PStr "test") (PStr "foo") (PInt 50) (PStr "top")
         (PStr "all") (PBool false) (PInt 10) demo_state1).
(** * Properties *)

(** ** Cells *)

Lemma cell_eqb_eq a b : cell_eqb a b = true <-> a = b.
Proof.
  destruct a, b; simpl; split; intros H; try discriminate; try reflexivity;
    try (apply String.eqb_eq in H; congruence);
    try (apply Z.eqb_eq in H; congruence);
    inversion H; subst;
    first [apply String.eqb_refl | apply Z.eqb_refl].
Qed.

Lemma cell_eqb_refl a : cell_eqb a a = true.
Proof. apply cell_eqb_eq; reflexivity. Qed.

(** ** Running the monad *)

Lemma bind_ok {A B} (m : M A) (f : A -> M B) s a s' :
  m s = (Ok a, s') -> bind m f s = f a s'.
Proof. intros H. unfold bind. rewrite H. reflexivity. Qed.

Lemma bind_raise {A B} (m : M A) (f : A -> M B) s e s' :
  m s = (Raise e, s') -> bind m f s = (Raise e, s').
Proof. intros H. unfold bind. rewrite H. reflexivity. Qed.

Lemma bind_inv_ok {A B} (m : M A) (f : A -> M B) s b s' :
  bind m f s = (Ok b, s') ->
  exists a s1, m s = (Ok a, s1) /\ f a s1 = (Ok b, s').
Proof.
  unfold bind. destruct (m s) as [[a | e] s1]; intros H.
  - exists a, s1. split; [reflexivity | exact H].
  - discriminate.
Qed.

Lemma lift_inv_ok {A} (r : result A) s a s' :
  lift r s = (Ok a, s') -> r = Ok a /\ s' = s.
Proof. unfold lift. intros H. inversion H. split; reflexivity. Qed.

(** ** Argument validation (C3, C8) *)

Lemma str_in_In x l : str_in x l = true <-> In x l.
Proof.
  unfold str_in. rewrite existsb_exists. split.
  - intros [y [Hy He]]. apply String.eqb_eq in He. subst. exact Hy.
  - intros H. exists x. split; [exact H | apply String.eqb_refl].
Qed.

Lemma type_defence_cases v t nm :
  (isinstance v t = true /\ _type_defence v t nm = Ok tt)
  \/ (exists m, _type_defence v t nm = Raise (TypeError m)).
Proof.
  unfold _type_defence. destruct (isinstance v t).
  - left. split; reflexivity.
  - right. eexists. reflexivity.
Qed.

Lemma isinstance_str v : isinstance v Tstr = true -> exists x, v = PStr x.
Proof. destruct v; try discriminate. eexists; reflexivity. Qed.

Ltac step_defence v t nm H :=
  let m := fresh "m" in
  let E := fresh "E" in
  destruct (type_defence_cases v t nm) as [[H E] | [m E]];
  [ rewrite (bind_ok (lift (_type_defence v t nm)) _ _ tt _
               ltac:(unfold lift; rewrite E; reflexivity))
  | right; eexists; split;
    [ apply bind_raise; unfold lift; rewrite E; reflexivity
    | left; eexists; reflexivity ] ].

(** Either the call is valid and the method runs its body, or it raises a
    [TypeError] or a [ValueError] in the state it was given. *)
Lemma scrape_validation subreddit search post_limit sort time_filter
    get_comments comment_limit s :
  (valid_call subreddit search post_limit sort time_filter get_comments
     comment_limit
   /\ scrape_subreddit subreddit search post_limit sort time_filter
        get_comments comment_limit s
      = scrape_body (as_str subreddit) (as_str search) post_limit (as_str sort)
          (as_str time_filter) get_comments comment_limit s)
  \/ (exists e,
        scrape_subreddit subreddit search post_limit sort time_filter
          get_comments comment_limit s = (Raise e, s)
        /\ ((exists m, e = TypeError m) \/ (exists m, e = ValueError m))).
Proof.
  unfold scrape_subreddit.
  step_defence subreddit Tstr "subreddit" H1.
  step_defence search Tstr "search" H2.
  step_defence post_limit Tint "post_limit" H3.
  step_defence sort Tstr "sort" H4.
  destruct (str_in (as_str sort) valid_sorts) eqn:Hsort.
  2:{ right. eexists. split; [reflexivity | right; eexists; reflexivity]. }
  rewrite (bind_ok (ret tt) _ _ tt s eq_refl).
  step_defence time_filter Tstr "time_filter" H5.
  destruct (str_in (as_str time_filter) valid_time_filters) eqn:Htf.
  2:{ right. eexists. split; [reflexivity | right; eexists; reflexivity]. }
  rewrite (bind_ok (ret tt) _ _ tt s eq_refl).
  step_defence get_comments Tbool "get_comments" H6.
  step_defence comment_limit Tint "comment_limit" H7.
  left. split; [|reflexivity].
  apply isinstance_str in H1, H2, H4, H5.
  destruct H4 as [so ->], H5 as [tf ->]. simpl in Hsort, Htf.
  repeat split; try assumption.
  - exists so. split; [reflexivity | apply str_in_In; exact Hsort].
  - exists tf. split; [reflexivity | apply str_in_In; exact Htf].
Qed.

(** C3. A [sort] outside relevance/hot/top/new/comments, or a [time_filter]
    outside all/day/hour/month/week/year, makes [scrape_subreddit] raise
    (a [ValueError], or the [TypeError] of a type defence that comes first)
    and leaves the whole state as it was: the store, the heap and the log of
    requests, so nothing was sent to Reddit. *)
Theorem scrape_invalid_option_raises_untouched :
  forall subreddit search post_limit sort time_filter get_comments comment_limit s,
    ~ accepted sort valid_sorts \/ ~ accepted time_filter valid_time_filters ->
    exists e,
      scrape_subreddit subreddit search post_limit sort time_filter
        get_comments comment_limit s = (Raise e, s)
      /\ ((exists m, e = TypeError m) \/ (exists m, e = ValueError m)).
Proof.
  intros subreddit search post_limit sort time_filter get_comments
    comment_limit s Hbad.
  destruct (scrape_validation subreddit search post_limit sort time_filter
              get_comments comment_limit s) as [[Hv _] | Hraise].
  - destruct Hv as (_ & _ & _ & Hs & Ht & _).
    destruct Hbad as [Hbad | Hbad]; contradiction.
  - exact Hraise.
Qed.

Lemma scrape_invalid_option_raises_untouched_witness :
  exists e,
    scrape_subreddit (PStr "test") (PStr "foo") (PInt 50) (PStr "bogus")
      (PStr "all") (PBool true) (PInt 10) (init quiet_client)
    = (Raise e, init quiet_client)
    /\ ((exists m, e = TypeError m) \/ (exists m, e = ValueError m)).
Proof.
  apply scrape_invalid_option_raises_untouched.
  left. intros [x [Hx Hin]]. inversion Hx; subst x.
  simpl in Hin. intuition discriminate.
Defined.

(** C8. [multi_scrape] on an empty list raises the [UserWarning] of its
    guard and returns the state it was given: no request is logged and the
    store is not written. *)
Theorem multi_scrape_empty_raises_untouched :
  forall search post_limit sort time_filter get_comments comment_limit s,
    multi_scrape (PList []) search post_limit sort time_filter
      get_comments comment_limit s
    = (Raise (UserWarning "Can not scrape data as no subreddit was specified."), s).
Proof. intros. reflexivity. Qed.

(** ** The scraping loops in closed form *)

Lemma record_comment_closed post pre c s :
  record_comment post (comments_of pre) c s
  = (Ok (comments_of (pre ++ [(s_id post, c)])), s).
Proof. unfold comments_of. rewrite !map_app. reflexivity. Qed.

Lemma record_comments_closed post cs : forall pre s,
  fold_for cs (comments_of pre) (record_comment post) s
  = (Ok (comments_of (pre ++ map (fun c => (s_id post, c)) cs)), s).
Proof.
  induction cs as [|c cs IH]; intros pre s; simpl fold_for.
  - simpl. rewrite app_nil_r. reflexivity.
  - rewrite (bind_ok _ _ _ _ _ (record_comment_closed post pre c s)).
    rewrite IH. rewrite <- app_assoc. reflexivity.
Qed.

Lemma scrape_post_eq gc cl pre_posts pre_coms p s :
  scrape_post gc cl (bundle_of pre_posts pre_coms) p s =
  if truthy gc then
    (match s_comments p with
     | Ok _ => Ok (bundle_of (pre_posts ++ [p]) (pre_coms ++ taken gc cl p))
     | Raise e => Raise e
     end, set_io_log (io_log s ++ [IOComments (s_id p)]) s)
  else (Ok (bundle_of (pre_posts ++ [p]) pre_coms), s).
Proof.
  unfold scrape_post, append_field, bundle_of, taken.
  destruct (truthy gc).
  - unfold _obtain_comments, bind, lift, ret, raise, log, modify.
    cbn -[comments_of fold_for].
    destruct (s_comments p) as [listed | e]; [|reflexivity].
    rewrite record_comments_closed. rewrite !map_app. reflexivity.
  - unfold bind, lift, ret. cbn. rewrite !map_app. reflexivity.
Qed.

Lemma set_io_log_same s : set_io_log (io_log s) s = s.
Proof. destruct s; reflexivity. Qed.

Lemma scrape_loop_eq gc cl posts : forall pre_posts pre_coms s,
  fold_for posts (bundle_of pre_posts pre_coms) (scrape_post gc cl) s =
  (match loop_error gc posts with
   | Some e => Raise e
   | None => Ok (bundle_of (pre_posts ++ posts)
                   (pre_coms ++ flat_map (taken gc cl) posts))
   end,
   set_io_log (io_log s ++ loop_events gc posts) s).
Proof.
  induction posts as [|p posts IH]; intros pre_posts pre_coms s.
  - simpl. rewrite !app_nil_r, set_io_log_same. reflexivity.
  - simpl fold_for. unfold bind. rewrite scrape_post_eq.
    simpl loop_error. simpl loop_events. simpl flat_map.
    unfold taken at 2.
    destruct (truthy gc) eqn:Hgc.
    + destruct (s_comments p) as [listed | e] eqn:Hp.
      * rewrite IH. unfold taken at 1. rewrite Hgc, Hp.
        destruct s; simpl. rewrite <- !app_assoc. reflexivity.
      * reflexivity.
    + rewrite IH. rewrite <- !app_assoc. simpl. reflexivity.
Qed.

Lemma scrape_body_eq c q pl so tf gc cl s :
  let results := reddit s (io_log s) c q pl so tf in
  let log' := io_log s ++ IOSearch c q pl so tf :: loop_events gc (items results) in
  scrape_body c q pl so tf gc cl s =
  match loop_error gc (items results), failure results with
  | Some e, _ => (Raise e, set_io_log log' s)
  | None, Some e => (Raise e, set_io_log log' s)
  | None, None =>
      (Ok [(c, length (heap s))],
       mkState (reddit s)
         (store_bundle c q (length (heap s)) (scraped_data s))
         (posts_df s) (comments_df s) (joined_data_df s) (edges s) (nodes s)
         (heap s ++ [OBundle (bundle_of (items results)
                                (flat_map (taken gc cl) (items results)))])
         log')
  end.
Proof.
  intros results log'. unfold scrape_body.
  unfold bind at 1. unfold get_state at 1.
  unfold bind at 1. unfold log at 1, modify at 1.
  simpl io_log. simpl reddit. fold results.
  unfold bind at 1.
  change new_bundle with (bundle_of [] []).
  rewrite scrape_loop_eq. simpl io_log.
  rewrite <- app_assoc. simpl app. fold log'.
  destruct (loop_error gc (items results)) as [e|]; [reflexivity|].
  destruct (failure results) as [e|]; reflexivity.
Qed.

(** ** Dicts *)

Lemma dict_get_set_eq {V} k (v : V) d : dict_get k (dict_set k v d) = Some v.
Proof.
  induction d as [|[k' v'] d IH]; simpl.
  - rewrite String.eqb_refl. reflexivity.
  - destruct (String.eqb k k') eqn:E; simpl; rewrite E; [reflexivity | exact IH].
Qed.

Lemma dict_get_set_ne {V} k k' (v : V) d :
  k <> k' -> dict_get k' (dict_set k v d) = dict_get k' d.
Proof.
  intros Hne. induction d as [|[k0 v0] d IH]; simpl.
  - destruct (String.eqb k' k) eqn:E; [|reflexivity].
    apply String.eqb_eq in E. congruence.
  - destruct (String.eqb k k0) eqn:E; simpl.
    + apply String.eqb_eq in E. subst k0.
      destruct (String.eqb_spec k' k) as [-> | _]; [congruence | reflexivity].
    + rewrite IH. reflexivity.
Qed.

Lemma store_lookup_store_bundle_eq c q l data :
  store_lookup (store_bundle c q l data) c q = Some l.
Proof.
  unfold store_lookup, store_bundle.
  destruct (dict_get c data); rewrite dict_get_set_eq; apply dict_get_set_eq.
Qed.

Lemma store_lookup_store_bundle_ne c q l data c' q' :
  (c, q) <> (c', q') ->
  store_lookup (store_bundle c q l data) c' q' = store_lookup data c' q'.
Proof.
  intros Hne. unfold store_lookup, store_bundle.
  destruct (String.eqb_spec c c') as [-> | Hc].
  - assert (Hq : q <> q') by congruence.
    destruct (dict_get c' data) as [inner|] eqn:E; rewrite dict_get_set_eq.
    + apply dict_get_set_ne. exact Hq.
    + rewrite dict_get_set_ne by exact Hq. reflexivity.
  - destruct (dict_get c data); rewrite dict_get_set_ne by exact Hc; reflexivity.
Qed.

(** ** The store after a scrape (C2) *)

(** C2. Whatever its arguments and its outcome, [scrape_subreddit] leaves
    every entry of the store other than the (community, query) pair it was
    called for on the location it had, and leaves every object that existed
    before the call as it was; when the call returns, its own pair holds the
    bundle it returns, a new object. *)
Theorem scrape_writes_only_its_entry :
  forall subreddit search post_limit sort time_filter get_comments comment_limit
         s c' q',
    (subreddit, search) <> (PStr c', PStr q') ->
    let out := scrape_subreddit subreddit search post_limit sort time_filter
                 get_comments comment_limit s in
    store_lookup (scraped_data (snd out)) c' q' = store_lookup (scraped_data s) c' q'
    /\ (forall l o, heap s !! l = Some o -> heap (snd out) !! l = Some o)
    /\ (forall ret, fst out = Ok ret ->
          exists l b,
            ret = [(as_str subreddit, l)]
            /\ store_lookup (scraped_data (snd out)) (as_str subreddit)
                 (as_str search) = Some l
            /\ heap s !! l = None
            /\ heap (snd out) !! l = Some (OBundle b)).
Proof.
  intros subreddit search pl so tf gc cl s c' q' Hne out.
  destruct (scrape_validation subreddit search pl so tf gc cl s)
    as [[Hv Heq] | [e [Heq _]]]; subst out; rewrite Heq.
  2:{ simpl. split; [reflexivity|]. split; [auto|]. intros ret H; discriminate. }
  destruct Hv as ([c ->] & [q ->] & _). simpl as_str.
  assert (Hcq : (c, q) <> (c', q')) by congruence.
  rewrite scrape_body_eq.
  destruct (loop_error gc _) as [e|].
  { simpl. split; [reflexivity|]. split; [auto|]. intros ret H; discriminate. }
  destruct (failure _) as [e|].
  { simpl. split; [reflexivity|]. split; [auto|]. intros ret H; discriminate. }
  simpl. split; [apply store_lookup_store_bundle_ne; exact Hcq|].
  split.
  - intros l o Hl. apply lookup_app_l_Some. exact Hl.
  - intros ret Hret. inversion Hret; subst ret.
    eexists _, _. split; [reflexivity|].
    split; [apply store_lookup_store_bundle_eq|].
    split; [apply lookup_ge_None; lia|].
    rewrite lookup_app_r by lia. rewrite Nat.sub_diag. reflexivity.
Qed.

Lemma scrape_writes_only_its_entry_witness :
  (PStr "test", PStr "bar") <> (PStr "test", PStr "foo")
  /\ store_lookup (scraped_data demo_state2) "test" "foo" = Some 0
  /\ heap demo_state2 !! 0 = heap demo_state1 !! 0.
Proof.
  assert (Hne : (PStr "test", PStr "bar") <> (PStr "test", PStr "foo"))
    by (intros H; inversion H).
  split; [exact Hne|].
  destruct (scrape_writes_only_its_entry (PStr "test") (PStr "bar") (PInt 50)
              (PStr "top") (PStr "all") (PBool true) (PInt 10)
              demo_state1 "test" "foo" Hne) as (Hstore & Hheap & _).
  split.
  - etransitivity; [exact Hstore | reflexivity].
  - etransitivity; [apply Hheap; reflexivity | reflexivity].
Defined.

(** ** The bundle a scrape produces (C4, C7) *)

(** A call that returns was valid, met no failure, allocated the closed-form
    bundle at the end of the heap and stored it under its pair. *)
Lemma scrape_success subreddit search pl so tf gc cl s ret s' :
  scrape_subreddit subreddit search pl so tf gc cl s = (Ok ret, s') ->
  let posts := items (reddit s (io_log s) (as_str subreddit) (as_str search) pl
                        (as_str so) (as_str tf)) in
  valid_call subreddit search pl so tf gc cl
  /\ ret = [(as_str subreddit, length (heap s))]
  /\ heap s' = heap s ++ [OBundle (bundle_of posts (flat_map (taken gc cl) posts))]
  /\ scraped_data s' = store_bundle (as_str subreddit) (as_str search)
                         (length (heap s)) (scraped_data s)
  /\ reddit s' = reddit s
  /\ joined_data_df s' = joined_data_df s.
Proof.
  intros Hrun posts.
  destruct (scrape_validation subreddit search pl so tf gc cl s)
    as [[Hv Heq] | [e [Heq _]]]; rewrite Heq in Hrun; [|discriminate].
  split; [exact Hv|].
  rewrite scrape_body_eq in Hrun. fold posts in Hrun.
  destruct (loop_error gc posts); [discriminate|].
  destruct (failure _); [discriminate|].
  inversion Hrun; subst. simpl. repeat split; reflexivity.
Qed.

Lemma taken_post_id gc cl posts pc :
  In pc (flat_map (taken gc cl) posts) -> exists p, In p posts /\ fst pc = s_id p.
Proof.
  rewrite in_flat_map. intros [p [Hp Hin]]. exists p. split; [exact Hp|].
  unfold taken in Hin. destruct (truthy gc); [|contradiction].
  destruct (s_comments p); [|contradiction].
  apply in_map_iff in Hin. destruct Hin as [c [<- _]]. reflexivity.
Qed.

Lemma bundle_of_invariant gc cl posts :
  bundle_invariant (bundle_of posts (flat_map (taken gc cl) posts)).
Proof.
  split.
  - exists (length posts). simpl.
    repeat (constructor; [apply length_map|]). constructor.
  - eexists _, _, _. split; [reflexivity|]. split.
    + exists (length (flat_map (taken gc cl) posts)). simpl.
      repeat (constructor; [apply length_map|]). constructor.
    + split; [reflexivity|]. split; [reflexivity|].
      intros x Hx. apply in_map_iff in Hx. destruct Hx as [pc [<- Hpc]].
      apply taken_post_id in Hpc. destruct Hpc as [p [Hp ->]].
      apply in_map_iff. exists p. split; [reflexivity | exact Hp].
Qed.

(** C7. The bundle a completed [scrape_subreddit] call returns and stores
    satisfies the bundle invariant: its per-field arrays have one length, the
    arrays of its comment container have one length, and every [post_id] of
    the comment container occurs in the bundle's [post_id] array. *)
Theorem scrape_bundle_invariant :
  forall subreddit search post_limit sort time_filter get_comments comment_limit
         s ret s',
    scrape_subreddit subreddit search post_limit sort time_filter
      get_comments comment_limit s = (Ok ret, s') ->
    exists l b,
      ret = [(as_str subreddit, l)]
      /\ store_lookup (scraped_data s') (as_str subreddit) (as_str search) = Some l
      /\ heap s' !! l = Some (OBundle b)
      /\ bundle_invariant b.
Proof.
  intros subreddit search pl so tf gc cl s ret s' Hrun.
  destruct (scrape_success _ _ _ _ _ _ _ _ _ _ Hrun)
    as (_ & Hret & Hheap & Hdata & _).
  eexists _, _. split; [exact Hret|].
  split; [rewrite Hdata; apply store_lookup_store_bundle_eq|].
  split.
  - rewrite Hheap, lookup_app_r by lia. rewrite Nat.sub_diag. reflexivity.
  - apply bundle_of_invariant.
Qed.

Lemma scrape_bundle_invariant_witness :
  exists l b,
    [("test", 0)] = [(as_str (PStr "test"), l)]
    /\ store_lookup (scraped_data demo_state1) (as_str (PStr "test"))
         (as_str (PStr "foo")) = Some l
    /\ heap demo_state1 !! l = Some (OBundle b)
    /\ bundle_invariant b.
Proof.
  apply (scrape_bundle_invariant (PStr "test") (PStr "foo") (PInt 50)
           (PStr "top") (PStr "all") (PBool true) (PInt 10) (init demo_client)).
  reflexivity.
Defined.

(** C4. In the bundle a completed [scrape_subreddit] call returns, the
    [author] array holds, post by post in fetch order, the author's name when
    the post has an author and the string "unknown_author" when it has none;
    the [comment_author] array of the comment container does the same for
    the comments taken. Every recorded author is a string, so a missing
    author is never recorded as null or as the empty string. *)
Theorem scrape_records_unknown_author :
  forall subreddit search post_limit sort time_filter get_comments comment_limit
         s ret s',
    scrape_subreddit subreddit search post_limit sort time_filter
      get_comments comment_limit s = (Ok ret, s') ->
    let posts := items (reddit s (io_log s) (as_str subreddit) (as_str search)
                          post_limit (as_str sort) (as_str time_filter)) in
    let coms := flat_map (taken get_comments comment_limit) posts in
    exists l b cd authors comment_authors,
      ret = [(as_str subreddit, l)]
      /\ heap s' !! l = Some (OBundle b)
      /\ dict_get "author" (b_fields b) = Some authors
      /\ Forall2 (fun p a => recorded_author (s_author p) a) posts authors
      /\ b_comments b = Some cd
      /\ dict_get "comment_author" cd = Some comment_authors
      /\ Forall2 (fun pc a => recorded_author (c_author (snd pc)) a)
           coms comment_authors
      /\ Forall (fun a => exists name, a = CStr name) (authors ++ comment_authors).
Proof.
  intros subreddit search pl so tf gc cl s ret s' Hrun posts coms.
  destruct (scrape_success _ _ _ _ _ _ _ _ _ _ Hrun)
    as (_ & Hret & Hheap & _).
  fold posts in Hheap. fold coms in Hheap.
  eexists _, _, _, _, _. split; [exact Hret|].
  split; [rewrite Hheap, lookup_app_r by lia; rewrite Nat.sub_diag; reflexivity|].
  split; [reflexivity|]. split.
  { clear. induction posts as [|p ps IH]; simpl; constructor; [|exact IH].
    unfold recorded_author. destruct (s_author p); reflexivity. }
  split; [reflexivity|]. split; [reflexivity|]. split.
  { clear. induction coms as [|c cs IH]; simpl; constructor; [|exact IH].
    unfold recorded_author. destruct (c_author (snd c)); reflexivity. }
  apply Forall_app. split; apply Forall_forall; intros a Ha;
    apply list_elem_of_In, in_map_iff in Ha; destruct Ha as [x [<- _]];
    eexists; reflexivity.
Qed.

Lemma scrape_records_unknown_author_witness :
  exists l b cd authors comment_authors,
    [("test", 0)] = [("test", l)]
    /\ heap demo_state1 !! l = Some (OBundle b)
    /\ dict_get "author" (b_fields b) = Some authors
    /\ Forall2 (fun p a => recorded_author (s_author p) a)
         [demo_p1; demo_p2] authors
    /\ b_comments b = Some cd
    /\ dict_get "comment_author" cd = Some comment_authors
    /\ Forall2 (fun pc a => recorded_author (c_author (snd pc)) a)
         [("p1", demo_c1); ("p1", demo_c2)] comment_authors
    /\ Forall (fun a => exists name, a = CStr name) (authors ++ comment_authors).
Proof.
  apply (scrape_records_unknown_author (PStr "test") (PStr "foo") (PInt 50)
           (PStr "top") (PStr "all") (PBool true) (PInt 10) (init demo_client)).
  reflexivity.
Defined.

(** * Flattening *)

(** ** Reading and writing the object that follows a known prefix *)

Lemma set_heap_same s : set_heap (heap s) s = s.
Proof. destruct s; reflexivity. Qed.

Lemma read_bundle_at pre b post s :
  read_bundle (length pre) (set_heap (pre ++ OBundle b :: post) s)
  = (Ok b, set_heap (pre ++ OBundle b :: post) s).
Proof.
  unfold read_bundle. simpl heap.
  rewrite lookup_app_r by lia. rewrite Nat.sub_diag. reflexivity.
Qed.

Lemma write_at pre o o' post s :
  write (length pre) o' (set_heap (pre ++ o :: post) s)
  = (Ok tt, set_heap (pre ++ o' :: post) s).
Proof.
  unfold write, modify. simpl heap.
  rewrite insert_app_r_alt by lia. rewrite Nat.sub_diag. reflexivity.
Qed.

Lemma set_field_at pre b post k v s :
  set_field (length pre) k v (set_heap (pre ++ OBundle b :: post) s)
  = (Ok tt, set_heap (pre ++ OBundle (mkBundle (dict_set k v (b_fields b))
                                        (b_comments b)) :: post) s).
Proof.
  unfold set_field. rewrite (bind_ok _ _ _ _ _ (read_bundle_at _ _ _ _)).
  apply write_at.
Qed.

Lemma pop_comments_at pre b post s :
  pop_comments (length pre) (set_heap (pre ++ OBundle b :: post) s)
  = (Ok (b_comments b),
     set_heap (pre ++ OBundle (mkBundle (b_fields b) None) :: post) s).
Proof.
  unfold pop_comments. rewrite (bind_ok _ _ _ _ _ (read_bundle_at _ _ _ _)).
  rewrite (bind_ok _ _ _ _ _ (write_at _ _ _ _ _)). reflexivity.
Qed.

Lemma flatten_bundle_at subr acc q pre b post s :
  exists o,
    flatten_bundle subr acc (q, length pre) (set_heap (pre ++ OBundle b :: post) s)
    = (flatten_step subr acc (q, b), set_heap (pre ++ o :: post) s).
Proof.
  unfold flatten_bundle, flatten_step. simpl fst. simpl snd.
  rewrite (bind_ok _ _ _ _ _ (read_bundle_at _ _ _ _)).
  destruct (dict_get "post_id" (b_fields b)) as [ids|] eqn:Hids.
  2:{ exists (OBundle b). reflexivity. }
  rewrite (bind_ok (ret (length ids)) _ _ _ _ eq_refl).
  rewrite (bind_ok _ _ _ _ _ (set_field_at _ _ _ _ _ _)).
  rewrite (bind_ok _ _ _ _ _ (set_field_at _ _ _ _ _ _)).
  rewrite (bind_ok _ _ _ _ _ (pop_comments_at _ _ _ _)).
  simpl b_comments. simpl b_fields.
  eexists.
  destruct (frame_of_optional (b_comments b)) as [cframe | e].
  2:{ unfold bind, lift. reflexivity. }
  rewrite (bind_ok (lift (Ok cframe)) _ _ cframe _ eq_refl).
  rewrite (bind_ok _ _ _ _ _ (read_bundle_at _ _ _ _)).
  simpl b_fields.
  destruct (frame_of_dict _) as [pframe | e]; reflexivity.
Qed.

Lemma flatten_inner_at subr inner : forall pre post acc s,
  exists mid,
    length mid = length inner
    /\ fold_for (label_inner (length pre) inner) acc (flatten_bundle subr)
         (set_heap (pre ++ map OBundle (map snd inner) ++ post) s)
       = (tables_inner subr acc inner, set_heap (pre ++ mid ++ post) s).
Proof.
  induction inner as [|[q b] inner IH]; intros pre post acc s.
  - exists []. split; reflexivity.
  - simpl label_inner. simpl map. simpl fold_for. simpl tables_inner.
    destruct (flatten_bundle_at subr acc q pre b
                (map OBundle (map snd inner) ++ post) s) as [o Ho].
    simpl app. unfold bind. rewrite Ho.
    destruct (flatten_step subr acc (q, b)) as [acc' | e].
    + destruct (IH (pre ++ [o]) post acc' s) as [mid [Hlen Hrun]].
      rewrite length_app, Nat.add_1_r in Hrun.
      rewrite <- app_assoc in Hrun. simpl app in Hrun.
      exists (o :: mid). split; [simpl; lia|].
      rewrite Hrun. rewrite <- app_assoc. reflexivity.
    + exists (o :: map OBundle (map snd inner)). split.
      * simpl. rewrite !length_map. reflexivity.
      * reflexivity.
Qed.

Lemma store_bundles_cons sub view :
  store_bundles (sub :: view) = map snd (snd sub) ++ store_bundles view.
Proof. reflexivity. Qed.

Lemma flatten_outer_at view : forall pre post acc s,
  exists mid,
    length mid = length (store_bundles view)
    /\ fold_for (label_outer (length pre) view) acc
         (fun acc sub => fold_for (snd sub) acc (flatten_bundle (fst sub)))
         (set_heap (pre ++ map OBundle (store_bundles view) ++ post) s)
       = (tables_outer acc view, set_heap (pre ++ mid ++ post) s).
Proof.
  induction view as [|[c inner] view IH]; intros pre post acc s.
  - exists []. split; reflexivity.
  - simpl label_outer. simpl fold_for. simpl tables_outer.
    rewrite store_bundles_cons. simpl snd. rewrite map_app, <- app_assoc.
    destruct (flatten_inner_at c inner pre
                (map OBundle (store_bundles view) ++ post) acc s)
      as [mid1 [Hlen1 Hrun1]].
    unfold bind. rewrite Hrun1.
    destruct (tables_inner c acc inner) as [acc' | e].
    + destruct (IH (pre ++ mid1) post acc' s) as [mid2 [Hlen2 Hrun2]].
      rewrite length_app, Hlen1 in Hrun2.
      rewrite <- app_assoc in Hrun2.
      exists (mid1 ++ mid2). split.
      * rewrite !length_app, length_map. lia.
      * rewrite Hrun2. rewrite <- !app_assoc. reflexivity.
    + exists (mid1 ++ map OBundle (store_bundles view)). split.
      * rewrite !length_app, !length_map. lia.
      * rewrite <- app_assoc. reflexivity.
Qed.

(** ** The deep copy of a store without sharing *)

Lemma memo_get_cons_ne l old new memo :
  l <> old -> memo_get l ((old, new) :: memo) = memo_get l memo.
Proof.
  intros Hne. simpl. destruct (Nat.eqb_spec l old); [contradiction | reflexivity].
Qed.

Lemma deepcopy_ref_fresh l b memo s :
  heap s !! l = Some (OBundle b) ->
  memo_get l memo = None ->
  deepcopy_ref l memo s
  = (Ok (length (heap s), (l, length (heap s)) :: memo),
     set_heap (heap s ++ [OBundle b]) s).
Proof.
  intros Hl Hm. unfold deepcopy_ref. rewrite Hm.
  unfold bind, read_bundle. rewrite Hl. reflexivity.
Qed.

Lemma Forall2_points_to_app h ext inner binner :
  Forall2 (points_to h) inner binner ->
  Forall2 (points_to (h ++ ext)) inner binner.
Proof.
  intros H. eapply Forall2_impl; [exact H|].
  intros e v [Hk Hl]. split; [exact Hk|]. apply lookup_app_l_Some. exact Hl.
Qed.

Lemma deepcopy_inner_run inner binner :
  forall memo s,
    Forall2 (points_to (heap s)) inner binner ->
    NoDup (map snd inner) ->
    (forall l, In l (map snd inner) -> memo_get l memo = None) ->
    exists memo',
      deepcopy_inner inner memo s
      = (Ok (label_inner (length (heap s)) binner, memo'),
         set_heap (heap s ++ map OBundle (map snd binner)) s)
      /\ (forall l, memo_get l memo = None -> ~ In l (map snd inner) ->
                    memo_get l memo' = None).
Proof.
  revert binner.
  induction inner as [|[q l] inner IH]; intros binner memo s Hpt Hnd Hmemo.
  - apply Forall2_nil_inv_l in Hpt. subst binner. exists memo. split.
    + simpl. rewrite app_nil_r, set_heap_same. reflexivity.
    + auto.
  - apply Forall2_cons_inv_l in Hpt.
    destruct Hpt as ([q' b] & binner' & [Hq Hl] & Hrest & ->).
    simpl in Hq, Hl. subst q'.
    simpl map in Hnd. apply NoDup_cons in Hnd. destruct Hnd as [Hnotin Hnd].
    simpl deepcopy_inner.
    rewrite (bind_ok _ _ _ _ _
               (deepcopy_ref_fresh l b memo s Hl (Hmemo l (or_introl eq_refl)))).
    simpl fst. simpl snd.
    destruct (IH binner' ((l, length (heap s)) :: memo)
                (set_heap (heap s ++ [OBundle b]) s)) as [memo' [Hrun Hkeep]].
    + simpl heap. apply Forall2_points_to_app. exact Hrest.
    + exact Hnd.
    + intros l' Hl'. rewrite memo_get_cons_ne.
      * apply Hmemo. right. exact Hl'.
      * intros ->. apply Hnotin. apply list_elem_of_In. exact Hl'.
    + exists memo'. split.
      * rewrite (bind_ok _ _ _ _ _ Hrun). simpl heap.
        rewrite length_app, Nat.add_1_r. simpl.
        rewrite <- app_assoc. reflexivity.
      * intros l' Hl' Hnot. apply Hkeep.
        -- rewrite memo_get_cons_ne; [exact Hl'|].
           intros ->. apply Hnot. left. reflexivity.
        -- intros Hin. apply Hnot. right. exact Hin.
Qed.

Lemma store_at_app h ext data view :
  store_at h data view -> store_at (h ++ ext) data view.
Proof.
  intros H. eapply Forall2_impl; [exact H|].
  intros e v [Hk Hin]. split; [exact Hk|].
  apply (Forall2_points_to_app h ext). exact Hin.
Qed.

Lemma deepcopy_outer_run data view :
  forall memo s,
    store_at (heap s) data view ->
    NoDup (store_locs data) ->
    (forall l, In l (store_locs data) -> memo_get l memo = None) ->
    deepcopy_outer data memo s
    = (Ok (label_outer (length (heap s)) view),
       set_heap (heap s ++ map OBundle (store_bundles view)) s).
Proof.
  revert view.
  induction data as [|[c inner] data IH]; intros view memo s Hat Hnd Hmemo.
  - apply Forall2_nil_inv_l in Hat. subst view. simpl.
    rewrite app_nil_r, set_heap_same. reflexivity.
  - apply Forall2_cons_inv_l in Hat.
    destruct Hat as ([c' binner] & view' & [Hc Hin] & Hrest & ->).
    simpl in Hc, Hin. subst c'.
    unfold store_locs in Hnd. simpl flat_map in Hnd.
    apply NoDup_app in Hnd. destruct Hnd as (Hnd1 & Hdisj & Hnd2).
    destruct (deepcopy_inner_run inner binner memo s Hin Hnd1) as [memo' [Hrun Hkeep]].
    { intros l Hl. apply Hmemo. unfold store_locs. simpl. apply in_or_app.
      left. exact Hl. }
    simpl deepcopy_outer. rewrite (bind_ok _ _ _ _ _ Hrun). simpl fst. simpl snd.
    rewrite (bind_ok _ _ _ _ _
               (IH view' memo' (set_heap (heap s ++ map OBundle (map snd binner)) s)
                  ltac:(simpl heap; apply store_at_app; exact Hrest) Hnd2
                  ltac:(intros l Hl; apply Hkeep;
                        [apply Hmemo; unfold store_locs; simpl; apply in_or_app;
                         right; exact Hl
                        | intros Hl1; apply (Hdisj l);
                          [apply list_elem_of_In; exact Hl1
                          | apply list_elem_of_In; exact Hl]]))).
    simpl heap. rewrite length_app, !length_map.
    rewrite store_bundles_cons. simpl snd. rewrite map_app, <- app_assoc.
    reflexivity.
Qed.
(** [semi_format_to_pandas] on a store without sharing: it computes
    [tables view], after allocating one copy per bundle. *)
Lemma semi_format_run s view :
  store_at (heap s) (scraped_data s) view ->
  NoDup (store_locs (scraped_data s)) ->
  view <> [] ->
  exists mid,
    length mid = length (store_bundles view)
    /\ semi_format_to_pandas s =
       match tables view with
       | Ok t =>
           let posts := length (heap s) + length mid in
           (Ok (posts, S posts),
            set_frames (Some posts) (Some (S posts))
              (set_heap (heap s ++ mid ++ [OFrame (fst t); OFrame (snd t)]) s))
       | Raise e => (Raise e, set_heap (heap s ++ mid) s)
       end.
Proof.
  intros Hat Hnd Hne.
  destruct (flatten_outer_at view (heap s) [] (empty_frame, empty_frame) s)
    as [mid [Hlen Hrun]].
  exists mid. split; [exact Hlen|].
  unfold semi_format_to_pandas, deepcopy_scraped_data.
  rewrite (bind_ok (bind get_state _) _ s
             (label_outer (length (heap s)) view)
             (set_heap (heap s ++ map OBundle (store_bundles view) ++ []) s)).
  2:{ unfold bind at 1. unfold get_state.
      rewrite (deepcopy_outer_run _ view [] s Hat Hnd (fun _ _ => eq_refl)).
      rewrite app_nil_r. reflexivity. }
  rewrite (bind_ok (match label_outer (length (heap s)) view with
                    | [] => raise (UserWarning "No data has been scraped.")
                    | _ => ret tt
                    end) _ _ tt _
             ltac:(destruct view; [contradiction | reflexivity])).
  unfold bind at 1. rewrite Hrun. fold (tables view).
  rewrite app_nil_r.
  destruct (tables view) as [t | e]; [|reflexivity].
  unfold bind, alloc, modify, ret. simpl.
  rewrite !length_app. simpl.
  rewrite <- !app_assoc. simpl.
  rewrite Nat.add_1_r. reflexivity.
Qed.
(** ** Frames built from bundles *)

Lemma dict_get_In {V} k (d : pydict V) a :
  dict_get k d = Some a -> In a (dict_values d).
Proof.
  induction d as [|[k' v'] d IH]; simpl; [discriminate|].
  destruct (String.eqb k k'); intros H.
  - inversion H. left. reflexivity.
  - right. apply IH. exact H.
Qed.

Lemma dict_get_has_label {V} k (d : pydict V) a :
  dict_get k d = Some a -> has_label k (dict_keys d) = true.
Proof.
  induction d as [|[k' v'] d IH]; simpl; [discriminate|].
  destruct (String.eqb k k'); intros H; [reflexivity|].
  apply IH. exact H.
Qed.

Lemma dict_get_set_some {V} k k' (v : V) d a :
  dict_get k d = Some a -> exists a', dict_get k (dict_set k' v d) = Some a'.
Proof.
  intros H. destruct (String.eqb_spec k' k) as [-> | Hne].
  - exists v. apply dict_get_set_eq.
  - exists a. rewrite dict_get_set_ne by exact Hne. exact H.
Qed.

Lemma dict_values_set_Forall (P : list cell -> Prop) k v d :
  Forall P (dict_values d) -> P v -> Forall P (dict_values (dict_set k v d)).
Proof.
  intros Hd Hv. induction d as [|[k' v'] d IH]; simpl.
  - constructor; [exact Hv | constructor].
  - apply Forall_cons in Hd. destruct Hd as [Hv' Hd].
    destruct (String.eqb k k'); simpl; constructor; auto.
Qed.

Lemma dict_set_not_nil {V} k (v : V) d : dict_set k v d <> [].
Proof. destruct d as [|[k' v'] d]; simpl; [|destruct (String.eqb k k')]; discriminate. Qed.

Lemma frame_of_dict_equal d n :
  Forall (fun a => length a = n) (dict_values d) ->
  d <> [] ->
  exists df,
    frame_of_dict d = Ok df /\ length (rows df) = n
    /\ columns df = dict_keys d /\ frame_wf df.
Proof.
  intros Hall Hne. destruct d as [|[k first] d]; [contradiction|].
  unfold frame_of_dict.
  assert (Hfirst : length first = n).
  { apply Forall_cons in Hall. exact (proj1 Hall). }
  rewrite Hfirst.
  assert (Hb : forallb (fun c => Nat.eqb (length c) n)
                 (dict_values ((k, first) :: d)) = true).
  { apply forallb_forall. intros a Ha. apply Nat.eqb_eq.
    rewrite Forall_forall in Hall. apply Hall. apply list_elem_of_In. exact Ha. }
  rewrite Hb. eexists. split; [reflexivity|]. simpl rows. simpl columns.
  split; [rewrite List.length_map, length_seq; reflexivity|].
  split; [reflexivity|].
  unfold frame_wf. simpl rows. simpl columns. apply Forall_forall.
  intros r Hr. apply list_elem_of_In, in_map_iff in Hr.
  destruct Hr as [i [<- _]]. unfold dict_keys, dict_values.
  simpl. rewrite !List.length_map. reflexivity.
Qed.

Lemma concat_rows a b :
  length (rows (concat a b)) = length (rows a) + length (rows b).
Proof. unfold concat, reindex. simpl. rewrite length_app, !List.length_map. reflexivity. Qed.

Lemma concat_wf a b : frame_wf (concat a b).
Proof.
  unfold frame_wf, concat, reindex. simpl. apply Forall_app.
  split; apply Forall_forall; intros r Hr;
    apply list_elem_of_In, in_map_iff in Hr; destruct Hr as [r0 [<- _]];
    rewrite List.length_map; reflexivity.
Qed.

Lemma has_label_In c cols : has_label c cols = true <-> In c cols.
Proof.
  unfold has_label. rewrite existsb_exists. split.
  - intros [y [Hy He]]. apply String.eqb_eq in He. subst. exact Hy.
  - intros H. exists c. split; [exact H | apply String.eqb_refl].
Qed.

Lemma concat_has_label c a b :
  has_label c (columns a) = true \/ has_label c (columns b) = true ->
  has_label c (columns (concat a b)) = true.
Proof.
  intros H. apply has_label_In. unfold concat. simpl. apply in_or_app.
  destruct (has_label c (columns a)) eqn:Ha.
  - left. apply has_label_In. exact Ha.
  - right. destruct H as [H | H]; [discriminate|].
    apply list_elem_of_In, list_elem_of_filter. split.
    + rewrite Ha. exact I.
    + apply list_elem_of_In, has_label_In. exact H.
Qed.

Lemma grows_refl acc : grows acc acc [].
Proof.
  unfold grows. simpl. rewrite !Nat.add_0_r.
  repeat split; auto; intros [H | H]; [exact H | contradiction | exact H | contradiction].
Qed.

Lemma grows_trans acc1 acc2 acc3 bs1 bs2 :
  grows acc1 acc2 bs1 -> grows acc2 acc3 bs2 -> grows acc1 acc3 (bs1 ++ bs2).
Proof.
  intros (P1 & C1 & W1 & V1 & L1 & M1) (P2 & C2 & W2 & V2 & L2 & M2).
  unfold grows. rewrite !map_app, !list_sum_app.
  split; [lia|]. split; [lia|]. split; [auto|]. split; [auto|].
  assert (Hcase : forall A (x y : list A), x ++ y <> [] -> x <> [] \/ y <> []).
  { intros A x y H. destruct x; [right; exact H | left; discriminate]. }
  split.
  - intros [H | H].
    + apply L2. left. apply L1. left. exact H.
    + apply Hcase in H. destruct H as [H | H].
      * apply L2. left. apply L1. right. exact H.
      * apply L2. right. exact H.
  - intros [H | H].
    + apply M2. left. apply M1. left. exact H.
    + apply Hcase in H. destruct H as [H | H].
      * apply M2. left. apply M1. right. exact H.
      * apply M2. right. exact H.
Qed.

Lemma flatten_step_ok subr acc q b :
  bundle_invariant b ->
  exists acc', flatten_step subr acc (q, b) = Ok acc' /\ grows acc acc' [b].
Proof.
  intros ([n Hn] & cd & ids & cids & Hcd & [m Hm] & Hids & Hcids & _).
  unfold flatten_step. simpl fst. simpl snd. rewrite Hids, Hcd.
  assert (Hlen : length ids = n).
  { rewrite Forall_forall in Hn. apply Hn, list_elem_of_In.
    apply (dict_get_In _ _ _ Hids). }
  assert (Hclen : length cids = m).
  { rewrite Forall_forall in Hm. apply Hm, list_elem_of_In.
    apply (dict_get_In _ _ _ Hcids). }
  simpl frame_of_optional.
  destruct (frame_of_dict_equal cd m Hm) as (cf & Hcf & Hcrows & Hccols & _).
  { intros ->. discriminate. }
  rewrite Hcf.
  destruct (frame_of_dict_equal
              (dict_set "search_query" (replicate (length ids) (CStr q))
                 (dict_set "subreddit" (replicate (length ids) (CStr subr))
                    (b_fields b))) n) as (pf & Hpf & Hprows & Hpcols & _).
  { apply dict_values_set_Forall; [|rewrite length_replicate; exact Hlen].
    apply dict_values_set_Forall; [exact Hn|].
    rewrite length_replicate; exact Hlen. }
  { apply dict_set_not_nil. }
  rewrite Hpf. eexists. split; [reflexivity|].
  unfold grows. simpl fst. simpl snd. rewrite !concat_rows.
  simpl map. simpl list_sum.
  unfold n_posts, n_comments. rewrite Hids, Hcd, Hcids.
  rewrite !Nat.add_0_r.
  split; [congruence|]. split; [congruence|].
  split; [intros _; apply concat_wf|]. split; [intros _; apply concat_wf|].
  split; intros _; apply concat_has_label; right.
  - rewrite Hpcols.
    destruct (dict_get_set_some "post_id" "subreddit"
                (replicate (length ids) (CStr subr)) _ _ Hids) as [a1 H1].
    destruct (dict_get_set_some "post_id" "search_query"
                (replicate (length ids) (CStr q)) _ _ H1) as [a2 H2].
    apply (dict_get_has_label _ _ _ H2).
  - rewrite Hccols. apply (dict_get_has_label _ _ _ Hcids).
Qed.

Lemma tables_inner_ok subr inner :
  Forall bundle_invariant (map snd inner) ->
  forall acc, exists acc',
    tables_inner subr acc inner = Ok acc' /\ grows acc acc' (map snd inner).
Proof.
  induction inner as [|[q b] inner IH]; intros Hinv acc.
  - exists acc. split; [reflexivity | apply grows_refl].
  - simpl in Hinv. apply Forall_cons in Hinv. destruct Hinv as [Hb Hinv].
    destruct (flatten_step_ok subr acc q b Hb) as [acc1 [H1 G1]].
    destruct (IH Hinv acc1) as [acc2 [H2 G2]].
    exists acc2. simpl tables_inner. rewrite H1. split; [exact H2|].
    apply (grows_trans _ _ _ [b] _ G1 G2).
Qed.

Lemma tables_outer_ok view :
  Forall bundle_invariant (store_bundles view) ->
  forall acc, exists acc',
    tables_outer acc view = Ok acc' /\ grows acc acc' (store_bundles view).
Proof.
  induction view as [|[c inner] view IH]; intros Hinv acc.
  - exists acc. split; [reflexivity | apply grows_refl].
  - rewrite store_bundles_cons in Hinv. apply Forall_app in Hinv.
    destruct Hinv as [H1 H2]. simpl snd in H1.
    destruct (tables_inner_ok c inner H1 acc) as [acc1 [E1 G1]].
    destruct (IH H2 acc1) as [acc2 [E2 G2]].
    exists acc2. simpl tables_outer. rewrite E1. split; [exact E2|].
    rewrite store_bundles_cons. apply (grows_trans _ _ _ _ _ G1 G2).
Qed.

Lemma frame_wf_empty : frame_wf empty_frame.
Proof. constructor. Qed.

(** The tables of a store whose bundles satisfy the invariant. *)
Lemma tables_ok view :
  Forall bundle_invariant (store_bundles view) ->
  exists P C,
    tables view = Ok (P, C)
    /\ length (rows P) = total_posts view
    /\ length (rows C) = total_comments view
    /\ frame_wf P /\ frame_wf C
    /\ (store_bundles view <> [] ->
        has_label "post_id" (columns P) = true
        /\ has_label "post_id" (columns C) = true).
Proof.
  intros Hinv.
  destruct (tables_outer_ok view Hinv (empty_frame, empty_frame))
    as [[P C] (E & HP & HC & WP & WC & LP & LC)].
  exists P, C. simpl in *. repeat split; auto using frame_wf_empty.
Qed.

(** ** [semi_format_to_pandas] on a well-formed store (C5, C6) *)

Lemma lookup_after {A} (h mid : list A) x y :
  (h ++ mid ++ [x; y]) !! (length h + length mid) = Some x
  /\ (h ++ mid ++ [x; y]) !! S (length h + length mid) = Some y.
Proof.
  split.
  - rewrite lookup_app_r by lia. rewrite lookup_app_r by lia.
    replace (length h + length mid - length h - length mid) with 0 by lia.
    reflexivity.
  - rewrite lookup_app_r by lia. rewrite lookup_app_r by lia.
    replace (S (length h + length mid) - length h - length mid) with 1 by lia.
    reflexivity.
Qed.

(** On a well-formed, non-empty store the method returns the two tables of
    the store, in two new objects that follow the copies of the bundles. *)
Lemma semi_format_ok s view :
  store_ok s view -> view <> [] ->
  exists mid P C,
    tables view = Ok (P, C)
    /\ semi_format_to_pandas s
       = (Ok (length (heap s) + length mid, S (length (heap s) + length mid)),
          set_frames (Some (length (heap s) + length mid))
            (Some (S (length (heap s) + length mid)))
            (set_heap (heap s ++ mid ++ [OFrame P; OFrame C]) s)).
Proof.
  intros (Hat & Hnd & Hinv) Hne.
  destruct (tables_ok view Hinv) as (P & C & Ht & _).
  destruct (semi_format_run s view Hat Hnd Hne) as (mid & _ & Hrun).
  rewrite Ht in Hrun. exists mid, P, C. split; [exact Ht | exact Hrun].
Qed.

Lemma store_ok_grow s view ext p c :
  store_ok s view ->
  store_ok (set_frames p c (set_heap (heap s ++ ext) s)) view.
Proof.
  intros (Hat & Hnd & Hinv). split; [|split; assumption].
  simpl. apply store_at_app. exact Hat.
Qed.

(** C6. On a non-empty store whose bundles satisfy the bundle invariant,
    [semi_format_to_pandas] returns a posts table with as many rows as there
    are post records in all the bundles, and a comments table with as many
    rows as there are comment records in all the bundles. *)
Theorem flatten_row_counts :
  forall s view,
    store_ok s view -> view <> [] ->
    exists lp lc s' P C,
      semi_format_to_pandas s = (Ok (lp, lc), s')
      /\ posts_df s' = Some lp /\ comments_df s' = Some lc
      /\ heap s' !! lp = Some (OFrame P) /\ heap s' !! lc = Some (OFrame C)
      /\ length (rows P) = total_posts view
      /\ length (rows C) = total_comments view.
Proof.
  intros s view Hok Hne.
  destruct (semi_format_ok s view Hok Hne) as (mid & P & C & Ht & Hrun).
  destruct Hok as (_ & _ & Hinv).
  destruct (tables_ok view Hinv) as (P' & C' & Ht' & HP & HC & _).
  rewrite Ht in Ht'. inversion Ht'; subst P' C'.
  eexists _, _, _, P, C. split; [exact Hrun|].
  split; [reflexivity|]. split; [reflexivity|].
  simpl heap. destruct (lookup_after (heap s) mid (OFrame P) (OFrame C)) as [H1 H2].
  auto.
Qed.

(** C5. On a non-empty well-formed store, two consecutive calls of
    [semi_format_to_pandas] both return, and the posts table and the
    comments table of the second call are those of the first (same rows in
    the same order); the store still maps the same keys to the same
    locations, these still hold the same bundles, and no object that existed
    before the calls has changed. *)
Theorem flatten_twice_same_tables :
  forall s view,
    store_ok s view -> view <> [] ->
    exists lp lc s1 lp' lc' s2 P C,
      semi_format_to_pandas s = (Ok (lp, lc), s1)
      /\ semi_format_to_pandas s1 = (Ok (lp', lc'), s2)
      /\ heap s1 !! lp = Some (OFrame P) /\ heap s1 !! lc = Some (OFrame C)
      /\ heap s2 !! lp' = Some (OFrame P) /\ heap s2 !! lc' = Some (OFrame C)
      /\ scraped_data s1 = scraped_data s /\ scraped_data s2 = scraped_data s
      /\ store_ok s1 view /\ store_ok s2 view
      /\ (forall l o, heap s !! l = Some o ->
                      heap s1 !! l = Some o /\ heap s2 !! l = Some o).
Proof.
  intros s view Hok Hne.
  destruct (semi_format_ok s view Hok Hne) as (mid & P & C & Ht & Hrun).
  pose proof (store_ok_grow s view (mid ++ [OFrame P; OFrame C])
                (Some (length (heap s) + length mid))
                (Some (S (length (heap s) + length mid))) Hok) as Hok1.
  set (s1 := set_frames (Some (length (heap s) + length mid))
               (Some (S (length (heap s) + length mid)))
               (set_heap (heap s ++ mid ++ [OFrame P; OFrame C]) s)) in *.
  destruct (semi_format_ok s1 view Hok1 Hne) as (mid' & P' & C' & Ht' & Hrun').
  rewrite Ht in Ht'. inversion Ht'; subst P' C'.
  pose proof (store_ok_grow s1 view (mid' ++ [OFrame P; OFrame C])
                (Some (length (heap s1) + length mid'))
                (Some (S (length (heap s1) + length mid'))) Hok1) as Hok2.
  eexists _, _, s1, _, _, _, P, C.
  split; [exact Hrun|]. split; [exact Hrun'|].
  destruct (lookup_after (heap s) mid (OFrame P) (OFrame C)) as [H1 H2].
  destruct (lookup_after (heap s1) mid' (OFrame P) (OFrame C)) as [H3 H4].
  split; [exact H1|]. split; [exact H2|].
  split; [exact H3|]. split; [exact H4|].
  split; [reflexivity|]. split; [reflexivity|].
  split; [exact Hok1|]. split; [exact Hok2|].
  intros l o Hl.
  assert (Hl1 : heap s1 !! l = Some o) by (apply lookup_app_l_Some; exact Hl).
  split; [exact Hl1|]. simpl heap. apply lookup_app_l_Some. exact Hl1.
Qed.
(** * Joining *)


Lemma has_label_index_of c cols :
  has_label c cols = true -> exists i, index_of c cols = Some i.
Proof.
  induction cols as [|c' cols IH]; simpl; [discriminate|].
  destruct (String.eqb c c'); [eexists; reflexivity|].
  simpl. intros H. destruct (IH H) as [i ->]. eexists; reflexivity.
Qed.












(** * Stores built by scraping are well formed *)

Section TwoLevel.
Context {V : Type}.

Lemma dict_set_values_in k (v : V) d x :
  In x (map snd (dict_set k v d)) -> x = v \/ In x (map snd d).
Proof.
  induction d as [|[k' v'] d IH]; simpl.
  - intros [<- | []]. left. reflexivity.
  - destruct (String.eqb k k'); simpl.
    + intros [<- | H]; [left; reflexivity | right; right; exact H].
    + intros [<- | H]; [right; left; reflexivity|].
      destruct (IH H) as [-> | H']; [left; reflexivity | right; right; exact H'].
Qed.

Lemma dict_set_values_NoDup k (v : V) d :
  NoDup (map snd d) -> ~ In v (map snd d) -> NoDup (map snd (dict_set k v d)).
Proof.
  induction d as [|[k' v'] d IH]; simpl; intros Hnd Hv.
  - apply NoDup_cons. split; [apply not_elem_of_nil | apply NoDup_nil_2].
  - apply NoDup_cons in Hnd. destruct Hnd as [Hv' Hnd].
    destruct (String.eqb k k'); simpl; apply NoDup_cons.
    + split; [|exact Hnd]. intros H. apply Hv. right.
      apply list_elem_of_In. exact H.
    + split; [|apply IH; [exact Hnd | tauto]].
      intros H. apply list_elem_of_In, dict_set_values_in in H.
      destruct H as [-> | H]; [tauto|].
      apply Hv'. apply list_elem_of_In. exact H.
Qed.

Lemma dict_get_values_in k (d : pydict (pydict V)) inner x :
  dict_get k d = Some inner -> In x (map snd inner) -> In x (store_values d).
Proof.
  induction d as [|[k' i'] d IH]; simpl; [discriminate|].
  unfold store_values. simpl. intros H Hx. apply in_or_app.
  destruct (String.eqb k k').
  - inversion H; subst. left. exact Hx.
  - right. apply (IH H Hx).
Qed.

(** Replacing or adding one inner dict. *)
Lemma outer_set_values_in c inner' (d : pydict (pydict V)) x :
  In x (store_values (dict_set c inner' d)) ->
  In x (map snd inner') \/ In x (store_values d).
Proof.
  unfold store_values. induction d as [|[c0 i0] d IH]; simpl.
  - rewrite app_nil_r. auto.
  - destruct (String.eqb c c0); simpl; rewrite !in_app_iff.
    + tauto.
    + intros [H | H]; [tauto|]. destruct (IH H); tauto.
Qed.

Lemma outer_set_values_NoDup c inner' (d : pydict (pydict V)) :
  NoDup (map snd inner') ->
  NoDup (store_values d) ->
  (forall x, In x (map snd inner') ->
             (exists inner, dict_get c d = Some inner /\ In x (map snd inner))
             \/ ~ In x (store_values d)) ->
  NoDup (store_values (dict_set c inner' d)).
Proof.
  intros Hnew. unfold store_values.
  induction d as [|[c0 i0] d IH]; simpl; intros Hnd Hfresh.
  - rewrite app_nil_r. exact Hnew.
  - apply NoDup_app in Hnd. destruct Hnd as (Hi0 & Hdisj & Hd).
    destruct (String.eqb c c0) eqn:E; simpl; apply NoDup_app.
    + split; [exact Hnew|]. split; [|exact Hd].
      intros x Hx Hxd. apply list_elem_of_In in Hx.
      destruct (Hfresh x Hx) as [[inner [Hin Hxi]] | Hno].
      * inversion Hin; subst inner.
        apply (Hdisj x); [apply list_elem_of_In; exact Hxi | exact Hxd].
      * apply Hno. apply in_or_app. right. apply list_elem_of_In. exact Hxd.
    + split; [exact Hi0|]. split.
      * intros x Hx Hxs. apply list_elem_of_In, outer_set_values_in in Hxs.
        destruct Hxs as [Hxn | Hxd].
        -- destruct (Hfresh x Hxn) as [[inner [Hin Hxi]] | Hno].
           ++ apply (Hdisj x Hx). apply list_elem_of_In.
              apply (dict_get_values_in c d inner x Hin Hxi).
           ++ apply Hno. apply in_or_app. left. apply list_elem_of_In. exact Hx.
        -- apply (Hdisj x Hx). apply list_elem_of_In. exact Hxd.
      * apply IH; [exact Hd|]. intros x Hx.
        destruct (Hfresh x Hx) as [[inner [Hin Hxi]] | Hno].
        -- left. exists inner. split; assumption.
        -- right. intros H. apply Hno. apply in_or_app. right. exact H.
Qed.

Lemma dict_get_inner_NoDup c (d : pydict (pydict V)) inner :
  dict_get c d = Some inner -> NoDup (store_values d) -> NoDup (map snd inner).
Proof.
  unfold store_values. induction d as [|[c0 i0] d IH]; simpl; [discriminate|].
  intros H Hnd. apply NoDup_app in Hnd. destruct Hnd as (Hi0 & _ & Hd).
  destruct (String.eqb c c0).
  - inversion H; subst. exact Hi0.
  - apply (IH H Hd).
Qed.

Lemma store_bundle_values_in c q (v : V) data x :
  In x (store_values (store_bundle c q v data)) ->
  x = v \/ In x (store_values data).
Proof.
  unfold store_bundle. destruct (dict_get c data) as [inner|] eqn:E;
    intros H; apply outer_set_values_in in H; destruct H as [H | H]; auto;
    apply dict_set_values_in in H; destruct H as [H | H]; auto.
  - right. apply (dict_get_values_in c data inner x E H).
  - destruct H.
Qed.

Lemma store_bundle_values_NoDup c q (v : V) data :
  NoDup (store_values data) -> ~ In v (store_values data) ->
  NoDup (store_values (store_bundle c q v data)).
Proof.
  intros Hnd Hv. unfold store_bundle.
  destruct (dict_get c data) as [inner|] eqn:E;
    apply outer_set_values_NoDup; try exact Hnd.
  - apply dict_set_values_NoDup.
    + apply (dict_get_inner_NoDup c data inner E Hnd).
    + intros H. apply Hv. apply (dict_get_values_in c data inner v E H).
  - intros x Hx. apply dict_set_values_in in Hx. destruct Hx as [-> | Hx].
    + right. exact Hv.
    + left. exists inner. split; [exact E | exact Hx].
  - simpl. apply NoDup_cons. split; [apply not_elem_of_nil | apply NoDup_nil_2].
  - intros x Hx. simpl in Hx. destruct Hx as [<- | []]. right. exact Hv.
Qed.

End TwoLevel.

Lemma Forall2_dict_set {A B} (R : string * A -> string * B -> Prop) k a b da db :
  Forall2 R da db ->
  (forall e v, R e v -> fst e = fst v) ->
  R (k, a) (k, b) ->
  Forall2 R (dict_set k a da) (dict_set k b db).
Proof.
  intros H Hkeys Hnew. induction H as [|[k1 a1] [k2 b1] da db Hhd Htl IH]; simpl.
  - constructor; [exact Hnew | constructor].
  - pose proof (Hkeys _ _ Hhd) as Hk. simpl in Hk. subst k2.
    destruct (String.eqb_spec k k1) as [-> | Hne].
    + constructor; [exact Hnew | exact Htl].
    + constructor; [exact Hhd | exact IH].
Qed.

Lemma Forall2_dict_get {A B} (R : string * A -> string * B -> Prop) k da db :
  Forall2 R da db ->
  (forall e v, R e v -> fst e = fst v) ->
  (dict_get k da = None /\ dict_get k db = None)
  \/ (exists a b, dict_get k da = Some a /\ dict_get k db = Some b
                  /\ R (k, a) (k, b)).
Proof.
  intros H Hkeys. induction H as [|[k1 a1] [k2 b1] da db Hhd Htl IH]; simpl.
  - left. split; reflexivity.
  - pose proof (Hkeys _ _ Hhd) as Hk. simpl in Hk. subst k2.
    destruct (String.eqb_spec k k1) as [-> | Hne]; [|exact IH].
    right. exists a1, b1. repeat split. exact Hhd.
Qed.

Lemma store_at_locs_lt h data view l :
  store_at h data view -> In l (store_locs data) -> l < length h.
Proof.
  unfold store_locs, store_values. intros H.
  induction H as [|[c inner] [c' binner] data view [_ Hin] _ IH]; simpl; [tauto|].
  rewrite in_app_iff. intros [Hl | Hl]; [|exact (IH Hl)].
  clear IH. simpl in Hin.
  induction Hin as [|[q l0] [q' b] inner binner [_ Hpt] _ IH]; simpl in Hl; [tauto|].
  destruct Hl as [<- | Hl]; [|exact (IH Hl)].
  simpl in Hpt. apply lookup_lt_Some in Hpt. exact Hpt.
Qed.

Lemma store_at_store_bundle h data view c q b :
  store_at h data view ->
  store_at (h ++ [OBundle b]) (store_bundle c q (length h) data)
    (store_bundle c q b view).
Proof.
  intros Hat. apply (store_at_app h [OBundle b]) in Hat.
  assert (Hpt : points_to (h ++ [OBundle b]) (q, length h) (q, b)).
  { split; [reflexivity|]. simpl. rewrite lookup_app_r by lia.
    rewrite Nat.sub_diag. reflexivity. }
  unfold store_at in *. unfold store_bundle.
  assert (Hkeys : forall (e : string * pydict nat) (v : string * pydict bundle),
             fst e = fst v /\ Forall2 (points_to (h ++ [OBundle b])) (snd e) (snd v) ->
             fst e = fst v) by (intros e v [H _]; exact H).
  destruct (Forall2_dict_get _ c _ _ Hat Hkeys)
    as [[E1 E2] | (inner & binner & E1 & E2 & [_ Hin])];
    unfold pydict in *; rewrite E1, E2.
  - apply Forall2_dict_set; [exact Hat | exact Hkeys|].
    split; [reflexivity|]. simpl. constructor; [exact Hpt | constructor].
  - apply Forall2_dict_set; [exact Hat | exact Hkeys|].
    split; [reflexivity|]. simpl. simpl in Hin.
    apply Forall2_dict_set; [exact Hin | | exact Hpt].
    intros e v [H _]. exact H.
Qed.

(** [init] is well formed, and a call of [scrape_subreddit] that returns
    keeps the store well formed: its pair now holds the new bundle. *)
Lemma init_store_ok client : store_ok (init client) [].
Proof.
  split; [constructor|]. split; [apply NoDup_nil_2 | constructor].
Qed.

Lemma scrape_keeps_store_ok subreddit search pl so tf gc cl s ret s' view :
  store_ok s view ->
  scrape_subreddit subreddit search pl so tf gc cl s = (Ok ret, s') ->
  let posts := items (reddit s (io_log s) (as_str subreddit) (as_str search) pl
                        (as_str so) (as_str tf)) in
  store_ok s' (store_bundle (as_str subreddit) (as_str search)
                 (bundle_of posts (flat_map (taken gc cl) posts)) view).
Proof.
  intros (Hat & Hnd & Hinv) Hrun posts.
  destruct (scrape_success _ _ _ _ _ _ _ _ _ _ Hrun)
    as (_ & _ & Hheap & Hdata & _).
  fold posts in Hheap. unfold store_ok. rewrite Hheap, Hdata.
  split; [apply store_at_store_bundle; exact Hat|]. split.
  - apply store_bundle_values_NoDup; [exact Hnd|].
    intros Hin. apply (store_at_locs_lt _ _ _ _ Hat) in Hin. lia.
  - apply Forall_forall. intros b Hb.
    apply list_elem_of_In, store_bundle_values_in in Hb.
    destruct Hb as [-> | Hb]; [apply bundle_of_invariant|].
    rewrite Forall_forall in Hinv. apply Hinv, list_elem_of_In. exact Hb.
Qed.
(** ** [full_format_to_pandas] on a well-formed store (C1) *)

Lemma insert_own (r : list cell) i : <[i:=nth i r CNull]> r = r.
Proof.
  revert i. induction r as [|x r IH]; intros [|i]; simpl; try reflexivity.
  f_equal. apply IH.
Qed.

Lemma set_column_own df name vals :
  get_column df name = Ok vals ->
  set_column df name (astype_object vals) = df.
Proof.
  unfold get_column, set_column, astype_object.
  destruct (index_of name (columns df)) as [i|]; intros H; inversion H.
  clear. destruct df as [cols rws]. simpl. f_equal.
  induction rws as [|r rws IH]; simpl; [reflexivity|].
  rewrite insert_own. f_equal. exact IH.
Qed.

Lemma retype_post_id_same l df i s :
  heap s !! l = Some (OFrame df) ->
  index_of "post_id" (columns df) = Some i ->
  retype_post_id l s = (Ok tt, s).
Proof.
  intros Hl Hi. unfold retype_post_id.
  assert (Hread : read_frame l s = (Ok df, s))
    by (unfold read_frame; rewrite Hl; reflexivity).
  rewrite (bind_ok _ _ _ _ _ Hread).
  assert (Hcol : exists vals, get_column df "post_id" = Ok vals)
    by (unfold get_column; rewrite Hi; eexists; reflexivity).
  destruct Hcol as [vals Hcol].
  rewrite (bind_ok (lift (get_column df "post_id")) _ s vals s
             ltac:(unfold lift; rewrite Hcol; reflexivity)).
  rewrite (set_column_own _ _ _ Hcol).
  unfold write, modify. rewrite (list_insert_id _ _ _ Hl), set_heap_same.
  reflexivity.
Qed.

Lemma store_bundles_not_nil view : store_bundles view <> [] -> view <> [].
Proof. intros H ->. apply H. reflexivity. Qed.

(** On a well-formed store with at least one bundle the method joins the
    two tables of the store and stores the result in a new object. *)
Lemma full_format_ok s view :
  store_ok s view -> store_bundles view <> [] ->
  exists mid P C il ir J,
    tables view = Ok (P, C)
    /\ frame_wf P /\ frame_wf C
    /\ index_of "post_id" (columns P) = Some il
    /\ index_of "post_id" (columns C) = Some ir
    /\ merge_right P C "post_id" = Ok J
    /\ rows J = flat_map (join_right_row P il ir) (rows C)
    /\ full_format_to_pandas s
       = (Ok (S (S (length (heap s) + length mid))),
          set_joined_data_df (Some (S (S (length (heap s) + length mid))))
            (set_frames (Some (length (heap s) + length mid))
               (Some (S (length (heap s) + length mid)))
               (set_heap (heap s ++ mid ++ [OFrame P; OFrame C; OFrame J]) s))).
Proof.
  intros Hok Hne.
  destruct (semi_format_ok s view Hok (store_bundles_not_nil _ Hne))
    as (mid & P & C & Ht & Hrun).
  destruct Hok as (_ & _ & Hinv).
  destruct (tables_ok view Hinv) as (P' & C' & Ht' & _ & _ & WP & WC & Hlab).
  rewrite Ht in Ht'. inversion Ht'; subst P' C'.
  destruct (Hlab Hne) as [LP LC].
  destruct (has_label_index_of _ _ LP) as [il Hil].
  destruct (has_label_index_of _ _ LC) as [ir Hir].
  assert (HJ : exists J, merge_right P C "post_id" = Ok J
                         /\ rows J = flat_map (join_right_row P il ir) (rows C)).
  { unfold merge_right. rewrite Hil, Hir. eexists. split; reflexivity. }
  destruct HJ as (J & HJ & Hrows).
  exists mid, P, C, il, ir, J.
  repeat (split; [assumption|]).
  unfold full_format_to_pandas.
  rewrite (bind_ok _ _ _ _ _ Hrun). simpl fst. simpl snd.
  set (n := length (heap s) + length mid).
  set (s1 := set_frames (Some n) (Some (S n))
               (set_heap (heap s ++ mid ++ [OFrame P; OFrame C]) s)).
  destruct (lookup_after (heap s) mid (OFrame P) (OFrame C)) as [H1 H2].
  fold n in H1, H2.
  rewrite (bind_ok _ _ _ _ _ (retype_post_id_same n P il s1 H1 Hil)).
  rewrite (bind_ok _ _ _ _ _ (retype_post_id_same (S n) C ir s1 H2 Hir)).
  rewrite (bind_ok (read_frame n) _ s1 P s1
             ltac:(unfold read_frame; simpl heap; rewrite H1; reflexivity)).
  rewrite (bind_ok (read_frame (S n)) _ s1 C s1
             ltac:(unfold read_frame; simpl heap; rewrite H2; reflexivity)).
  rewrite (bind_ok (lift (merge_right P C "post_id")) _ s1 J s1
             ltac:(unfold lift; rewrite HJ; reflexivity)).
  unfold bind, alloc, modify, ret. simpl.
  rewrite !length_app. simpl. rewrite <- !app_assoc. simpl.
  replace (length (heap s) + (length mid + 2)) with (S (S n)) by (unfold n; lia).
  reflexivity.
Qed.

Lemma demo_state1_ok : store_ok demo_state1 demo_view1.
Proof.
  apply (scrape_keeps_store_ok (PStr "test") (PStr "foo") (PInt 50) (PStr "top")
           (PStr "all") (PBool true) (PInt 10) (init demo_client)
           [("test", 0)] demo_state1 [] (init_store_ok demo_client)).
  reflexivity.
Qed.

Lemma demo_state2_ok : store_ok demo_state2 demo_view2.
Proof.
  apply (scrape_keeps_store_ok (PStr "test") (PStr "bar") (PInt 50) (PStr "top")
           (PStr "all") (PBool true) (PInt 10) demo_state1
           [("test", 1)] demo_state2 demo_view1 demo_state1_ok).
  reflexivity.
Qed.

(** ** The join, for any state in which the method returns *)






(** * The graph tables (C9, C10) *)

Lemma full_format_returns s l s0 :
  full_format_to_pandas s = (Ok l, s0) ->
  joined_data_df s0 = Some l /\ exists J, heap s0 !! l = Some (OFrame J).
Proof.
  unfold full_format_to_pandas. intros H.
  apply bind_inv_ok in H. destruct H as (tables & s1 & _ & H).
  apply bind_inv_ok in H. destruct H as (u1 & s2 & _ & H).
  apply bind_inv_ok in H. destruct H as (u2 & s3 & _ & H).
  apply bind_inv_ok in H. destruct H as (P & s4 & _ & H).
  apply bind_inv_ok in H. destruct H as (C & s5 & _ & H).
  apply bind_inv_ok in H. destruct H as (J & s6 & HJ & H).
  apply lift_inv_ok in HJ. destruct HJ as [_ ->].
  unfold bind, alloc, modify, ret in H. simpl in H. inversion H; subst.
  simpl. split; [reflexivity|]. exists J.
  rewrite lookup_app_r by lia. rewrite Nat.sub_diag. reflexivity.
Qed.

Lemma frame_of_single k (vals : list cell) :
  frame_of_dict [(k, vals)]
  = Ok (mkFrame [k] (map (fun i => [nth i vals CNull]) (seq 0 (length vals)))).
Proof. unfold frame_of_dict. simpl. rewrite Nat.eqb_refl. reflexivity. Qed.

(** The body of the method, on the stored joined table. *)
Lemma nodes_and_edges_from_eq lj s :
  nodes_and_edges_from lj s =
  match heap s !! lj with
  | Some (OFrame J) =>
      match get_column J "author", get_column J "comment_author" with
      | Ok a, Ok c =>
          (Ok (S (length (heap s)), length (heap s)),
           set_heap (heap s ++ [OFrame (rename_columns edge_renaming J);
                                OFrame (nodes_frame (a ++ c))]) s)
      | Raise e, _ => (Raise e, set_heap (heap s ++ [OFrame J]) s)
      | Ok _, Raise e => (Raise e, set_heap (heap s ++ [OFrame J]) s)
      end
  | _ => (Raise DanglingReference, s)
  end.
Proof.
  unfold nodes_and_edges_from. unfold bind at 1. unfold read_frame at 1.
  destruct (heap s !! lj) as [[b | J]|]; try reflexivity.
  unfold bind at 1. unfold alloc at 1.
  set (s1 := set_heap (heap s ++ [OFrame J]) s).
  assert (Hread : read_frame (length (heap s)) s1 = (Ok J, s1)).
  { unfold read_frame, s1. simpl heap. rewrite lookup_app_r by lia.
    rewrite Nat.sub_diag. reflexivity. }
  rewrite (bind_ok _ _ _ _ _ Hread).
  unfold bind at 1. unfold lift at 1.
  destruct (get_column J "author") as [a | e]; [|reflexivity].
  rewrite (bind_ok _ _ _ _ _ Hread).
  unfold bind at 1. unfold lift at 1.
  destruct (get_column J "comment_author") as [c | e]; [|reflexivity].
  rewrite frame_of_single. fold (nodes_frame (a ++ c)).
  unfold bind at 1. unfold lift at 1.
  unfold bind at 1. unfold alloc at 1. simpl heap.
  set (s2 := set_heap ((heap s ++ [OFrame J]) ++ [OFrame (nodes_frame (a ++ c))]) s1).
  assert (Hread2 : read_frame (length (heap s)) s2 = (Ok J, s2)).
  { unfold read_frame, s2. simpl heap. rewrite <- app_assoc.
    rewrite lookup_app_r by lia. rewrite Nat.sub_diag. reflexivity. }
  rewrite (bind_ok _ _ _ _ _ Hread2).
  unfold bind, write, modify, ret, s2, s1. simpl.
  rewrite <- app_assoc. simpl.
  rewrite insert_app_r_alt by lia. rewrite Nat.sub_diag. simpl.
  rewrite length_app. simpl. rewrite Nat.add_1_r. reflexivity.
Qed.

(** How the method splits into the optional join and the body. *)
Lemma create_nodes_and_edges_cases s r s' :
  create_nodes_and_edges s = (r, s') ->
  (exists lj s0, joined_before s lj s0 /\ joined_data_df s0 = Some lj
                 /\ nodes_and_edges_from lj s0 = (r, s'))
  \/ (exists e, joined_data_df s = None
                /\ full_format_to_pandas s = (Raise e, s') /\ r = Raise e).
Proof.
  unfold create_nodes_and_edges. unfold bind at 1. unfold get_state at 1.
  destruct (joined_data_df s) as [lj|] eqn:Hj.
  - unfold bind, ret, get_state. rewrite Hj. intros H.
    left. exists lj, s. split; [left; split; [exact Hj | reflexivity]|].
    split; [exact Hj | exact H].
  - unfold bind at 1. unfold bind at 1.
    destruct (full_format_to_pandas s) as [[l | e] s0] eqn:Hff.
    + destruct (full_format_returns _ _ _ Hff) as [Hj0 _].
      unfold ret, bind, get_state. rewrite Hj0. intros H.
      left. exists l, s0. split; [right; split; [exact Hj | exact Hff]|].
      split; [exact Hj0 | exact H].
    + intros H. inversion H; subst. right. exists e. repeat split.
Qed.

Lemma index_of_lookup c cols i : index_of c cols = Some i -> cols !! i = Some c.
Proof.
  revert i. induction cols as [|c' cols IH]; simpl; intros i H; [discriminate|].
  destruct (String.eqb_spec c c') as [-> | Hne].
  - inversion H. reflexivity.
  - destruct (index_of c cols) as [i'|]; [|discriminate].
    inversion H. simpl. apply IH. reflexivity.
Qed.

Lemma lookup_map_some {A B} (f : A -> B) (l : list A) i x :
  l !! i = Some x -> map f l !! i = Some (f x).
Proof.
  revert i. induction l as [|y l IH]; intros [|i] H; simpl in *; try discriminate.
  - inversion H. reflexivity.
  - apply IH. exact H.
Qed.

Lemma get_column_index J name vals :
  get_column J name = Ok vals -> exists i, index_of name (columns J) = Some i.
Proof.
  unfold get_column. destruct (index_of name (columns J)) as [i|]; [|discriminate].
  intros _. exists i. reflexivity.
Qed.

Lemma rename_columns_edge J :
  columns (rename_columns edge_renaming J) = map edge_label (columns J)
  /\ rows (rename_columns edge_renaming J) = rows J.
Proof.
  split; [|reflexivity]. unfold rename_columns. simpl. apply map_ext.
  intros c. unfold edge_label.
  destruct (String.eqb c "comment_author"); [reflexivity|].
  destruct (String.eqb c "author"); reflexivity.
Qed.

(** A run of the body that returns: what it read and what it allocated. *)
Lemma nodes_and_edges_from_returns lj s0 ln le s' :
  nodes_and_edges_from lj s0 = (Ok (ln, le), s') ->
  exists J a c,
    heap s0 !! lj = Some (OFrame J)
    /\ get_column J "author" = Ok a /\ get_column J "comment_author" = Ok c
    /\ le = length (heap s0) /\ ln = S (length (heap s0))
    /\ s' = set_heap (heap s0 ++ [OFrame (rename_columns edge_renaming J);
                                  OFrame (nodes_frame (a ++ c))]) s0.
Proof.
  rewrite nodes_and_edges_from_eq.
  destruct (heap s0 !! lj) as [[b | J]|] eqn:HJ; try discriminate.
  destruct (get_column J "author") as [a | e] eqn:Ha; [|discriminate].
  destruct (get_column J "comment_author") as [c | e] eqn:Hc; [|discriminate].
  intros H. inversion H; subst. exists J, a, c. repeat split; assumption.
Qed.

(** C9. When [create_nodes_and_edges] returns, the edges table it returns
    is the stored joined table with [comment_author] relabelled [source] and
    [author] relabelled [target]: every other label is unchanged, and the
    rows are the rows of the joined table, one edge per row and none left
    out, so a row whose comment author is the post author is an edge whose
    source equals its target. *)
Theorem edges_are_relabelled_joined_table :
  forall s ln le s',
    create_nodes_and_edges s = (Ok (ln, le), s') ->
    exists lj J E ia ic,
      joined_data_df s' = Some lj
      /\ heap s' !! lj = Some (OFrame J)
      /\ heap s' !! le = Some (OFrame E)
      /\ index_of "author" (columns J) = Some ia
      /\ index_of "comment_author" (columns J) = Some ic
      /\ columns E = map edge_label (columns J)
      /\ columns E !! ic = Some "source"
      /\ columns E !! ia = Some "target"
      /\ rows E = rows J
      /\ (forall r, In r (rows J) -> nth ic r CNull = nth ia r CNull ->
                    In r (rows E) /\ nth ic r CNull = nth ia r CNull).
Proof.
  intros s ln le s' Hrun.
  destruct (create_nodes_and_edges_cases _ _ _ Hrun)
    as [(lj & s0 & _ & Hj0 & Hbody) | (e & _ & _ & He)]; [|discriminate].
  destruct (nodes_and_edges_from_returns _ _ _ _ _ Hbody)
    as (J & a & c & HJ & Ha & Hc & -> & -> & ->).
  destruct (get_column_index _ _ _ Ha) as [ia Hia].
  destruct (get_column_index _ _ _ Hc) as [ic Hic].
  destruct (rename_columns_edge J) as [Hcols Hrows].
  exists lj, J, (rename_columns edge_renaming J), ia, ic.
  split; [exact Hj0|].
  split; [simpl heap; apply lookup_app_l_Some; exact HJ|].
  split; [simpl heap; rewrite lookup_app_r by lia; rewrite Nat.sub_diag; reflexivity|].
  split; [exact Hia|]. split; [exact Hic|]. split; [exact Hcols|].
  split; [rewrite Hcols;
          apply (lookup_map_some edge_label _ _ _ (index_of_lookup _ _ _ Hic))|].
  split; [rewrite Hcols;
          apply (lookup_map_some edge_label _ _ _ (index_of_lookup _ _ _ Hia))|].
  split; [exact Hrows|].
  intros r Hr Hloop. rewrite Hrows. split; assumption.
Qed.

Lemma joined_before_fun s l1 s1 l2 s2 :
  joined_before s l1 s1 -> joined_before s l2 s2 -> l1 = l2 /\ s1 = s2.
Proof.
  intros [[H1 ->] | [H1 F1]] [[H2 ->] | [H2 F2]]; try congruence.
  - split; congruence.
  - rewrite F1 in F2. inversion F2. split; reflexivity.
Qed.

Lemma index_of_In c cols i : index_of c cols = Some i -> In c cols.
Proof.
  intros H. apply index_of_lookup in H.
  apply list_elem_of_In, list_elem_of_lookup. exists i. exact H.
Qed.

(** C10. Whatever its outcome, [create_nodes_and_edges] leaves
    [joined_data_df] on the joined table it copied and changes no object
    that existed when it made the copy: the heap only grows. When it
    returns, the edges table is another object than the stored joined table,
    which still has its [author] and [comment_author] columns, while the
    edges table is its relabelled copy. *)
Theorem create_nodes_and_edges_keeps_joined_table :
  forall s r s' lj s0,
    create_nodes_and_edges s = (r, s') ->
    joined_before s lj s0 ->
    joined_data_df s' = Some lj
    /\ (exists ext, heap s' = heap s0 ++ ext)
    /\ heap s' !! lj = heap s0 !! lj
    /\ (forall ln le, r = Ok (ln, le) ->
          le <> lj
          /\ exists J,
               heap s' !! lj = Some (OFrame J)
               /\ In "author" (columns J) /\ In "comment_author" (columns J)
               /\ heap s' !! le = Some (OFrame (rename_columns edge_renaming J))).
Proof.
  intros s r s' lj s0 Hrun Hbefore.
  destruct (create_nodes_and_edges_cases _ _ _ Hrun)
    as [(lj' & s0' & Hb' & Hj0 & Hbody) | (e & Hnone & Hff & He)].
  2:{ destruct Hbefore as [[H _] | [_ H]]; congruence. }
  destruct (joined_before_fun _ _ _ _ _ Hbefore Hb') as [<- <-].
  rewrite nodes_and_edges_from_eq in Hbody.
  destruct (heap s0 !! lj) as [[b | J]|] eqn:HJ.
  - inversion Hbody; subst. split; [exact Hj0|].
    split; [exists []; rewrite app_nil_r; reflexivity|].
    split; [exact HJ|]. intros ln le H; discriminate.
  - assert (Hkeep : forall ext, (heap s0 ++ ext) !! lj = Some (OFrame J))
      by (intros ext; apply lookup_app_l_Some; exact HJ).
    destruct (get_column J "author") as [a | e] eqn:Ha.
    2:{ inversion Hbody; subst. simpl. split; [exact Hj0|].
        split; [eexists; reflexivity|]. split; [apply Hkeep|].
        intros ln le H; discriminate. }
    destruct (get_column J "comment_author") as [c | e] eqn:Hc.
    2:{ inversion Hbody; subst. simpl. split; [exact Hj0|].
        split; [eexists; reflexivity|]. split; [apply Hkeep|].
        intros ln le H; discriminate. }
    inversion Hbody; subst. simpl. split; [exact Hj0|].
    split; [eexists; reflexivity|]. split; [apply Hkeep|].
    intros ln le H. inversion H; subst. split.
    + apply lookup_lt_Some in HJ. lia.
    + exists J. split; [apply Hkeep|].
      destruct (get_column_index _ _ _ Ha) as [ia Hia].
      destruct (get_column_index _ _ _ Hc) as [ic Hic].
      split; [apply (index_of_In _ _ _ Hia)|].
      split; [apply (index_of_In _ _ _ Hic)|].
      rewrite lookup_app_r by lia. rewrite Nat.sub_diag. reflexivity.
  - inversion Hbody; subst. split; [exact Hj0|].
    split; [exists []; rewrite app_nil_r; reflexivity|].
    split; [exact HJ|]. intros ln le H; discriminate.
Qed.

(** * The theorems on the demonstration store *)

Lemma flatten_row_counts_witness :
  store_ok demo_state2 demo_view2 /\ demo_view2 <> []
  /\ exists lp lc s' P C,
       semi_format_to_pandas demo_state2 = (Ok (lp, lc), s')
       /\ heap s' !! lp = Some (OFrame P) /\ heap s' !! lc = Some (OFrame C)
       /\ length (rows P) = 4 /\ length (rows C) = 4.
Proof.
  assert (Hne : demo_view2 <> []) by discriminate.
  split; [exact demo_state2_ok|]. split; [exact Hne|].
  destruct (flatten_row_counts demo_state2 demo_view2 demo_state2_ok Hne)
    as (lp & lc & s' & P & C & Hrun & _ & _ & HP & HC & NP & NC).
  exists lp, lc, s', P, C. repeat split; assumption.
Defined.

Lemma flatten_twice_same_tables_witness :
  store_ok demo_state2 demo_view2 /\ demo_view2 <> []
  /\ exists lp lc s1 lp' lc' s2 P C,
       semi_format_to_pandas demo_state2 = (Ok (lp, lc), s1)
       /\ semi_format_to_pandas s1 = (Ok (lp', lc'), s2)
       /\ heap s1 !! lp = Some (OFrame P) /\ heap s2 !! lp' = Some (OFrame P)
       /\ heap s1 !! lc = Some (OFrame C) /\ heap s2 !! lc' = Some (OFrame C)
       /\ scraped_data s2 = scraped_data demo_state2.
Proof.
  assert (Hne : demo_view2 <> []) by discriminate.
  split; [exact demo_state2_ok|]. split; [exact Hne|].
  destruct (flatten_twice_same_tables demo_state2 demo_view2 demo_state2_ok Hne)
    as (lp & lc & s1 & lp' & lc' & s2 & P & C & R1 & R2 & H1 & H2 & H3 & H4
        & _ & D2 & _).
  exists lp, lc, s1, lp', lc', s2, P, C. repeat split; assumption.
Defined.


(** In that store the comment "c2" names a post the store does not hold: the
    posts table has no row for it, and the joined table has the comment
    behind a null post side. *)
Lemma orphan_comment_is_kept :
  exists P C J r,
    heap (snd (full_format_to_pandas orphan_state)) !! 2 = Some (OFrame P)
    /\ heap (snd (full_format_to_pandas orphan_state)) !! 3 = Some (OFrame C)
    /\ heap (snd (full_format_to_pandas orphan_state)) !! 4 = Some (OFrame J)
    /\ In r (rows C) /\ nth 0 r CNull = CStr "zz"
    /\ matches P 0 (nth 0 r CNull) = 0
    /\ In (null_post_side P 0 (nth 0 r CNull) ++ delete 0 r) (rows J)
    /\ length (rows C) = 2 /\ length (rows J) = 2.
Proof.
  eexists _, _, _, _.
  split; [vm_compute; reflexivity|].
  split; [vm_compute; reflexivity|].
  split; [vm_compute; reflexivity|].
  split; [right; left; reflexivity|].
  split; [reflexivity|].
  split; [vm_compute; reflexivity|].
  split; [vm_compute; right; left; reflexivity|].
  split; reflexivity.
Qed.


Lemma edges_are_relabelled_joined_table_witness :
  exists lj J E ia ic,
    joined_data_df (snd (create_nodes_and_edges demo_state1)) = Some lj
    /\ heap (snd (create_nodes_and_edges demo_state1)) !! lj = Some (OFrame J)
    /\ heap (snd (create_nodes_and_edges demo_state1)) !! 5 = Some (OFrame E)
    /\ index_of "author" (columns J) = Some ia
    /\ index_of "comment_author" (columns J) = Some ic
    /\ columns E = map edge_label (columns J)
    /\ rows E = rows J.
Proof.
  assert (Hrun : create_nodes_and_edges demo_state1
                 = (Ok (6, 5), snd (create_nodes_and_edges demo_state1)))
    by (vm_compute; reflexivity).
  destruct (edges_are_relabelled_joined_table demo_state1 6 5
              (snd (create_nodes_and_edges demo_state1)) Hrun)
    as (lj & J & E & ia & ic & H1 & H2 & H3 & H4 & H5 & H6 & _ & _ & H7 & _).
  exists lj, J, E, ia, ic. repeat split; assumption.
Defined.

Lemma create_nodes_and_edges_keeps_joined_table_witness :
  joined_before demo_state1 4 demo_joined1
  /\ joined_data_df (snd (create_nodes_and_edges demo_state1)) = Some 4
  /\ heap (snd (create_nodes_and_edges demo_state1)) !! 4 = heap demo_joined1 !! 4.
Proof.
  assert (Hb : joined_before demo_state1 4 demo_joined1)
    by (right; split; vm_compute; reflexivity).
  split; [exact Hb|].
  destruct (create_nodes_and_edges_keeps_joined_table demo_state1
              (fst (create_nodes_and_edges demo_state1))
              (snd (create_nodes_and_edges demo_state1)) 4 demo_joined1
              (surjective_pairing _) Hb)
    as (H1 & _ & H2 & _).
  split; assumption.
Defined.
(** * Further properties *)

(** ** Components a computation never changes *)

Lemma keeps_ret {A B} (f : state -> B) (a : A) : keeps f (ret a).
Proof. intros s. reflexivity. Qed.

Lemma keeps_raise {A B} (f : state -> B) e : keeps f (@raise A e).
Proof. intros s. reflexivity. Qed.

Lemma keeps_lift {A B} (f : state -> B) (r : result A) : keeps f (lift r).
Proof. intros s. reflexivity. Qed.

Lemma keeps_get_state {B} (f : state -> B) : keeps f get_state.
Proof. intros s. reflexivity. Qed.

Lemma keeps_bind {A C B} (f : state -> B) (m : M A) (k : A -> M C) :
  keeps f m -> (forall a, keeps f (k a)) -> keeps f (bind m k).
Proof.
  intros Hm Hk s. unfold bind. specialize (Hm s).
  destruct (m s) as [[a | e] s1]; simpl in *.
  - rewrite (Hk a s1). exact Hm.
  - exact Hm.
Qed.

Lemma keeps_fold_for {A C B} (f : state -> B) (l : list A) (body : C -> A -> M C) :
  (forall acc x, keeps f (body acc x)) -> forall acc, keeps f (fold_for l acc body).
Proof.
  intros Hbody. induction l as [|x l IH]; intros acc; simpl.
  - apply keeps_ret.
  - apply keeps_bind; [apply Hbody | intros acc'; apply IH].
Qed.

Lemma keeps_modify {B} (f : state -> B) (g : state -> state) :
  (forall s, f (g s) = f s) -> keeps f (modify g).
Proof. intros H s. apply H. Qed.

Lemma keeps_read_bundle {B} (f : state -> B) l : keeps f (read_bundle l).
Proof.
  intros s. unfold read_bundle. destruct (heap s !! l) as [[b | df]|]; reflexivity.
Qed.

Lemma keeps_read_frame {B} (f : state -> B) l : keeps f (read_frame l).
Proof.
  intros s. unfold read_frame. destruct (heap s !! l) as [[b | df]|]; reflexivity.
Qed.

Ltac keeps_auto tac :=
  repeat first
    [ apply keeps_ret | apply keeps_raise | apply keeps_lift
    | apply keeps_get_state | apply keeps_read_bundle | apply keeps_read_frame
    | tac
    | apply keeps_bind; [| intros ?]
    | apply keeps_fold_for; intros ? ?
    | match goal with
      | |- keeps _ (match ?x with _ => _ end) => destruct x
      end ].

(** The formatting methods: whatever ignores the heap and the three table
    attributes is kept. *)
Section Formatting.
Context {B : Type} (f : state -> B).
Hypothesis f_heap : forall h s, f (set_heap h s) = f s.
Hypothesis f_frames : forall p c s, f (set_frames p c s) = f s.
Hypothesis f_joined : forall v s, f (set_joined_data_df v s) = f s.

Lemma fkeeps_alloc o : keeps f (alloc o).
Proof. intros s. apply f_heap. Qed.

Lemma fkeeps_write l o : keeps f (write l o).
Proof. intros s. apply f_heap. Qed.

Lemma fkeeps_set_frames p c : keeps f (modify (set_frames p c)).
Proof. intros s. apply f_frames. Qed.

Lemma fkeeps_set_joined v : keeps f (modify (set_joined_data_df v)).
Proof. intros s. apply f_joined. Qed.

Ltac fkeeps :=
  keeps_auto ltac:(first [ apply fkeeps_alloc | apply fkeeps_write
                         | apply fkeeps_set_frames | apply fkeeps_set_joined ]).

Lemma fkeeps_deepcopy_ref l memo : keeps f (deepcopy_ref l memo).
Proof. unfold deepcopy_ref. fkeeps. Qed.

Lemma fkeeps_deepcopy_inner inner : forall memo, keeps f (deepcopy_inner inner memo).
Proof.
  induction inner as [|[q l] inner IH]; intros memo; simpl.
  - apply keeps_ret.
  - apply keeps_bind; [apply fkeeps_deepcopy_ref | intros r].
    apply keeps_bind; [apply IH | intros rs; apply keeps_ret].
Qed.

Lemma fkeeps_deepcopy_outer data : forall memo, keeps f (deepcopy_outer data memo).
Proof.
  induction data as [|[c inner] data IH]; intros memo; simpl.
  - apply keeps_ret.
  - apply keeps_bind; [apply fkeeps_deepcopy_inner | intros r].
    apply keeps_bind; [apply IH | intros rs; apply keeps_ret].
Qed.

Lemma fkeeps_flatten_bundle subr acc entry : keeps f (flatten_bundle subr acc entry).
Proof. unfold flatten_bundle, set_field, pop_comments. fkeeps. Qed.

Lemma fkeeps_semi_format : keeps f semi_format_to_pandas.
Proof.
  unfold semi_format_to_pandas, deepcopy_scraped_data.
  apply keeps_bind.
  { apply keeps_bind; [apply keeps_get_state | intros s; apply fkeeps_deepcopy_outer]. }
  intros data_copy. apply keeps_bind.
  { destruct data_copy; [apply keeps_raise | apply keeps_ret]. }
  intros _. apply keeps_bind.
  { apply keeps_fold_for. intros acc sub. apply keeps_fold_for.
    intros acc' entry. apply fkeeps_flatten_bundle. }
  intros tables. fkeeps.
Qed.

Lemma fkeeps_full_format : keeps f full_format_to_pandas.
Proof.
  unfold full_format_to_pandas, retype_post_id.
  apply keeps_bind; [apply fkeeps_semi_format | intros tables]. fkeeps.
Qed.

Lemma fkeeps_nodes_and_edges_from lj : keeps f (nodes_and_edges_from lj).
Proof. unfold nodes_and_edges_from. fkeeps. Qed.

Lemma fkeeps_create_nodes_and_edges : keeps f create_nodes_and_edges.
Proof.
  unfold create_nodes_and_edges.
  apply keeps_bind; [apply keeps_get_state | intros s0].
  apply keeps_bind.
  { destruct (joined_data_df s0); [apply keeps_ret|].
    apply keeps_bind; [apply fkeeps_full_format | intros l; apply keeps_ret]. }
  intros _. apply keeps_bind; [apply keeps_get_state | intros s1].
  destruct (joined_data_df s1);
    [apply fkeeps_nodes_and_edges_from | apply keeps_raise].
Qed.
End Formatting.

(** The scraping methods: whatever ignores the heap, the request log and
    the store is kept. *)
Section Scraping.
Context {B : Type} (f : state -> B).
Hypothesis f_heap : forall h s, f (set_heap h s) = f s.
Hypothesis f_log : forall l s, f (set_io_log l s) = f s.
Hypothesis f_data : forall d s, f (set_scraped_data d s) = f s.

Lemma skeeps_alloc o : keeps f (alloc o).
Proof. intros s. apply f_heap. Qed.

Lemma skeeps_log e : keeps f (log e).
Proof. intros s. apply f_log. Qed.

Lemma skeeps_store g : keeps f (modify (fun s => set_scraped_data (g s) s)).
Proof. intros s. apply f_data. Qed.

Ltac skeeps :=
  keeps_auto ltac:(first [ apply skeeps_alloc | apply skeeps_log
                         | apply skeeps_store ]).

Lemma skeeps_obtain_comments post cur cl : keeps f (_obtain_comments post cur cl).
Proof. unfold _obtain_comments, record_comment. skeeps. Qed.

Lemma skeeps_scrape_post gc cl b post : keeps f (scrape_post gc cl b post).
Proof.
  unfold scrape_post, append_field.
  repeat (apply keeps_bind; [skeeps | intros ?]).
  destruct (truthy gc); [|apply keeps_ret].
  apply keeps_bind; [skeeps | intros cur].
  apply keeps_bind; [apply skeeps_obtain_comments | intros cs; apply keeps_ret].
Qed.

Lemma skeeps_scrape_body c q pl so tf gc cl : keeps f (scrape_body c q pl so tf gc cl).
Proof.
  unfold scrape_body.
  apply keeps_bind; [apply keeps_get_state | intros s0].
  apply keeps_bind; [apply skeeps_log | intros _].
  apply keeps_bind.
  { apply keeps_fold_for. intros acc post. apply skeeps_scrape_post. }
  intros all_posts. skeeps.
Qed.

Lemma skeeps_scrape_subreddit subreddit search pl so tf gc cl :
  keeps f (scrape_subreddit subreddit search pl so tf gc cl).
Proof.
  unfold scrape_subreddit.
  repeat (apply keeps_bind;
          [first [apply keeps_lift | destruct (str_in _ _); skeeps] | intros _]).
  apply skeeps_scrape_body.
Qed.

Lemma skeeps_multi_scrape subreddits search pl so tf gc cl :
  keeps f (multi_scrape subreddits search pl so tf gc cl).
Proof.
  unfold multi_scrape.
  apply keeps_bind; [apply keeps_lift | intros _].
  apply keeps_bind; [destruct (_ <=? _)%nat; skeeps | intros _].
  apply keeps_fold_for. intros combined sub.
  apply keeps_bind; [apply skeeps_scrape_subreddit | intros data]. skeeps.
Qed.
End Scraping.

(** The attributes [edges] and [nodes] are set by [__init__] only: no
    formatting method assigns them, and none touches the store or sends a
    request. *)
Theorem formatting_keeps_store_log_and_graph_attributes :
  forall s,
    outside_formatting (snd (semi_format_to_pandas s)) = outside_formatting s
    /\ outside_formatting (snd (full_format_to_pandas s)) = outside_formatting s
    /\ outside_formatting (snd (create_nodes_and_edges s)) = outside_formatting s.
Proof.
  intros s.
  split; [|split];
    [ apply (fkeeps_semi_format outside_formatting)
    | apply (fkeeps_full_format outside_formatting)
    | apply (fkeeps_create_nodes_and_edges outside_formatting) ];
    intros; reflexivity.
Qed.

(** ** More on [scrape_subreddit] *)

Lemma scrape_valid_eq subreddit search pl so tf gc cl s :
  valid_call subreddit search pl so tf gc cl ->
  scrape_subreddit subreddit search pl so tf gc cl s
  = scrape_body (as_str subreddit) (as_str search) pl (as_str so) (as_str tf)
      gc cl s.
Proof.
  intros ([c ->] & [q ->] & H3 & [x [-> Hx]] & [y [-> Hy]] & H6 & H7).
  unfold scrape_subreddit, _type_defence. simpl isinstance.
  rewrite H3, H6, H7. simpl as_str.
  rewrite (proj2 (str_in_In _ _) Hx), (proj2 (str_in_In _ _) Hy).
  reflexivity.
Qed.

(** A call that raises has written nothing: the state differs from the
    state before at most in the log of requests, and not at all when the
    arguments were refused. *)
Theorem scrape_failure_changes_only_the_log :
  forall subreddit search post_limit sort time_filter get_comments comment_limit
         s e s',
    scrape_subreddit subreddit search post_limit sort time_filter
      get_comments comment_limit s = (Raise e, s') ->
    s' = set_io_log (io_log s') s
    /\ (~ valid_call subreddit search post_limit sort time_filter get_comments
          comment_limit -> s' = s).
Proof.
  intros subreddit search pl so tf gc cl s e s' Hrun.
  destruct (scrape_validation subreddit search pl so tf gc cl s)
    as [[Hv Heq] | [e0 [Heq _]]]; rewrite Heq in Hrun.
  - rewrite scrape_body_eq in Hrun.
    destruct (loop_error gc _) as [e1|];
      [|destruct (failure _) as [e1|]; [|discriminate]];
      inversion Hrun; subst; (split; [reflexivity | intros Hn; contradiction]).
  - inversion Hrun; subst. split; [symmetry; apply set_io_log_same | reflexivity].
Qed.

Lemma scrape_failure_changes_only_the_log_witness :
  exists e,
    scrape_subreddit (PStr "test") (PStr "foo") (PInt 50) (PStr "top")
      (PStr "all") (PBool true) (PInt 10) (init failing_client)
    = (Raise e, snd (scrape_subreddit (PStr "test") (PStr "foo") (PInt 50)
                       (PStr "top") (PStr "all") (PBool true) (PInt 10)
                       (init failing_client)))
    /\ scraped_data (snd (scrape_subreddit (PStr "test") (PStr "foo") (PInt 50)
                            (PStr "top") (PStr "all") (PBool true) (PInt 10)
                            (init failing_client))) = []
    /\ heap (snd (scrape_subreddit (PStr "test") (PStr "foo") (PInt 50)
                    (PStr "top") (PStr "all") (PBool true) (PInt 10)
                    (init failing_client))) = [].
Proof.
  assert (Hrun : scrape_subreddit (PStr "test") (PStr "foo") (PInt 50) (PStr "top")
                   (PStr "all") (PBool true) (PInt 10) (init failing_client)
                 = (Raise (UpstreamFailure "rate limit"),
                    snd (scrape_subreddit (PStr "test") (PStr "foo") (PInt 50)
                           (PStr "top") (PStr "all") (PBool true) (PInt 10)
                           (init failing_client))))
    by (vm_compute; reflexivity).
  exists (UpstreamFailure "rate limit"). split; [exact Hrun|].
  destruct (scrape_failure_changes_only_the_log _ _ _ _ _ _ _ _ _ _ Hrun)
    as [Hs _].
  rewrite Hs. split; reflexivity.
Defined.

Lemma loop_error_no_comments posts : loop_error (PBool false) posts = None.
Proof. induction posts as [|p posts IH]; simpl; [reflexivity | exact IH]. Qed.

Lemma loop_events_no_comments posts : loop_events (PBool false) posts = [].
Proof. induction posts as [|p posts IH]; simpl; [reflexivity | exact IH]. Qed.

Lemma taken_no_comments cl posts : flat_map (taken (PBool false) cl) posts = [].
Proof. induction posts as [|p posts IH]; simpl; [reflexivity | exact IH]. Qed.

(** With [get_comments=False] no comment request is sent: a valid call
    sends the search request and nothing else, whether it returns or raises;
    and when it returns, the bundle it has stored holds the fetched posts
    with an empty comment container. *)
Theorem scrape_without_comments :
  forall subreddit search post_limit sort time_filter comment_limit s,
    valid_call subreddit search post_limit sort time_filter (PBool false)
      comment_limit ->
    let run := scrape_subreddit subreddit search post_limit sort time_filter
                 (PBool false) comment_limit s in
    io_log (snd run)
    = io_log s ++ [IOSearch (as_str subreddit) (as_str search) post_limit
                     (as_str sort) (as_str time_filter)]
    /\ (forall out s',
          run = (Ok out, s') ->
          out = [(as_str subreddit, length (heap s))]
          /\ heap s' !! length (heap s)
             = Some (OBundle (bundle_of
                                (items (reddit s (io_log s) (as_str subreddit)
                                          (as_str search) post_limit
                                          (as_str sort) (as_str time_filter)))
                                []))).
Proof.
  intros subreddit search pl so tf cl s Hv run. unfold run.
  rewrite (scrape_valid_eq _ _ _ _ _ _ _ s Hv), scrape_body_eq.
  rewrite loop_error_no_comments, loop_events_no_comments, taken_no_comments.
  destruct (failure _) as [e|]; simpl.
  - split; [reflexivity|]. intros out s' H. discriminate.
  - split; [reflexivity|]. intros out s' H. inversion H; subst.
    split; [reflexivity|]. simpl.
    rewrite lookup_app_r by lia. rewrite Nat.sub_diag. reflexivity.
Qed.

Lemma demo_valid_call gc :
  isinstance gc Tbool = true ->
  valid_call (PStr "test") (PStr "foo") (PInt 50) (PStr "top") (PStr "all") gc
    (PInt 10).
Proof.
  intros Hgc. unfold valid_call.
  split; [eexists; reflexivity|]. split; [eexists; reflexivity|].
  split; [reflexivity|].
  split; [exists "top"; split; [reflexivity | simpl; tauto]|].
  split; [exists "all"; split; [reflexivity | simpl; tauto]|].
  split; [exact Hgc | reflexivity].
Qed.

Lemma scrape_without_comments_witness :
  io_log demo_state_posts_only = [IOSearch "test" "foo" (PInt 50) "top" "all"]
  /\ heap demo_state_posts_only !! 0
     = Some (OBundle (bundle_of [demo_p1; demo_p2] [])).
Proof.
  destruct (scrape_without_comments (PStr "test") (PStr "foo") (PInt 50)
              (PStr "top") (PStr "all") (PInt 10) (init demo_client)
              (demo_valid_call (PBool false) eq_refl)) as [Hlog Hret].
  split; [exact Hlog|].
  apply (Hret [("test", 0)] demo_state_posts_only). reflexivity.
Defined.

Lemma loop_events_all gc posts :
  truthy gc = true -> loop_error gc posts = None ->
  loop_events gc posts = map (fun p => IOComments (s_id p)) posts.
Proof.
  intros Hgc. induction posts as [|p posts IH]; simpl; [reflexivity|].
  rewrite Hgc. destruct (s_comments p); [|discriminate].
  intros H. rewrite (IH H). reflexivity.
Qed.

(** A call with [get_comments=True] that returns has sent the search
    request and then one comment request per post, in fetch order. *)
Theorem scrape_with_comments_requests :
  forall subreddit search post_limit sort time_filter comment_limit s ret s',
    scrape_subreddit subreddit search post_limit sort time_filter (PBool true)
      comment_limit s = (Ok ret, s') ->
    io_log s'
    = io_log s
      ++ IOSearch (as_str subreddit) (as_str search) post_limit (as_str sort)
           (as_str time_filter)
         :: map (fun p => IOComments (s_id p))
              (items (reddit s (io_log s) (as_str subreddit) (as_str search)
                        post_limit (as_str sort) (as_str time_filter))).
Proof.
  intros subreddit search pl so tf cl s ret s' Hrun.
  destruct (scrape_validation subreddit search pl so tf (PBool true) cl s)
    as [[_ Heq] | [e0 [Heq _]]]; rewrite Heq in Hrun; [|discriminate].
  rewrite scrape_body_eq in Hrun.
  destruct (loop_error (PBool true) _) as [e1|] eqn:Hloop; [discriminate|].
  destruct (failure _) as [e1|]; [discriminate|].
  inversion Hrun; subst. simpl io_log.
  rewrite (loop_events_all (PBool true) _ eq_refl Hloop). reflexivity.
Qed.

Lemma scrape_with_comments_requests_witness :
  io_log demo_state1
  = [IOSearch "test" "foo" (PInt 50) "top" "all"; IOComments "p1"; IOComments "p2"].
Proof.
  apply (scrape_with_comments_requests (PStr "test") (PStr "foo") (PInt 50)
           (PStr "top") (PStr "all") (PInt 10) (init demo_client)
           [("test", 0)] demo_state1).
  reflexivity.
Defined.

Lemma slice_to_length {A} n (l : list A) :
  length (slice_to n l)
  = if (0 <=? n)%Z then Nat.min (Z.to_nat n) (length l)
    else length l - Z.to_nat (- n).
Proof.
  unfold slice_to. destruct (0 <=? n)%Z eqn:E; rewrite length_take.
  - reflexivity.
  - apply Z.leb_gt in E. lia.
Qed.

Lemma taken_length n p :
  length (taken (PBool true) (PInt n) p) = kept_comments n p.
Proof.
  unfold taken, kept_comments. simpl truthy. simpl as_index.
  destruct (s_comments p) as [listed | e]; [|reflexivity].
  rewrite List.length_map. apply slice_to_length.
Qed.

Lemma kept_comments_le n p : (0 <= n)%Z -> kept_comments n p <= Z.to_nat n.
Proof.
  intros Hn. unfold kept_comments. destruct (s_comments p); [|lia].
  destruct (0 <=? n)%Z eqn:E; [lia|]. apply Z.leb_gt in E. lia.
Qed.

Lemma taken_first_comments n p :
  taken (PBool true) (PInt n) p = first_comments n p.
Proof.
  unfold taken, first_comments, slice_to. simpl truthy. simpl as_index.
  destruct (s_comments p) as [listed | e]; [|reflexivity].
  destruct (0 <=? n)%Z eqn:E; [reflexivity|].
  apply Z.leb_gt in E. do 2 f_equal. lia.
Qed.

Lemma first_comments_le n p :
  (0 <= n)%Z -> length (first_comments n p) <= Z.to_nat n.
Proof.
  intros Hn. rewrite <- taken_first_comments, taken_length.
  apply kept_comments_le. exact Hn.
Qed.

(** The comments a returned bundle holds under [comment_limit = n]: for each
    fetched post in turn, the first [n] comments of its flattened list in
    their order when [n >= 0], and all but the last [-n] when [n < 0] (the
    slice [[:n]]), each recorded under the post's id; so never more than [n]
    from one post when [n >= 0]. *)
Theorem scrape_comment_counts :
  forall subreddit search post_limit sort time_filter n s ret s',
    scrape_subreddit subreddit search post_limit sort time_filter (PBool true)
      (PInt n) s = (Ok ret, s') ->
    let posts := items (reddit s (io_log s) (as_str subreddit) (as_str search)
                          post_limit (as_str sort) (as_str time_filter)) in
    exists l,
      ret = [(as_str subreddit, l)]
      /\ heap s' !! l
         = Some (OBundle (bundle_of posts (flat_map (first_comments n) posts)))
      /\ (forall p, length (first_comments n p) = kept_comments n p)
      /\ ((0 <= n)%Z -> forall p, length (first_comments n p) <= Z.to_nat n).
Proof.
  intros subreddit search pl so tf n s ret s' Hrun posts.
  destruct (scrape_success _ _ _ _ _ _ _ _ _ _ Hrun) as (_ & Hret & Hheap & _).
  fold posts in Hheap.
  exists (length (heap s)). split; [exact Hret|].
  split.
  { rewrite Hheap, lookup_app_r by lia. rewrite Nat.sub_diag. simpl.
    do 3 f_equal. apply flat_map_ext. intros p. apply taken_first_comments. }
  split.
  { intros p. rewrite <- taken_first_comments. apply taken_length. }
  intros Hn p. apply first_comments_le. exact Hn.
Qed.

Lemma scrape_comment_counts_witness :
  exists l,
    [("test", 0)] = [("test", l)]
    /\ heap (snd (scrape_subreddit (PStr "test") (PStr "foo") (PInt 50)
                    (PStr "top") (PStr "all") (PBool true) (PInt (-1))
                    (init demo_client))) !! l
       = Some (OBundle (bundle_of [demo_p1; demo_p2] [("p1", demo_c1)])).
Proof.
  destruct (scrape_comment_counts (PStr "test") (PStr "foo") (PInt 50)
              (PStr "top") (PStr "all") (-1) (init demo_client) [("test", 0)]
              (snd (scrape_subreddit (PStr "test") (PStr "foo") (PInt 50)
                      (PStr "top") (PStr "all") (PBool true) (PInt (-1))
                      (init demo_client)))
              ltac:(vm_compute; reflexivity))
    as (l & Hret & Hb & _).
  exists l. split; [exact Hret|]. exact Hb.
Defined.

(** ** Key order of the store *)

Lemma dict_keys_set {V} k (v : V) d :
  dict_keys (dict_set k v d) = keys_after_set k (dict_keys d).
Proof.
  unfold keys_after_set, dict_keys, has_label.
  induction d as [|[k' v'] d IH]; [reflexivity|].
  cbn [dict_set map fst existsb].
  destruct (String.eqb k k') eqn:E; cbn [map fst orb]; [reflexivity|].
  rewrite IH. destruct (existsb (String.eqb k) (map fst d)); reflexivity.
Qed.

(** A call that returns keeps the iteration order of the store: a community
    or a query that was already a key stays where it was, a new one goes
    last. *)
Theorem scrape_keeps_key_order :
  forall subreddit search post_limit sort time_filter get_comments comment_limit
         s ret s',
    scrape_subreddit subreddit search post_limit sort time_filter
      get_comments comment_limit s = (Ok ret, s') ->
    dict_keys (scraped_data s')
    = keys_after_set (as_str subreddit) (dict_keys (scraped_data s))
    /\ exists inner',
         dict_get (as_str subreddit) (scraped_data s') = Some inner'
         /\ dict_keys inner'
            = keys_after_set (as_str search)
                (match dict_get (as_str subreddit) (scraped_data s) with
                 | Some inner => dict_keys inner
                 | None => []
                 end).
Proof.
  intros subreddit search pl so tf gc cl s ret s' Hrun.
  destruct (scrape_success _ _ _ _ _ _ _ _ _ _ Hrun) as (_ & _ & _ & Hdata & _).
  rewrite Hdata. unfold store_bundle.
  destruct (dict_get (as_str subreddit) (scraped_data s)) as [inner|];
    (split; [apply dict_keys_set|]);
    eexists; (split; [apply dict_get_set_eq | apply dict_keys_set]).
Qed.

Lemma scrape_keeps_key_order_witness :
  dict_keys (scraped_data demo_state2) = ["test"]
  /\ exists inner',
       dict_get "test" (scraped_data demo_state2) = Some inner'
       /\ dict_keys inner' = ["foo"; "bar"].
Proof.
  apply (scrape_keeps_key_order (PStr "test") (PStr "bar") (PInt 50)
           (PStr "top") (PStr "all") (PBool true) (PInt 10) demo_state1
           [("test", 1)] demo_state2).
  reflexivity.
Defined.

(** ** [multi_scrape] *)

(** One turn of the loop of [multi_scrape]. *)
Lemma fold_for_app {A B} (l1 l2 : list A) (body : B -> A -> M B) :
  forall acc s,
    fold_for (l1 ++ l2) acc body s
    = bind (fold_for l1 acc body) (fun acc' => fold_for l2 acc' body) s.
Proof.
  induction l1 as [|x l1 IH]; intros acc s; simpl.
  - reflexivity.
  - unfold bind. destruct (body acc x s) as [[acc' | e] s1]; [|reflexivity].
    rewrite IH. reflexivity.
Qed.

Lemma multi_scrape_loop search pl so tf gc cl subs :
  forall combined s out s',
    fold_for subs combined
      (fun combined_data sub =>
         data <- scrape_subreddit sub search pl so tf gc cl ;;
         match dict_get (as_str sub) data with
         | Some b => ret (dict_set (as_str sub) b combined_data)
         | None => raise (KeyError (as_str sub))
         end) s = (Ok out, s') ->
    returned_ok (as_str search) combined s ->
    returned_ok (as_str search) out s'
    /\ (forall c, is_Some (dict_get c combined) -> is_Some (dict_get c out))
    /\ (forall sub, In sub subs ->
          exists c, sub = PStr c /\ is_Some (dict_get c out)).
Proof.
  induction subs as [|sub subs IH]; intros combined s out s' Hrun Hinv.
  - simpl in Hrun. inversion Hrun; subst. split; [exact Hinv|].
    split; [auto | intros sub []].
  - simpl fold_for in Hrun.
    apply bind_inv_ok in Hrun. destruct Hrun as (combined1 & s1 & Hstep & Hrest).
    apply bind_inv_ok in Hstep. destruct Hstep as (data & s0 & Hscrape & Hput).
    destruct (scrape_success _ _ _ _ _ _ _ _ _ _ Hscrape)
      as (Hv & Hdata & Hheap & Hstore & _).
    destruct Hv as ([c Hc] & _). subst sub. simpl as_str in *.
    rewrite Hdata in Hput. simpl in Hput. rewrite String.eqb_refl in Hput.
    inversion Hput; subst combined1 s1. clear Hput.
    assert (Hinv1 : returned_ok (as_str search) (dict_set c (length (heap s)) combined) s0).
    { intros c0 l0 Hget. destruct (String.eqb_spec c c0) as [<- | Hne].
      - rewrite dict_get_set_eq in Hget. inversion Hget; subst l0.
        split; [rewrite Hstore; apply store_lookup_store_bundle_eq|].
        eexists. split; [|apply bundle_of_invariant].
        rewrite Hheap, lookup_app_r by lia. rewrite Nat.sub_diag. reflexivity.
      - rewrite dict_get_set_ne in Hget by exact Hne.
        destruct (Hinv c0 l0 Hget) as (Hl & b & Hb & Hbi).
        split.
        + rewrite Hstore, store_lookup_store_bundle_ne by congruence. exact Hl.
        + exists b. split; [|exact Hbi]. rewrite Hheap.
          apply lookup_app_l_Some. exact Hb. }
    destruct (IH _ _ _ _ Hrest Hinv1) as (Hret & Hmono & Hall).
    split; [exact Hret|]. split.
    + intros c0 Hsome. apply Hmono.
      destruct (String.eqb_spec c c0) as [<- | Hne].
      * rewrite dict_get_set_eq. eexists; reflexivity.
      * rewrite dict_get_set_ne by exact Hne. exact Hsome.
    + intros sub [<- | Hin]; [|apply Hall; exact Hin].
      exists c. split; [reflexivity|]. apply Hmono.
      rewrite dict_get_set_eq. eexists; reflexivity.
Qed.

(** When [multi_scrape] returns, every element of the list was a community
    name, and for each of them the returned dict holds the bundle the store
    now has under that community and the query: a bundle that satisfies the
    bundle invariant. *)
Theorem multi_scrape_returns_the_stored_bundles :
  forall subs search post_limit sort time_filter get_comments comment_limit
         s ret s',
    multi_scrape (PList subs) search post_limit sort time_filter get_comments
      comment_limit s = (Ok ret, s') ->
    forall sub, In sub subs ->
      exists c l b,
        sub = PStr c
        /\ dict_get c ret = Some l
        /\ store_lookup (scraped_data s') c (as_str search) = Some l
        /\ heap s' !! l = Some (OBundle b)
        /\ bundle_invariant b.
Proof.
  intros subs search pl so tf gc cl s ret s' Hrun sub Hin.
  unfold multi_scrape in Hrun.
  apply bind_inv_ok in Hrun. destruct Hrun as (u1 & s1 & H1 & Hrun).
  apply lift_inv_ok in H1. destruct H1 as [_ ->].
  apply bind_inv_ok in Hrun. destruct Hrun as (u2 & s2 & H2 & Hrun).
  assert (s2 = s) as ->.
  { destruct (_ <=? _)%nat; [discriminate | inversion H2; reflexivity]. }
  simpl list_items in Hrun.
  destruct (multi_scrape_loop _ _ _ _ _ _ _ _ _ _ _ Hrun) as (Hret & _ & Hall).
  { intros c l Hget. discriminate. }
  destruct (Hall sub Hin) as (c & -> & [l Hl]).
  destruct (Hret c l Hl) as (Hstore & b & Hb & Hbi).
  exists c, l, b. split; [reflexivity|]. split; [exact Hl|].
  split; [exact Hstore|]. split; [exact Hb | exact Hbi].
Qed.

Lemma multi_scrape_returns_the_stored_bundles_witness :
  exists c l b,
    PStr "other" = PStr c
    /\ dict_get c (match fst (multi_scrape (PList [PStr "test"; PStr "other"])
                               (PStr "foo") (PInt 50) (PStr "top") (PStr "all")
                               (PBool true) (PInt 10) (init demo_client)) with
                   | Ok ret => ret
                   | Raise _ => []
                   end) = Some l
    /\ heap (snd (multi_scrape (PList [PStr "test"; PStr "other"])
                    (PStr "foo") (PInt 50) (PStr "top") (PStr "all")
                    (PBool true) (PInt 10) (init demo_client))) !! l
       = Some (OBundle b)
    /\ bundle_invariant b.
Proof.
  destruct (multi_scrape_returns_the_stored_bundles
              [PStr "test"; PStr "other"] (PStr "foo") (PInt 50) (PStr "top")
              (PStr "all") (PBool true) (PInt 10) (init demo_client)
              [("test", 0); ("other", 1)]
              (snd (multi_scrape (PList [PStr "test"; PStr "other"])
                      (PStr "foo") (PInt 50) (PStr "top") (PStr "all")
                      (PBool true) (PInt 10) (init demo_client)))
              ltac:(vm_compute; reflexivity)
              (PStr "other") ltac:(right; left; reflexivity))
    as (c & l & b & Hc & Hret & _ & Hb & Hbi).
  exists c, l, b. split; [exact Hc|]. split; [|split; assumption].
  etransitivity; [|exact Hret]. vm_compute. reflexivity.
Defined.

Lemma scrape_refuses_non_str sub search pl so tf gc cl s :
  isinstance sub Tstr = false ->
  exists m,
    scrape_subreddit sub search pl so tf gc cl s = (Raise (TypeError m), s).
Proof.
  intros H. unfold scrape_subreddit, _type_defence. rewrite H.
  eexists. reflexivity.
Qed.

(** An element that is not a [str] stops [multi_scrape] with a [TypeError]
    when the loop reaches it and not before: when it is the first element
    nothing has been done and the state is unchanged; when the communities
    before it have been scraped, they stay scraped and stored, and the state
    is the one a call on those communities alone leaves. *)
Theorem multi_scrape_stops_at_a_bad_element :
  forall bad after search post_limit sort time_filter get_comments
         comment_limit s,
    isinstance bad Tstr = false ->
    (exists m,
       multi_scrape (PList (bad :: after)) search post_limit sort time_filter
         get_comments comment_limit s
       = (Raise (TypeError m), s))
    /\ (forall before out s1,
          multi_scrape (PList before) search post_limit sort time_filter
            get_comments comment_limit s = (Ok out, s1) ->
          exists m,
            multi_scrape (PList (before ++ bad :: after)) search post_limit
              sort time_filter get_comments comment_limit s
            = (Raise (TypeError m), s1)).
Proof.
  intros bad after search pl so tf gc cl s Hbad. split.
  - destruct (scrape_refuses_non_str bad search pl so tf gc cl s Hbad) as [m Hm].
    exists m. unfold multi_scrape.
    rewrite (bind_ok (lift (_type_defence (PList (bad :: after)) Tlist
                              "subreddit")) _ s tt s eq_refl).
    rewrite (bind_ok (if (length (list_items (PList (bad :: after))) <=? 0)%nat
                      then raise (UserWarning
                             "Can not scrape data as no subreddit was specified.")
                      else ret tt) _ s tt s eq_refl).
    simpl list_items. simpl fold_for. apply bind_raise. apply bind_raise.
    exact Hm.
  - intros before out s1 Hrun. unfold multi_scrape in *.
    apply bind_inv_ok in Hrun. destruct Hrun as (u1 & s0 & H1 & Hrun).
    apply lift_inv_ok in H1. destruct H1 as [_ ->].
    apply bind_inv_ok in Hrun. destruct Hrun as (u2 & s2 & H2 & Hrun).
    assert (s2 = s) as ->.
    { destruct (_ <=? _)%nat; [discriminate | inversion H2; reflexivity]. }
    simpl list_items in *.
    destruct (scrape_refuses_non_str bad search pl so tf gc cl s1 Hbad) as [m Hm].
    exists m.
    rewrite (bind_ok (lift (_type_defence (PList (before ++ bad :: after)) Tlist
                              "subreddit")) _ s tt s eq_refl).
    rewrite (bind_ok (if (length (before ++ bad :: after) <=? 0)%nat
                      then raise (UserWarning
                             "Can not scrape data as no subreddit was specified.")
                      else ret tt) _ s tt s
               ltac:(rewrite length_app; simpl;
                     replace (length before + S (length after))
                       with (S (length before + length after)) by lia;
                     reflexivity)).
    rewrite fold_for_app. rewrite (bind_ok _ _ _ _ _ Hrun).
    simpl fold_for. apply bind_raise. apply bind_raise. exact Hm.
Qed.

Lemma multi_scrape_stops_at_a_bad_element_witness :
  (exists m,
     multi_scrape (PList [PInt 7; PStr "other"]) (PStr "foo") (PInt 50)
       (PStr "top") (PStr "all") (PBool true) (PInt 10) (init demo_client)
     = (Raise (TypeError m), init demo_client))
  /\ (exists m,
        multi_scrape (PList ([PStr "test"] ++ PInt 7 :: [PStr "other"]))
          (PStr "foo") (PInt 50) (PStr "top") (PStr "all") (PBool true)
          (PInt 10) (init demo_client)
        = (Raise (TypeError m), demo_state1)).
Proof.
  destruct (multi_scrape_stops_at_a_bad_element (PInt 7) [PStr "other"]
              (PStr "foo") (PInt 50) (PStr "top") (PStr "all") (PBool true)
              (PInt 10) (init demo_client) eq_refl) as [Hfirst Hlater].
  split; [exact Hfirst|].
  apply (Hlater [PStr "test"] [("test", 0)] demo_state1).
  vm_compute. reflexivity.
Defined.

(** ** Formatting an empty store *)

(** With nothing scraped, [semi_format_to_pandas] and
    [full_format_to_pandas] raise the [UserWarning] of the first, and so does
    [create_nodes_and_edges] when no joined table is stored; the state is
    left as it was. *)
Theorem formatting_an_empty_store_raises :
  forall s,
    scraped_data s = [] ->
    semi_format_to_pandas s = (Raise (UserWarning "No data has been scraped."), s)
    /\ full_format_to_pandas s
       = (Raise (UserWarning "No data has been scraped."), s)
    /\ (joined_data_df s = None ->
        create_nodes_and_edges s
        = (Raise (UserWarning "No data has been scraped."), s)).
Proof.
  intros s Hempty.
  assert (Hsemi : semi_format_to_pandas s
                  = (Raise (UserWarning "No data has been scraped."), s)).
  { unfold semi_format_to_pandas, deepcopy_scraped_data, bind, get_state.
    rewrite Hempty. reflexivity. }
  assert (Hfull : full_format_to_pandas s
                  = (Raise (UserWarning "No data has been scraped."), s)).
  { unfold full_format_to_pandas. apply bind_raise. exact Hsemi. }
  split; [exact Hsemi|]. split; [exact Hfull|].
  intros Hj. unfold create_nodes_and_edges.
  rewrite (bind_ok get_state _ s s s eq_refl). rewrite Hj.
  apply bind_raise. apply bind_raise. exact Hfull.
Qed.

Lemma formatting_an_empty_store_raises_witness :
  create_nodes_and_edges (init demo_client)
  = (Raise (UserWarning "No data has been scraped."), init demo_client).
Proof.
  apply (formatting_an_empty_store_raises (init demo_client) eq_refl).
  reflexivity.
Defined.

(** ** The nodes table *)

Lemma unique_from xs :
  forall acc,
    NoDup acc ->
    NoDup (fold_left (fun acc x => if existsb (cell_eqb x) acc then acc
                                   else acc ++ [x]) xs acc)
    /\ forall x,
         In x (fold_left (fun acc x => if existsb (cell_eqb x) acc then acc
                                       else acc ++ [x]) xs acc)
         <-> In x acc \/ In x xs.
Proof.
  induction xs as [|y xs IH]; intros acc Hnd; simpl.
  - split; [exact Hnd | intros x; tauto].
  - destruct (existsb (cell_eqb y) acc) eqn:E.
    + destruct (IH acc Hnd) as [H1 H2]. split; [exact H1|].
      intros x. rewrite H2. split; [tauto|].
      intros [H | [<- | H]]; [tauto | | tauto].
      left. apply existsb_exists in E. destruct E as [z [Hz Hyz]].
      apply cell_eqb_eq in Hyz. subst z. exact Hz.
    + assert (Hnd' : NoDup (acc ++ [y])).
      { apply NoDup_app. split; [exact Hnd|]. split.
        - intros x Hx Hy. apply list_elem_of_In in Hx.
          apply list_elem_of_In in Hy. destruct Hy as [<- | []].
          assert (existsb (cell_eqb y) acc = true) as Htrue.
          { apply existsb_exists. exists y. split; [exact Hx | apply cell_eqb_refl]. }
          congruence.
        - apply NoDup_cons. split; [apply not_elem_of_nil | apply NoDup_nil_2]. }
      destruct (IH (acc ++ [y]) Hnd') as [H1 H2]. split; [exact H1|].
      intros x. rewrite H2, in_app_iff. simpl. tauto.
Qed.

Lemma unique_spec xs :
  NoDup (unique xs) /\ forall x, In x (unique xs) <-> In x xs.
Proof.
  destruct (unique_from xs [] NoDup_nil_2) as [H1 H2].
  split; [exact H1|]. intros x. unfold unique. rewrite H2. simpl. tauto.
Qed.

Lemma rows_by_index (l : list cell) :
  map (fun i => [nth i l CNull]) (seq 0 (length l)) = map (fun x => [x]) l.
Proof.
  induction l as [|x l IH]; [reflexivity|].
  simpl length. simpl seq. simpl map at 1. rewrite <- seq_shift, map_map.
  simpl. f_equal. exact IH.
Qed.

(** When [create_nodes_and_edges] returns, the nodes table has the single
    column [id] and one row per distinct value of the [author] and
    [comment_author] columns of the stored joined table: no value twice, none
    missing, none added. *)
Theorem nodes_are_the_distinct_authors :
  forall s ln le s',
    create_nodes_and_edges s = (Ok (ln, le), s') ->
    exists lj J N a c ids,
      joined_data_df s' = Some lj
      /\ heap s' !! lj = Some (OFrame J)
      /\ get_column J "author" = Ok a
      /\ get_column J "comment_author" = Ok c
      /\ heap s' !! ln = Some (OFrame N)
      /\ columns N = ["id"]
      /\ rows N = map (fun x => [x]) ids
      /\ NoDup ids
      /\ (forall x, In x ids <-> In x a \/ In x c).
Proof.
  intros s ln le s' Hrun.
  destruct (create_nodes_and_edges_cases _ _ _ Hrun)
    as [(lj & s0 & _ & Hj0 & Hbody) | (e & _ & _ & He)]; [|discriminate].
  destruct (nodes_and_edges_from_returns _ _ _ _ _ Hbody)
    as (J & a & c & HJ & Ha & Hc & -> & -> & ->).
  destruct (unique_spec (a ++ c)) as [Hnd Hin].
  exists lj, J, (nodes_frame (a ++ c)), a, c, (unique (a ++ c)).
  split; [exact Hj0|].
  split; [simpl heap; apply lookup_app_l_Some; exact HJ|].
  split; [exact Ha|]. split; [exact Hc|].
  split.
  { simpl heap. rewrite lookup_app_r by lia.
    replace (S (length (heap s0)) - length (heap s0)) with 1 by lia. reflexivity. }
  split; [reflexivity|].
  split; [apply rows_by_index|].
  split; [exact Hnd|].
  intros x. rewrite Hin, in_app_iff. tauto.
Qed.

Lemma nodes_are_the_distinct_authors_witness :
  exists N,
    heap (snd (create_nodes_and_edges demo_state1)) !! 6 = Some (OFrame N)
    /\ rows N = [[CStr "alice"]; [CStr "bob"]; [CStr "unknown_author"]].
Proof.
  destruct (nodes_are_the_distinct_authors demo_state1 6 5
              (snd (create_nodes_and_edges demo_state1))
              ltac:(vm_compute; reflexivity))
    as (lj & J & N & a & c & ids & _ & _ & _ & _ & HN & _ & _).
  exists N. split; [exact HN|].
  assert (HN' : heap (snd (create_nodes_and_edges demo_state1)) !! 6
                = Some (OFrame (mkFrame ["id"]
                                  [[CStr "alice"]; [CStr "bob"];
                                   [CStr "unknown_author"]])))
    by (vm_compute; reflexivity).
  rewrite HN' in HN. inversion HN. reflexivity.
Defined.

(** ** A stored joined table is not refreshed *)

Lemma scrape_heap_grows subreddit search pl so tf gc cl s :
  exists ext,
    heap (snd (scrape_subreddit subreddit search pl so tf gc cl s))
    = heap s ++ ext.
Proof.
  destruct (scrape_validation subreddit search pl so tf gc cl s)
    as [[_ Heq] | [e [Heq _]]]; rewrite Heq.
  - rewrite scrape_body_eq.
    destruct (loop_error gc _) as [e|];
      [|destruct (failure _) as [e|]]; simpl;
      try (exists []; rewrite app_nil_r; reflexivity).
    eexists. reflexivity.
  - exists []. rewrite app_nil_r. reflexivity.
Qed.

Lemma fold_for_heap_grows {A B} (body : B -> A -> M B) (l : list A) :
  (forall acc x s, exists ext, heap (snd (body acc x s)) = heap s ++ ext) ->
  forall acc s, exists ext, heap (snd (fold_for l acc body s)) = heap s ++ ext.
Proof.
  intros Hbody. induction l as [|x l IH]; intros acc s; simpl.
  - exists []. rewrite app_nil_r. reflexivity.
  - unfold bind. destruct (Hbody acc x s) as [e1 H1].
    destruct (body acc x s) as [[acc' | e] s1]; simpl in H1.
    + destruct (IH acc' s1) as [e2 H2]. exists (e1 ++ e2).
      rewrite H2, H1, app_assoc. reflexivity.
    + exists e1. exact H1.
Qed.

Lemma multi_scrape_heap_grows subreddits search pl so tf gc cl s :
  exists ext,
    heap (snd (multi_scrape subreddits search pl so tf gc cl s)) = heap s ++ ext.
Proof.
  unfold multi_scrape. unfold bind at 1. unfold lift.
  destruct (_type_defence subreddits Tlist "subreddit");
    [|exists []; rewrite app_nil_r; reflexivity].
  unfold bind at 1.
  destruct (length (list_items subreddits) <=? 0)%nat;
    [exists []; rewrite app_nil_r; reflexivity|].
  unfold ret at 1. cbv beta iota.
  apply fold_for_heap_grows. intros acc sub s0. unfold bind.
  destruct (scrape_heap_grows sub search pl so tf gc cl s0) as [ext Hext].
  destruct (scrape_subreddit sub search pl so tf gc cl s0) as [[data | e] s1];
    simpl in Hext; [|exists ext; exact Hext].
  destruct (dict_get (as_str sub) data); exists ext; exact Hext.
Qed.

Lemma heap_grows_keeps_objects s s' ext :
  heap s' = heap s ++ ext -> keeps_objects s s'.
Proof. intros H l o Hl. rewrite H. apply lookup_app_l_Some. exact Hl. Qed.

(** Scraping never refreshes or alters a table: after [scrape_subreddit] or
    [multi_scrape], whatever the outcome, [posts_df], [comments_df] and
    [joined_data_df] (and [edges], [nodes]) refer to the objects they
    referred to, and every object that existed before the call, the tables
    among them, is unchanged. *)
Theorem scraping_keeps_tables :
  forall a1 a2 a3 a4 a5 a6 a7 s,
    (outside_scraping (snd (scrape_subreddit a1 a2 a3 a4 a5 a6 a7 s))
     = outside_scraping s
     /\ keeps_objects s (snd (scrape_subreddit a1 a2 a3 a4 a5 a6 a7 s)))
    /\ (outside_scraping (snd (multi_scrape a1 a2 a3 a4 a5 a6 a7 s))
        = outside_scraping s
        /\ keeps_objects s (snd (multi_scrape a1 a2 a3 a4 a5 a6 a7 s))).
Proof.
  intros a1 a2 a3 a4 a5 a6 a7 s. split; split.
  - apply (skeeps_scrape_subreddit outside_scraping); intros; reflexivity.
  - destruct (scrape_heap_grows a1 a2 a3 a4 a5 a6 a7 s) as [ext Hext].
    apply (heap_grows_keeps_objects _ _ ext Hext).
  - apply (skeeps_multi_scrape outside_scraping); intros; reflexivity.
  - destruct (multi_scrape_heap_grows a1 a2 a3 a4 a5 a6 a7 s) as [ext Hext].
    apply (heap_grows_keeps_objects _ _ ext Hext).
Qed.

Lemma create_nodes_and_edges_stored s lj :
  joined_data_df s = Some lj ->
  create_nodes_and_edges s = nodes_and_edges_from lj s.
Proof.
  intros Hj. unfold create_nodes_and_edges, bind, get_state, ret.
  rewrite Hj. cbv beta iota. rewrite Hj. reflexivity.
Qed.

(** Once a joined table is stored, [create_nodes_and_edges] builds the graph
    from it and from nothing else: after a further call of
    [scrape_subreddit], whatever it fetched, the edges and the nodes are
    still those of the joined table stored before. *)
Theorem graph_ignores_later_scrapes :
  forall s lj J a c subreddit search post_limit sort time_filter get_comments
         comment_limit,
    joined_data_df s = Some lj ->
    heap s !! lj = Some (OFrame J) ->
    get_column J "author" = Ok a ->
    get_column J "comment_author" = Ok c ->
    let s1 := snd (scrape_subreddit subreddit search post_limit sort
                     time_filter get_comments comment_limit s) in
    create_nodes_and_edges s1
    = (Ok (S (length (heap s1)), length (heap s1)),
       set_heap (heap s1 ++ [OFrame (rename_columns edge_renaming J);
                             OFrame (nodes_frame (a ++ c))]) s1).
Proof.
  intros s lj J a c subreddit search pl so tf gc cl Hj HJ Ha Hc s1.
  assert (Hj1 : joined_data_df s1 = Some lj).
  { unfold s1.
    rewrite (skeeps_scrape_subreddit joined_data_df
               ltac:(intros; reflexivity) ltac:(intros; reflexivity)
               ltac:(intros; reflexivity)).
    exact Hj. }
  assert (HJ1 : heap s1 !! lj = Some (OFrame J)).
  { destruct (scrape_heap_grows subreddit search pl so tf gc cl s) as [ext Hext].
    unfold s1. rewrite Hext. apply lookup_app_l_Some. exact HJ. }
  rewrite (create_nodes_and_edges_stored s1 lj Hj1).
  rewrite nodes_and_edges_from_eq, HJ1, Ha, Hc. reflexivity.
Qed.

Lemma graph_ignores_later_scrapes_witness :
  exists J ln le s2,
    heap demo_joined1 !! 4 = Some (OFrame J)
    /\ length (rows J) = 2
    /\ create_nodes_and_edges
         (snd (scrape_subreddit (PStr "test") (PStr "bar") (PInt 50)
                 (PStr "top") (PStr "all") (PBool true) (PInt 10) demo_joined1))
       = (Ok (ln, le), s2).
Proof.
  assert (HJ : exists J a c,
             heap demo_joined1 !! 4 = Some (OFrame J)
             /\ get_column J "author" = Ok a
             /\ get_column J "comment_author" = Ok c
             /\ length (rows J) = 2).
  { eexists _, _, _. split; [vm_compute; reflexivity|].
    split; [vm_compute; reflexivity|]. split; vm_compute; reflexivity. }
  destruct HJ as (J & a & c & HJ & Ha & Hc & Hlen).
  assert (Hj : joined_data_df demo_joined1 = Some 4) by (vm_compute; reflexivity).
  exists J. eexists _, _, _. split; [exact HJ|]. split; [exact Hlen|].
  apply (graph_ignores_later_scrapes demo_joined1 4 J a c
           (PStr "test") (PStr "bar") (PInt 50) (PStr "top") (PStr "all")
           (PBool true) (PInt 10) Hj HJ Ha Hc).
Defined.

(** ** The tables of a scraped store, row by row *)

Lemma transpose_maps {A} (fs : list (A -> cell)) (xs : list A) :
  map (fun i => map (fun c => nth i c CNull) (map (fun f => map f xs) fs))
    (seq 0 (length xs))
  = map (fun x => map (fun f => f x) fs) xs.
Proof.
  induction xs as [|x xs IH]; [reflexivity|].
  simpl. f_equal.
  - rewrite map_map. reflexivity.
  - rewrite <- seq_shift, map_map. rewrite <- IH.
    apply map_ext. intros i. rewrite !map_map. reflexivity.
Qed.

Lemma replicate_const {A} (x : cell) (xs : list A) :
  replicate (length xs) x = map (fun _ => x) xs.
Proof. induction xs as [|y xs IH]; simpl; [|rewrite IH]; reflexivity. Qed.

Lemma frame_of_dict_comments coms :
  frame_of_dict (comments_of coms)
  = Ok (mkFrame comment_columns (map comment_row coms)).
Proof.
  unfold frame_of_dict, comments_of.
  cbn [dict_values dict_keys map fst snd forallb].
  rewrite !List.length_map, !Nat.eqb_refl. cbn [andb].
  unfold comment_row. rewrite <- (transpose_maps comment_fields coms).
  reflexivity.
Qed.

Lemma frame_of_dict_posts subr q posts coms :
  frame_of_dict
    (dict_set "search_query" (replicate (length posts) (CStr q))
       (dict_set "subreddit" (replicate (length posts) (CStr subr))
          (b_fields (bundle_of posts coms))))
  = Ok (mkFrame post_columns (map (post_row subr q) posts)).
Proof.
  rewrite !replicate_const.
  unfold frame_of_dict, bundle_of.
  cbn [b_fields dict_set String.eqb Ascii.eqb Bool.eqb dict_values dict_keys
       map fst snd forallb].
  rewrite !List.length_map, !Nat.eqb_refl. cbn [andb].
  unfold post_row. rewrite <- (transpose_maps (post_fields subr q) posts).
  reflexivity.
Qed.

Lemma flatten_step_scraped subr acc q posts coms :
  flatten_step subr acc (q, bundle_of posts coms)
  = Ok (concat (fst acc) (mkFrame post_columns (map (post_row subr q) posts)),
        concat (snd acc) (mkFrame comment_columns (map comment_row coms))).
Proof.
  unfold flatten_step. cbn [fst snd].
  change (dict_get "post_id" (b_fields (bundle_of posts coms)))
    with (Some (map (fun p => CStr (s_id p)) posts)).
  cbv beta iota. rewrite List.length_map.
  change (b_comments (bundle_of posts coms)) with (Some (comments_of coms)).
  cbn [frame_of_optional]. rewrite frame_of_dict_comments, frame_of_dict_posts.
  reflexivity.
Qed.

(** [pd.concat] of frames that have the same columns. *)
Section SameColumns.
Variable cols : list string.
Hypothesis cols_distinct :
  filter (fun c => negb (has_label c cols)) cols = [].
Hypothesis row_same :
  forall r, length r = length cols -> map (fun c => row_get cols c r) cols = r.

Lemma reindex_same rws :
  Forall (fun r => length r = length cols) rws ->
  reindex cols (mkFrame cols rws) = rws.
Proof.
  unfold reindex. simpl. intros H.
  induction H as [|r rws Hr _ IH]; simpl; [reflexivity|].
  rewrite (row_same r Hr), IH. reflexivity.
Qed.

Lemma filter_all (l : list string) :
  filter (fun c => negb (has_label c [])) l = l.
Proof.
  induction l as [|c l IH]; [reflexivity|].
  rewrite filter_cons_True by exact I. rewrite IH. reflexivity.
Qed.

Lemma concat_so_far started acc rws :
  (started = false -> acc = []) ->
  Forall (fun r => length r = length cols) acc ->
  Forall (fun r => length r = length cols) rws ->
  concat (table_so_far cols started acc) (mkFrame cols rws)
  = mkFrame cols (acc ++ rws).
Proof.
  intros Hstart Hacc Hrws. unfold concat. destruct started; simpl.
  - rewrite cols_distinct, app_nil_r.
    rewrite (reindex_same acc Hacc), (reindex_same rws Hrws). reflexivity.
  - rewrite (Hstart eq_refl). rewrite filter_all.
    rewrite (reindex_same rws Hrws). reflexivity.
Qed.
End SameColumns.

Lemma post_row_same r :
  length r = length post_columns ->
  map (fun c => row_get post_columns c r) post_columns = r.
Proof.
  intros H. do 10 (destruct r as [|? r]; try discriminate). reflexivity.
Qed.

Lemma comment_row_same r :
  length r = length comment_columns ->
  map (fun c => row_get comment_columns c r) comment_columns = r.
Proof.
  intros H. do 7 (destruct r as [|? r]; try discriminate). reflexivity.
Qed.

Lemma post_rows_wf subr q posts :
  Forall (fun r => length r = length post_columns) (map (post_row subr q) posts).
Proof.
  apply Forall_forall. intros r Hr. apply list_elem_of_In, in_map_iff in Hr.
  destruct Hr as [p [<- _]]. reflexivity.
Qed.

Lemma comment_rows_wf coms :
  Forall (fun r => length r = length comment_columns) (map comment_row coms).
Proof.
  apply Forall_forall. intros r Hr. apply list_elem_of_In, in_map_iff in Hr.
  destruct Hr as [p [<- _]]. reflexivity.
Qed.

(** The inner loop on the bundles of one community. *)
Lemma tables_inner_scraped subr inner :
  forall started Rp Rc,
    (started = false -> Rp = []) -> (started = false -> Rc = []) ->
    Forall (fun r => length r = length post_columns) Rp ->
    Forall (fun r => length r = length comment_columns) Rc ->
    tables_inner subr
      (table_so_far post_columns started Rp,
       table_so_far comment_columns started Rc)
      (map (fun e' => (fst e', bundle_of (fst (snd e')) (snd (snd e')))) inner)
    = Ok (table_so_far post_columns (started || has_entries inner)
            (Rp ++ inner_post_rows subr inner),
          table_so_far comment_columns (started || has_entries inner)
            (Rc ++ inner_comment_rows inner))
    /\ Forall (fun r => length r = length post_columns)
         (Rp ++ inner_post_rows subr inner)
    /\ Forall (fun r => length r = length comment_columns)
         (Rc ++ inner_comment_rows inner).
Proof.
  induction inner as [|[q [posts coms]] inner IH];
    intros started Rp Rc HRp HRc WRp WRc.
  - simpl. rewrite orb_false_r, !app_nil_r. auto.
  - cbn [map fst snd tables_inner]. rewrite flatten_step_scraped. cbn [fst snd].
    rewrite (concat_so_far post_columns eq_refl post_row_same started Rp _ HRp
               WRp (post_rows_wf subr q posts)).
    rewrite (concat_so_far comment_columns eq_refl comment_row_same started Rc _
               HRc WRc (comment_rows_wf coms)).
    change (mkFrame post_columns (Rp ++ map (post_row subr q) posts))
      with (table_so_far post_columns true (Rp ++ map (post_row subr q) posts)).
    change (mkFrame comment_columns (Rc ++ map comment_row coms))
      with (table_so_far comment_columns true (Rc ++ map comment_row coms)).
    destruct (IH true (Rp ++ map (post_row subr q) posts)
                (Rc ++ map comment_row coms)) as (E & W1 & W2);
      try discriminate.
    + apply Forall_app. split; [exact WRp | apply post_rows_wf].
    + apply Forall_app. split; [exact WRc | apply comment_rows_wf].
    + rewrite E. unfold inner_post_rows, inner_comment_rows in *.
      cbn [flat_map fst snd has_entries]. rewrite orb_true_r.
      rewrite <- !app_assoc in *. cbn [orb] in *. auto.
Qed.

Lemma tables_outer_scraped sv :
  forall started Rp Rc,
    (started = false -> Rp = []) -> (started = false -> Rc = []) ->
    Forall (fun r => length r = length post_columns) Rp ->
    Forall (fun r => length r = length comment_columns) Rc ->
    tables_outer
      (table_so_far post_columns started Rp,
       table_so_far comment_columns started Rc) (view_of sv)
    = Ok (table_so_far post_columns
            (started || existsb (fun e => has_entries (snd e)) sv)
            (Rp ++ all_post_rows sv),
          table_so_far comment_columns
            (started || existsb (fun e => has_entries (snd e)) sv)
            (Rc ++ all_comment_rows sv)).
Proof.
  induction sv as [|[c inner] sv IH]; intros started Rp Rc HRp HRc WRp WRc.
  - simpl. rewrite orb_false_r, !app_nil_r. reflexivity.
  - cbn [view_of map fst snd tables_outer].
    destruct (tables_inner_scraped c inner started Rp Rc HRp HRc WRp WRc)
      as (E & W1 & W2).
    rewrite E. fold (view_of sv).
    rewrite IH; try assumption.
    + unfold all_post_rows, all_comment_rows.
      cbn [flat_map fst snd existsb]. rewrite <- !app_assoc, orb_assoc.
      reflexivity.
    + intros H. apply orb_false_iff in H. destruct H as [H1 H2].
      rewrite (HRp H1). destruct inner; [reflexivity | discriminate].
    + intros H. apply orb_false_iff in H. destruct H as [H1 H2].
      rewrite (HRc H1). destruct inner; [reflexivity | discriminate].
Qed.

Lemma view_of_has_bundle sv :
  store_bundles (view_of sv) <> [] ->
  existsb (fun e => has_entries (snd e)) sv = true.
Proof.
  unfold store_bundles, store_values.
  induction sv as [|[c inner] sv IH]; simpl; [congruence|].
  destruct inner as [|e inner]; simpl; [exact IH | reflexivity].
Qed.

(** The two tables of a scraped store with at least one bundle. *)
Lemma tables_scraped sv :
  store_bundles (view_of sv) <> [] ->
  tables (view_of sv)
  = Ok (mkFrame post_columns (all_post_rows sv),
        mkFrame comment_columns (all_comment_rows sv)).
Proof.
  intros Hne. unfold tables.
  change (empty_frame, empty_frame)
    with (table_so_far post_columns false [], table_so_far comment_columns false []).
  rewrite tables_outer_scraped; auto.
  rewrite (view_of_has_bundle sv Hne). reflexivity.
Qed.





(** ** From a scraped store to the graph *)

Lemma merge_right_scraped Rp Rc :
  merge_right (mkFrame post_columns Rp) (mkFrame comment_columns Rc) "post_id"
  = Ok (mkFrame joined_columns
          (flat_map (join_right_row (mkFrame post_columns Rp) 0 0) Rc)).
Proof. reflexivity. Qed.

Lemma create_nodes_and_edges_fresh s l s0 :
  joined_data_df s = None ->
  full_format_to_pandas s = (Ok l, s0) ->
  create_nodes_and_edges s = nodes_and_edges_from l s0.
Proof.
  intros Hj Hff. destruct (full_format_returns _ _ _ Hff) as [Hj0 _].
  unfold create_nodes_and_edges. unfold bind at 1. unfold get_state at 1.
  rewrite Hj. unfold bind at 1. unfold bind at 1. rewrite Hff.
  unfold ret, bind, get_state. rewrite Hj0. reflexivity.
Qed.

Lemma lookup_third {A} (h mid : list A) x y z :
  (h ++ mid ++ [x; y; z]) !! S (S (length h + length mid)) = Some z.
Proof.
  rewrite lookup_app_r by lia. rewrite lookup_app_r by lia.
  replace (S (S (length h + length mid)) - length h - length mid) with 2 by lia.
  reflexivity.
Qed.

(** [create_nodes_and_edges] on a scraped store that has no joined table
    yet: the run, in closed form. *)
Lemma create_nodes_and_edges_scraped s sv :
  store_ok s (view_of sv) -> store_bundles (view_of sv) <> [] ->
  joined_data_df s = None ->
  exists s0,
    create_nodes_and_edges s
    = (Ok (S (length (heap s0)), length (heap s0)),
       set_heap (heap s0 ++ [OFrame (mkFrame edge_columns (joined_rows sv));
                             OFrame (nodes_frame (graph_users sv))]) s0).
Proof.
  intros Hok Hne Hj.
  destruct (full_format_ok s (view_of sv) Hok Hne)
    as (mid & P & C & il & ir & J & Ht & _ & _ & Hil & Hir & HJ & _ & Hrun).
  rewrite (tables_scraped sv Hne) in Ht. inversion Ht; subst P C. clear Ht.
  rewrite merge_right_scraped in HJ. inversion HJ; subst J. clear HJ Hil Hir.
  fold (joined_rows sv) in Hrun.
  rewrite (create_nodes_and_edges_fresh s _ _ Hj Hrun).
  match type of Hrun with _ = (_, ?st) => exists st end.
  rewrite nodes_and_edges_from_eq. simpl heap.
  rewrite lookup_third. reflexivity.
Qed.

Lemma demo_state_posts_only_ok :
  store_ok demo_state_posts_only (view_of demo_sv_posts_only).
Proof.
  apply (scrape_keeps_store_ok (PStr "test") (PStr "foo") (PInt 50) (PStr "top")
           (PStr "all") (PBool false) (PInt 10) (init demo_client)
           [("test", 0)] demo_state_posts_only [] (init_store_ok demo_client)).
  vm_compute. reflexivity.
Qed.

(** A store scraped without comments gives an empty graph: the posts are in
    the posts table, but the join keeps comment rows only, so the edges
    table and the nodes table have their columns and no row. *)
Theorem graph_without_comments_is_empty :
  forall s sv,
    store_ok s (view_of sv) -> store_bundles (view_of sv) <> [] ->
    joined_data_df s = None ->
    all_comment_rows sv = [] ->
    exists ln le s',
      create_nodes_and_edges s = (Ok (ln, le), s')
      /\ heap s' !! le = Some (OFrame (mkFrame edge_columns []))
      /\ heap s' !! ln = Some (OFrame (mkFrame ["id"] [])).
Proof.
  intros s sv Hok Hne Hj Hnone.
  destruct (create_nodes_and_edges_scraped s sv Hok Hne Hj) as (s0 & Hrun).
  assert (Hrows : joined_rows sv = []).
  { unfold joined_rows. rewrite Hnone. reflexivity. }
  assert (Husers : graph_users sv = []).
  { unfold graph_users. rewrite Hrows. reflexivity. }
  rewrite Hrows, Husers in Hrun.
  eexists _, _, _. split; [exact Hrun|]. simpl heap. split.
  - rewrite lookup_app_r by lia. rewrite Nat.sub_diag. reflexivity.
  - rewrite lookup_app_r by lia.
    replace (S (length (heap s0)) - length (heap s0)) with 1 by lia.
    reflexivity.
Qed.

Lemma graph_without_comments_is_empty_witness :
  exists ln le s',
    create_nodes_and_edges demo_state_posts_only = (Ok (ln, le), s')
    /\ heap s' !! le = Some (OFrame (mkFrame edge_columns []))
    /\ heap s' !! ln = Some (OFrame (mkFrame ["id"] [])).
Proof.
  assert (Hj : joined_data_df demo_state_posts_only = None)
    by (vm_compute; reflexivity).
  assert (Hne : store_bundles (view_of demo_sv_posts_only) <> [])
    by (vm_compute; discriminate).
  apply (graph_without_comments_is_empty demo_state_posts_only
           demo_sv_posts_only demo_state_posts_only_ok Hne Hj).
  reflexivity.
Defined.












(** ** Scraping the same community and query again *)

Lemma dict_set_twice {V} k (v1 v2 : V) d :
  dict_set k v2 (dict_set k v1 d) = dict_set k v2 d.
Proof.
  induction d as [|[k' v'] d IH]; simpl.
  - rewrite String.eqb_refl. reflexivity.
  - destruct (String.eqb k k') eqn:E; simpl; rewrite E; [reflexivity|].
    rewrite IH. reflexivity.
Qed.

Lemma store_bundle_twice {V} c q (b1 b2 : V) data :
  store_bundle c q b2 (store_bundle c q b1 data) = store_bundle c q b2 data.
Proof.
  unfold store_bundle.
  destruct (dict_get c data) as [inner|] eqn:E;
    rewrite dict_get_set_eq, dict_set_twice, dict_set_twice; reflexivity.
Qed.

(** A second successful scrape of the same community for the same query
    replaces the bundle of the first: the store is the one the second scrape
    alone would have left, with no trace of the posts and comments fetched
    first, whatever the other arguments of the two calls. *)
Theorem rescrape_replaces_the_bundle :
  forall subreddit search pl1 so1 tf1 gc1 cl1 pl2 so2 tf2 gc2 cl2
         s out1 s1 out2 s2 view,
    store_ok s view ->
    scrape_subreddit subreddit search pl1 so1 tf1 gc1 cl1 s = (Ok out1, s1) ->
    scrape_subreddit subreddit search pl2 so2 tf2 gc2 cl2 s1 = (Ok out2, s2) ->
    let posts := items (reddit s1 (io_log s1) (as_str subreddit)
                          (as_str search) pl2 (as_str so2) (as_str tf2)) in
    store_ok s2
      (store_bundle (as_str subreddit) (as_str search)
         (bundle_of posts (flat_map (taken gc2 cl2) posts)) view).
Proof.
  intros subreddit search pl1 so1 tf1 gc1 cl1 pl2 so2 tf2 gc2 cl2
         s out1 s1 out2 s2 view Hok H1 H2 posts.
  pose proof (scrape_keeps_store_ok _ _ _ _ _ _ _ _ _ _ _ Hok H1) as Hok1.
  pose proof (scrape_keeps_store_ok _ _ _ _ _ _ _ _ _ _ _ Hok1 H2) as Hok2.
  cbv zeta in Hok2. rewrite store_bundle_twice in Hok2. exact Hok2.
Qed.

Lemma rescrape_replaces_the_bundle_witness :
  let posts := items (reddit demo_state1 (io_log demo_state1) "test" "foo"
                        (PInt 50) "top" "all") in
  store_ok demo_state_rescraped
    (store_bundle "test" "foo"
       (bundle_of posts (flat_map (taken (PBool false) (PInt 10)) posts)) []).
Proof.
  assert (H1 : demo_scrape "test" "foo" (init demo_client)
               = (Ok [("test", 0)], demo_state1)) by reflexivity.
  assert (H2 : scrape_subreddit (PStr "test") (PStr "foo") (PInt 50)
                 (PStr "top") (PStr "all") (PBool false) (PInt 10) demo_state1
               = (Ok [("test", 1)], demo_state_rescraped)) by reflexivity.
  exact (rescrape_replaces_the_bundle (PStr "test") (PStr "foo") (PInt 50)
           (PStr "top") (PStr "all") (PBool true) (PInt 10) (PInt 50)
           (PStr "top") (PStr "all") (PBool false) (PInt 10)
           (init demo_client) [("test", 0)] demo_state1 [("test", 1)]
           demo_state_rescraped [] (init_store_ok demo_client) H1 H2).
Defined.

(** ** Formatting and the stored bundles *)

Lemma store_ok_ext s s' view ext :
  store_ok s view -> heap s' = heap s ++ ext ->
  scraped_data s' = scraped_data s -> store_ok s' view.
Proof.
  intros (Hat & Hnd & Hinv) Hh Hd. unfold store_ok. rewrite Hh, Hd.
  split; [apply store_at_app; exact Hat | split; assumption].
Qed.

Lemma nodes_and_edges_from_keeps_store_ok lj s view :
  store_ok s view -> store_ok (snd (nodes_and_edges_from lj s)) view.
Proof.
  intros Hok. rewrite nodes_and_edges_from_eq.
  destruct (heap s !! lj) as [[b | J]|]; try exact Hok.
  destruct (get_column J "author") as [a | e];
    [destruct (get_column J "comment_author") as [c | e]|];
    simpl snd; eapply store_ok_ext; try exact Hok; reflexivity.
Qed.

(** The formatting methods work on copies: after [semi_format_to_pandas],
    [full_format_to_pandas] or [create_nodes_and_edges], every bundle of the
    store is the bundle it was, its [comments] entry included, and the store
    still satisfies its invariant. *)
Theorem formatting_keeps_the_stored_bundles :
  forall s view,
    store_ok s view -> store_bundles view <> [] ->
    store_ok (snd (semi_format_to_pandas s)) view
    /\ store_ok (snd (full_format_to_pandas s)) view
    /\ store_ok (snd (create_nodes_and_edges s)) view.
Proof.
  intros s view Hok Hne.
  destruct (full_format_ok s view Hok Hne)
    as (mid & P & C & il & ir & J & _ & _ & _ & _ & _ & _ & _ & Hfull).
  assert (Hok0 : store_ok (snd (full_format_to_pandas s)) view).
  { rewrite Hfull. simpl snd. eapply store_ok_ext; try exact Hok; reflexivity. }
  split; [|split; [exact Hok0|]].
  - destruct (semi_format_ok s view Hok (store_bundles_not_nil _ Hne))
      as (mid' & P' & C' & _ & Hsemi).
    rewrite Hsemi. simpl snd. apply store_ok_grow. exact Hok.
  - destruct (joined_data_df s) as [lj|] eqn:Hj.
    + rewrite (create_nodes_and_edges_stored s lj Hj).
      apply nodes_and_edges_from_keeps_store_ok. exact Hok.
    + rewrite (create_nodes_and_edges_fresh s _ _ Hj Hfull).
      apply nodes_and_edges_from_keeps_store_ok.
      rewrite Hfull in Hok0. exact Hok0.
Qed.

Lemma formatting_keeps_the_stored_bundles_witness :
  store_ok (snd (semi_format_to_pandas demo_state2)) demo_view2
  /\ store_ok (snd (full_format_to_pandas demo_state2)) demo_view2
  /\ store_ok (snd (create_nodes_and_edges demo_state2)) demo_view2.
Proof.
  apply (formatting_keeps_the_stored_bundles demo_state2 demo_view2
           demo_state2_ok).
  vm_compute. discriminate.
Defined.

(** ** A bool where an int is expected *)

(** [comment_limit] is checked with [isinstance(_, int)], which a bool
    passes: [True] is not refused and keeps one comment per post, [False]
    keeps none. *)
Theorem scrape_takes_a_bool_as_comment_limit :
  forall subreddit search post_limit sort time_filter get_comments (b : bool) s,
    scrape_subreddit subreddit search post_limit sort time_filter get_comments
      (PBool b) s
    = scrape_subreddit subreddit search post_limit sort time_filter
        get_comments (PInt (Z.b2z b)) s.
Proof.
  intros subreddit search post_limit sort time_filter get_comments b s.
  destruct b; reflexivity.
Qed.
